(** * Candidate-site scoring, clustering and character dialogue

    A shallow embedding of three scripts of the repository:

    - [score_candidate_sites.py]: [compute_score_vec], the vectorised
      weighted score of candidate sites (module [Scoring]);
    - [generate_hypotheses.py]: the top-quantile filter, DBSCAN labelling
      and the [groupby] loop that builds one record per cluster (module
      [Clustering]);
    - [generate_character_dialogue.py]: [call_chat_async] with its retry
      decorator, [evaluate_character], [evaluate_site] and the result loop
      of [main] (module [Dialogue]).

    Numbers are IEEE-754 binary64 values, as numpy holds them: the type
    [spec_float] of the standard library with precision 53 and maximal
    exponent 1024, so NaN, the infinities and rounding behave as in the
    scripts.  Python dictionaries are [gmap]s; exceptions are values of an
    error monad. *)

From Stdlib Require Import ZArith List Bool Ascii String Lia Sorted Permutation.
From Stdlib Require Import Floats.SpecFloat.
From stdpp Require Import gmap strings list fin_maps pretty.

Open Scope Z_scope.

(** ** Exceptions *)

(** A raised Python exception: the name of its class and [str(e)]. *)
Inductive exn : Type :=
| Exn (type_name : string) (msg : string).

Definition exn_type (e : exn) : string :=
  match e with Exn t _ => t end.

Definition exn_str (e : exn) : string :=
  match e with Exn _ m => m end.

(** [str(KeyError(k))] is the [repr] of the key. *)
Definition KeyError (k : string) : exn :=
  Exn "KeyError" ("'" +:+ k +:+ "'").

Inductive result (A : Type) : Type :=
| Ok (a : A)
| Raise (e : exn).

Arguments Ok {A} a.
Arguments Raise {A} e.

Definition bind {A B : Type} (r : result A) (k : A -> result B) : result B :=
  match r with
  | Ok a => k a
  | Raise e => Raise e
  end.

Notation "'let*' x ':=' r 'in' k" := (bind r (fun x => k))
  (at level 10, x pattern, r at level 100, k at level 200).

(** [d[k]] on a dictionary. *)
Definition getitem {V : Type} (d : gmap string V) (k : string) : result V :=
  match d !! k with
  | Some v => Ok v
  | None => Raise (KeyError k)
  end.

(** [o[k]] where [k] is one of the known keys of [o]; [field] is what is
    stored under it, if anything. *)
Definition getfield {V : Type} (field : option V) (k : string) : result V :=
  match field with
  | Some v => Ok v
  | None => Raise (KeyError k)
  end.

(** ** binary64 arithmetic *)

Module Float.

Definition F : Type := spec_float.

Definition prec : Z := 53.
Definition emax : Z := 1024.

Definition add : F -> F -> F := SFadd prec emax.
Definition sub : F -> F -> F := SFsub prec emax.
Definition mul : F -> F -> F := SFmul prec emax.
Definition div : F -> F -> F := SFdiv prec emax.
Definition abs : F -> F := SFabs.
Definition ltb : F -> F -> bool := SFltb.
Definition leb : F -> F -> bool := SFleb.
Definition eqb : F -> F -> bool := SFeqb.

Definition is_nan (x : F) : bool :=
  match x with S754_nan => true | _ => false end.

Definition is_inf (x : F) : bool :=
  match x with S754_infinity _ => true | _ => false end.

Definition of_Z (z : Z) : F := binary_normalize prec emax z 0 false.

(** The double nearest to the decimal [n / 10^k]. *)
Definition dec (n : Z) (k : Z) : F := div (of_Z n) (of_Z (10 ^ k)).

Definition zero : F := S754_zero false.
Definition one : F := of_Z 1.
Definition nan : F := S754_nan.
Definition pinf : F := S754_infinity false.
Definition ninf : F := S754_infinity true.

Arguments add : simpl never.
Arguments sub : simpl never.
Arguments mul : simpl never.
Arguments div : simpl never.
Arguments abs : simpl never.
Arguments ltb : simpl never.
Arguments leb : simpl never.
Arguments eqb : simpl never.
Arguments is_nan : simpl never.
Arguments of_Z : simpl never.

End Float.

Import Float.

(** ** [score_candidate_sites.py] *)

Module Scoring.

(** One row of the candidate GeoDataFrame, restricted to the five feature
    columns that [compute_score_vec] reads.  A missing value is NaN. *)
Record site : Type := {
  ndvi : F;
  slope : F;
  elevation : F;
  carbon : F;
  landcover : F
}.

(** One entry of [configs/weights.yml]; a key the entry lacks is [None]. *)
Record feature_cfg : Type := {
  weight : option F;
  ideal : option F;
  range : option F;
  max_deg : option F;
  norm_div : option F;
  pref_classes : option (list F)
}.

(** [cfg[feat][key]] *)
Definition cfg_get {V : Type} (cfg : gmap string feature_cfg) (feat : string)
    (proj : feature_cfg -> option V) (key : string) : result V :=
  let* c := getitem cfg feat in getfield (proj c) key.

(** numpy's [clip] on doubles: [min(max(x, lo), hi)], where both steps
    return their first argument when it is NaN. *)
Definition npy_max (a b : F) : F :=
  if is_nan a then a else if ltb b a then a else b.

Definition npy_min (a b : F) : F :=
  if is_nan a then a else if ltb a b then a else b.

Definition clip (x lo hi : F) : F := npy_min (npy_max x lo) hi.

(** [np.isin(x, classes).astype(float)] at one element. *)
Definition isin (classes : list F) (x : F) : F :=
  if existsb (eqb x) classes then one else zero.

(** [~np.isnan(col)] *)
Definition notnan (col : list F) : list bool :=
  map (fun v => negb (is_nan v)) col.

(** [acc[valid] += sub[valid] * w] *)
Definition iadd_scaled (acc : list F) (valid : list bool) (sub : list F)
    (w : F) : list F :=
  zip_with (fun a '(m, s) => if (m : bool) then add a (mul s w) else a)
    acc (zip valid sub).

(** [acc[valid] += w] *)
Definition iadd_const (acc : list F) (valid : list bool) (w : F) : list F :=
  zip_with (fun a (m : bool) => if m then add a w else a) acc valid.

(** [np.divide(score, weights, out=np.zeros_like(score), where=weights > 0)] *)
Definition divide_where (score weights : list F) : list F :=
  zip_with (fun s w => if ltb zero w then div s w else zero) score weights.

Definition compute_score_vec (df : list site) (cfg : gmap string feature_cfg)
    : result (list F) :=
  let score := replicate (length df) zero in
  let weights := replicate (length df) zero in
  (* NDVI *)
  let ndvi_ := map ndvi df in
  let valid := notnan ndvi_ in
  let* i := cfg_get cfg "ndvi" ideal "ideal" in
  let* r := cfg_get cfg "ndvi" range "range" in
  let ndvi_score := map (fun v => sub one (div (abs (sub v i)) r)) ndvi_ in
  let* w := cfg_get cfg "ndvi" weight "weight" in
  let score := iadd_scaled score valid ndvi_score w in
  let* w := cfg_get cfg "ndvi" weight "weight" in
  let weights := iadd_const weights valid w in
  (* Slope *)
  let slope_ := map slope df in
  let valid := notnan slope_ in
  let* m := cfg_get cfg "slope" max_deg "max_deg" in
  let slope_score := map (fun v => clip (sub one (div v m)) zero one) slope_ in
  let* w := cfg_get cfg "slope" weight "weight" in
  let score := iadd_scaled score valid slope_score w in
  let* w := cfg_get cfg "slope" weight "weight" in
  let weights := iadd_const weights valid w in
  (* Elevation *)
  let elev := map elevation df in
  let valid := notnan elev in
  let* i := cfg_get cfg "elevation" ideal "ideal" in
  let* r := cfg_get cfg "elevation" range "range" in
  let elev_score := map (fun v => sub one (div (abs (sub v i)) r)) elev in
  let* w := cfg_get cfg "elevation" weight "weight" in
  let score := iadd_scaled score valid elev_score w in
  let* w := cfg_get cfg "elevation" weight "weight" in
  let weights := iadd_const weights valid w in
  (* Carbon *)
  let carbon_ := map carbon df in
  let valid := notnan carbon_ in
  let* d := cfg_get cfg "carbon" norm_div "norm_div" in
  let carbon_score := map (fun v => clip (div v d) zero one) carbon_ in
  let* w := cfg_get cfg "carbon" weight "weight" in
  let score := iadd_scaled score valid carbon_score w in
  let* w := cfg_get cfg "carbon" weight "weight" in
  let weights := iadd_const weights valid w in
  (* Landcover *)
  let lc := map landcover df in
  let valid := notnan lc in
  let* cl := cfg_get cfg "landcover" pref_classes "pref_classes" in
  let lc_score := map (isin cl) lc in
  let* w := cfg_get cfg "landcover" weight "weight" in
  let score := iadd_scaled score valid lc_score w in
  let* w := cfg_get cfg "landcover" weight "weight" in
  let weights := iadd_const weights valid w in
  Ok (divide_where score weights).

(** *** The score of one site, feature by feature

    The same computation read row-wise: the configuration values that
    [compute_score_vec] reads, and the running pair (score, weights) of one
    site, to which a feature contributes only when its value is present. *)

Record params : Type := {
  ndvi_ideal : F; ndvi_range : F; ndvi_weight : F;
  slope_max_deg : F; slope_weight : F;
  elev_ideal : F; elev_range : F; elev_weight : F;
  carbon_norm_div : F; carbon_weight : F;
  lc_classes : list F; lc_weight : F
}.

Definition read_cfg (cfg : gmap string feature_cfg) : result params :=
  let* ni := cfg_get cfg "ndvi" ideal "ideal" in
  let* nr := cfg_get cfg "ndvi" range "range" in
  let* nw := cfg_get cfg "ndvi" weight "weight" in
  let* sm := cfg_get cfg "slope" max_deg "max_deg" in
  let* sw := cfg_get cfg "slope" weight "weight" in
  let* ei := cfg_get cfg "elevation" ideal "ideal" in
  let* er := cfg_get cfg "elevation" range "range" in
  let* ew := cfg_get cfg "elevation" weight "weight" in
  let* cd := cfg_get cfg "carbon" norm_div "norm_div" in
  let* cw := cfg_get cfg "carbon" weight "weight" in
  let* lcl := cfg_get cfg "landcover" pref_classes "pref_classes" in
  let* lw := cfg_get cfg "landcover" weight "weight" in
  Ok {| ndvi_ideal := ni; ndvi_range := nr; ndvi_weight := nw;
        slope_max_deg := sm; slope_weight := sw;
        elev_ideal := ei; elev_range := er; elev_weight := ew;
        carbon_norm_div := cd; carbon_weight := cw;
        lc_classes := lcl; lc_weight := lw |}.

(** A feature of one site: its value, its sub-score and its weight. *)
Record feature : Type := {
  value : F;
  subscore : F;
  fweight : F
}.

Definition features (p : params) (x : site) : list feature :=
  [ {| value := ndvi x;
       subscore := sub one (div (abs (sub (ndvi x) (ndvi_ideal p))) (ndvi_range p));
       fweight := ndvi_weight p |};
    {| value := slope x;
       subscore := clip (sub one (div (slope x) (slope_max_deg p))) zero one;
       fweight := slope_weight p |};
    {| value := elevation x;
       subscore := sub one (div (abs (sub (elevation x) (elev_ideal p))) (elev_range p));
       fweight := elev_weight p |};
    {| value := carbon x;
       subscore := clip (div (carbon x) (carbon_norm_div p)) zero one;
       fweight := carbon_weight p |};
    {| value := landcover x;
       subscore := isin (lc_classes p) (landcover x);
       fweight := lc_weight p |} ].

(** A feature is present when its value is not NaN. *)
Definition present (f : feature) : bool := negb (is_nan (value f)).

Definition present_features (p : params) (x : site) : list feature :=
  filter (fun f => present f = true) (features p x).

(** [score += weight * subscore; weight_sum += weight] over the given
    features, from (0, 0). *)
Definition accumulate (fs : list feature) : F * F :=
  fold_left (fun acc f => (add (fst acc) (mul (subscore f) (fweight f)),
                           add (snd acc) (fweight f)))
    fs (zero, zero).

Definition weight_sum (p : params) (x : site) : F :=
  snd (accumulate (present_features p x)).

(** [score / weight_sum if weight_sum > 0 else 0] *)
Definition finish (acc : F * F) : F :=
  if ltb zero (snd acc) then div (fst acc) (snd acc) else zero.

Definition row_score (p : params) (x : site) : F :=
  finish (accumulate (present_features p x)).

(** *** [main]: the numeric coercion of the feature columns

    A cell as read from the input file, and
    [pd.to_numeric(col, errors="coerce")]: a number stays, text that parses
    as a number becomes that number, anything else becomes NaN.  The parser
    is pandas' own. *)
Inductive cell : Type :=
| CNum (x : F)
| CText (s : string)
| CNull.

Definition to_numeric (parse : string -> option F) (c : cell) : F :=
  match c with
  | CNum x => x
  | CText s => match parse s with Some x => x | None => nan end
  | CNull => nan
  end.

Record raw_site : Type := {
  raw_ndvi : cell;
  raw_slope : cell;
  raw_elevation : cell;
  raw_carbon : cell;
  raw_landcover : cell
}.

Definition coerce (parse : string -> option F) (r : raw_site) : site :=
  {| ndvi := to_numeric parse (raw_ndvi r);
     slope := to_numeric parse (raw_slope r);
     elevation := to_numeric parse (raw_elevation r);
     carbon := to_numeric parse (raw_carbon r);
     landcover := to_numeric parse (raw_landcover r) |}.

(** The [site_score] column that [main] computes, line 85. *)
Definition main_site_score (parse : string -> option F) (gdf : list raw_site)
    (cfg : gmap string feature_cfg) : result (list F) :=
  compute_score_vec (map (coerce parse) gdf) cfg.

(** [fillna(0)] on a column, line 88. *)
Definition fillna (col : list F) : list F :=
  map (fun v => if is_nan v then zero else v) col.

(** *** Sample inputs *)

Definition entry (w : F) : feature_cfg :=
  {| weight := Some w; ideal := None; range := None; max_deg := None;
     norm_div := None; pref_classes := None |}.

(** A configuration in the shape of [configs/weights.yml], with the NDVI
    range as a parameter. *)
Definition sample_cfg (ndvi_rng : F) : gmap string feature_cfg :=
  <["ndvi" := {| weight := Some (dec 3 1); ideal := Some (dec 5 1);
                 range := Some ndvi_rng; max_deg := None; norm_div := None;
                 pref_classes := None |}]>
  (<["slope" := {| weight := Some (dec 2 1); ideal := None; range := None;
                   max_deg := Some (of_Z 30); norm_div := None;
                   pref_classes := None |}]>
  (<["elevation" := {| weight := Some (dec 2 1); ideal := Some (of_Z 100);
                       range := Some (of_Z 200); max_deg := None;
                       norm_div := None; pref_classes := None |}]>
  (<["carbon" := {| weight := Some (dec 2 1); ideal := None; range := None;
                    max_deg := None; norm_div := Some (of_Z 50);
                    pref_classes := None |}]>
  (<["landcover" := {| weight := Some (dec 1 1); ideal := None; range := None;
                       max_deg := None; norm_div := None;
                       pref_classes := Some [of_Z 10; of_Z 20] |}]> ∅)))).

Definition sample_params (ndvi_rng : F) : params :=
  {| ndvi_ideal := dec 5 1; ndvi_range := ndvi_rng; ndvi_weight := dec 3 1;
     slope_max_deg := of_Z 30; slope_weight := dec 2 1;
     elev_ideal := of_Z 100; elev_range := of_Z 200; elev_weight := dec 2 1;
     carbon_norm_div := of_Z 50; carbon_weight := dec 2 1;
     lc_classes := [of_Z 10; of_Z 20]; lc_weight := dec 1 1 |}.

Definition only_ndvi (v : F) : site :=
  {| ndvi := v; slope := nan; elevation := nan; carbon := nan;
     landcover := nan |}.

(** A site with every feature present: ideal NDVI, flat, carbon-rich, of a
    preferred land cover, at 2000 m. *)
Definition highland : site :=
  {| ndvi := dec 5 1; slope := zero; elevation := of_Z 2000;
     carbon := of_Z 50; landcover := of_Z 10 |}.

(** An input row whose NDVI cell is text that is no number. *)
Definition text_ndvi : raw_site :=
  {| raw_ndvi := CText "n/a"; raw_slope := CNum (of_Z 3);
     raw_elevation := CNum (of_Z 100); raw_carbon := CNull;
     raw_landcover := CNum (of_Z 10) |}.

Definition no_parse (s : string) : option F := None.

End Scoring.

(** ** [generate_hypotheses.py]: clustering of the high-score sites *)

Module Clustering.

(** A row of a GeoDataFrame: its index label, its score and its geometry. *)
Record row (G : Type) : Type := {
  label : nat;
  site_score : F;
  geometry : G
}.

Arguments label {G} r.
Arguments site_score {G} r.
Arguments geometry {G} r.

(** [cfg["eps_km"]]: the text ["auto"] or a number. *)
Inductive eps_setting : Type :=
| EpsAuto
| EpsValue (x : F).

(** [configs/cluster.yml] *)
Record cluster_cfg : Type := {
  top_quantile : F;
  proj_epsg : Z;
  eps_km : eps_setting;
  min_samples : Z;
  buffer_m : F
}.

(** One element of [records]. *)
Record cluster_record (P : Type) : Type := {
  cluster : Z;
  hull : P;
  mean : F;
  q25 : F;
  q75 : F;
  iqr : F;
  min : F;
  max : F;
  n_pts : nat
}.

Arguments cluster {P} c.
Arguments hull {P} c.
Arguments mean {P} c.
Arguments q25 {P} c.
Arguments q75 {P} c.
Arguments iqr {P} c.
Arguments min {P} c.
Arguments max {P} c.
Arguments n_pts {P} c.

(** [gpd.read_file]: the rows of the file under a fresh range index. *)
Definition read_file {G : Type} (rows : list (F * G)) : list (row G) :=
  imap (fun i r => {| label := i; site_score := fst r; geometry := snd r |})
    rows.

(** Modelled from the spec: [utils.cluster.project_gdf], which is not among
    the sources.  The spec has it project the site locations into a planar
    coordinate system; every row keeps its label and its score, and its
    geometry is reprojected by geopandas ([to_crs]). *)
Definition project_gdf {G : Type} (to_crs : Z -> G -> F * F)
    (gdf : list (row G)) (epsg : Z) : list (row (F * F)) :=
  map (fun r => {| label := label r; site_score := site_score r;
                   geometry := to_crs epsg (geometry r) |}) gdf.

(** [gdf["cluster"] = labels]: pandas refuses a column of another length. *)
Definition set_cluster {G : Type} (gdf : list (row G)) (labels : list Z)
    : result (list (row G * Z)) :=
  if decide (length labels = length gdf) then Ok (zip gdf labels)
  else Raise (Exn "ValueError"
                "Length of values does not match length of index").

(** The keys of a [groupby]: the distinct values, in ascending order. *)
Fixpoint insert_key (k : Z) (ks : list Z) : list Z :=
  match ks with
  | [] => [k]
  | k' :: ks' =>
      if k <? k' then k :: ks
      else if k =? k' then ks
      else k' :: insert_key k ks'
  end.

Definition sorted_keys (l : list Z) : list Z := foldr insert_key [] l.

(** [gdf.groupby("cluster")]: one pair (key, sub-frame) per key, by
    ascending key; a sub-frame keeps the rows of its key in frame order. *)
Definition groupby {G : Type} (gdf : list (row G * Z))
    : list (Z * list (row G * Z)) :=
  map (fun k => (k, filter (fun r => snd r = k) gdf))
    (sorted_keys (map snd gdf)).

Section Engine.

Context {G P : Type}.

(** geopandas, pandas, shapely and scikit-learn.  [DBSCAN eps min_samples
    coords] is [DBSCAN(eps, min_samples).fit_predict(coords)]. *)
Variable to_crs : Z -> G -> F * F.
Variable quantile : list F -> F -> F.
Variable series_mean : list F -> F.
Variable series_min : list F -> F.
Variable series_max : list F -> F.
Variable DBSCAN : F -> Z -> list (F * F) -> list Z.
Variable hull_buffer : list (F * F) -> F -> P.

(** [utils.cluster.suggest_eps], not among the sources: the eps derived
    from the data when the configuration says ["auto"]. *)
Variable suggest_eps : list (row (F * F)) -> F.

(** Steps 1 to 3 of [main], and the frames the loop of step 4 runs over:
    the top-quantile rows, their projection, the DBSCAN labels as a column,
    the noise removed, and the groups by label. *)
Definition top_rows (gdf : list (row G)) (cfg : cluster_cfg) : list (row G) :=
  let q := quantile (map site_score gdf) (top_quantile cfg) in
  filter (fun r => leb q (site_score r) = true) gdf.

Definition labelled (top : list (row G)) (cfg : cluster_cfg)
    : result (list (row (F * F) * Z)) :=
  let gdf_proj := project_gdf to_crs top (proj_epsg cfg) in
  let eps_km_ :=
    match eps_km cfg with
    | EpsAuto => suggest_eps gdf_proj
    | EpsValue x => x
    end in
  let eps_m := mul eps_km_ (of_Z 1000) in
  let coords := map geometry gdf_proj in
  set_cluster gdf_proj (DBSCAN eps_m (min_samples cfg) coords).

Definition not_noise (gdf : list (row (F * F) * Z)) : list (row (F * F) * Z) :=
  filter (fun r => snd r <> -1) gdf.

Definition cluster_groups (in_file : list (F * G)) (cfg : cluster_cfg)
    : result (list (Z * list (row (F * F) * Z))) :=
  let gdf := read_file in_file in
  let top := top_rows gdf cfg in
  match top with
  | [] => Raise (Exn "RuntimeError" "Top-quantile 抽出の結果が 0 行でした。site_score を確認してください。")
  | _ =>
      let* gdf_proj := labelled top cfg in
      let gdf_proj := not_noise gdf_proj in
      match gdf_proj with
      | [] => Raise (Exn "RuntimeError" "DBSCAN 後にクラスタが 1 つも残りませんでした。eps か min_samples を調整してください。")
      | _ => Ok (groupby gdf_proj)
      end
  end.

(** The body of the loop of step 4. *)
Definition make_record (cfg : cluster_cfg) (cid : Z)
    (sub : list (row (F * F) * Z)) : cluster_record P :=
  let scores := map (fun r => site_score (fst r)) sub in
  let lo := quantile scores (dec 25 2) in
  let hi := quantile scores (dec 75 2) in
  {| cluster := cid;
     hull := hull_buffer (map (fun r => geometry (fst r)) sub) (buffer_m cfg);
     mean := series_mean scores;
     q25 := lo;
     q75 := hi;
     iqr := Float.sub hi lo;
     min := series_min scores;
     max := series_max scores;
     n_pts := length sub |}.

(** [records], as [main] has them after step 4. *)
Definition main_records (in_file : list (F * G)) (cfg : cluster_cfg)
    : result (list (cluster_record P)) :=
  let* groups := cluster_groups in_file cfg in
  Ok (map (fun g => make_record cfg (fst g) (snd g)) groups).

End Engine.

(** The index labels of the sites of a sub-frame. *)
Definition members {G : Type} (sub : list (row G * Z)) : list nat :=
  map (fun r => label (fst r)) sub.

(** *** Sample inputs

    Five sites on a line, already in planar coordinates, and stand-ins for
    the libraries: the quantile is the threshold itself, the labelling puts
    the sites left of x = 10 in cluster 1, those left of x = 100 in
    cluster 0 and makes the others noise, and a hull is the number of its
    points. *)
Definition sample_file : list (F * (F * F)) :=
  [ (dec 9 1, (of_Z 5, zero));
    (dec 8 1, (of_Z 50, zero));
    (dec 7 1, (of_Z 500, zero));
    (dec 9 1, (of_Z 7, zero));
    (dec 1 1, (of_Z 6, zero)) ].

Definition sample_cluster_cfg : cluster_cfg :=
  {| top_quantile := dec 5 1; proj_epsg := 5880; eps_km := EpsValue (of_Z 2);
     min_samples := 3; buffer_m := of_Z 500 |}.

Definition sample_to_crs (epsg : Z) (g : F * F) : F * F := g.

Definition sample_quantile (scores : list F) (q : F) : F := q.

Definition sample_stat (scores : list F) : F := zero.

Definition sample_DBSCAN (eps : F) (min_samples : Z) (coords : list (F * F))
    : list Z :=
  map (fun c => if ltb (fst c) (of_Z 10) then 1
                else if ltb (fst c) (of_Z 100) then 0 else -1) coords.

Definition sample_hull (pts : list (F * F)) (buffer : F) : nat := length pts.

Definition sample_suggest_eps (gdf : list (row (F * F))) : F := of_Z 1.

Definition other_suggest_eps (gdf : list (row (F * F))) : F := of_Z 7.

End Clustering.

(** ** [generate_character_dialogue.py] *)

Module Dialogue.

Definition nl : string := String (ascii_of_nat 10) EmptyString.

(** *** Prompt templates

    A template of [str.format], already split into literal text and
    replacement fields [{name}].  This is the fragment that is modelled:
    a template with a conversion, a format specification, an index or
    attribute after the name, a positional field or a lone brace has no
    counterpart here.  On such a template [str.format] can also raise
    [ValueError], [IndexError] or [AttributeError], depending on the
    values; on the fragment the only exception is [KeyError]. *)
Inductive segment : Type :=
| Lit (s : string)
| Field (name : string).

(** [template.format] applied to keyword arguments, for a template of the
    fragment: the first field without a value raises [KeyError]. *)
Fixpoint format (template : list segment) (kwargs : gmap string string)
    : result string :=
  match template with
  | [] => Ok ""
  | Lit s :: rest =>
      let* r := format rest kwargs in Ok (s +:+ r)
  | Field name :: rest =>
      let* v := getitem kwargs name in
      let* r := format rest kwargs in Ok (v +:+ r)
  end.

(** The names of the replacement fields of a template, in order. *)
Fixpoint fields (template : list segment) : list string :=
  match template with
  | [] => []
  | Lit _ :: rest => fields rest
  | Field name :: rest => name :: fields rest
  end.

(** One entry of [prompt_templates_dialogue.json]. *)
Record char_cfg : Type := {
  role : option string;
  style : option string;
  instruction : option string;
  input_template : option (list segment)
}.

(** *** The chat service

    What [client.chat.completions.create] is called with (the model name is
    a constant), and the service seen from one call site: its answer to the
    n-th attempt (from 0) of a request, a text or a raised exception.  The
    service is free to answer every attempt of every call site differently. *)
Record request : Type := {
  system_prompt : string;
  user_prompt : string;
  max_tokens : Z;
  temperature : F
}.

Definition endpoint : Type := request -> nat -> result string.

(** [stop=stop_after_attempt(5)] *)
Definition stop_after_attempt : nat := 5.

(** The retry decorator with [reraise=True]: attempt number [attempt]
    (from 0) with [remaining] further attempts allowed after it.  The
    result of the call and the number of attempts made. *)
Fixpoint retrying (remaining attempt : nat) (call : nat -> result string)
    : result string * nat :=
  match call attempt with
  | Ok text => (Ok text, S attempt)
  | Raise e =>
      match remaining with
      | O => (Raise e, S attempt)
      | S remaining' => retrying remaining' (S attempt) call
      end
  end.

Definition call_chat_async_attempts (client : endpoint)
    (system_prompt user_prompt : string) (max_tokens : Z) (temperature : F)
    : result string * nat :=
  retrying (Nat.pred stop_after_attempt) 0
    (client {| system_prompt := system_prompt; user_prompt := user_prompt;
               max_tokens := max_tokens; temperature := temperature |}).

Definition call_chat_async (client : endpoint)
    (system_prompt user_prompt : string) (max_tokens : Z) (temperature : F)
    : result string :=
  fst (call_chat_async_attempts client system_prompt user_prompt max_tokens
         temperature).

(** *** [evaluate_character] *)

Definition lower_ascii (c : ascii) : ascii :=
  let n := nat_of_ascii c in
  if (Nat.leb 65 n && Nat.leb n 90)%bool then ascii_of_nat (n + 32) else c.

Fixpoint lower (s : string) : string :=
  match s with
  | EmptyString => EmptyString
  | String c s' => String (lower_ascii c) (lower s')
  end.

(** Python's [max(a, b)] on two numbers. *)
Definition py_max (a b : F) : F := if ltb a b then b else a.

(** [temp_map.get(char_name.lower(), base_temperature)] *)
Definition char_temperature (char_name : string) (base_temperature : F) : F :=
  let name := lower char_name in
  if decide (name = "explorer") then add base_temperature (dec 2 1)
  else if decide (name = "engineer") then base_temperature
  else if decide (name = "skeptic")
       then py_max (dec 1 1) (Float.sub base_temperature (dec 3 1))
  else if decide (name = "historian") then base_temperature
  else if decide (name = "ecologist") then base_temperature
  else base_temperature.

(** The two prompts of a character, lines 84 to 88. *)
Definition char_prompts (cfg : char_cfg) (info : gmap string string)
    : result (string * string) :=
  let* r := getfield (role cfg) "role" in
  let system_prompt := r +:+ nl +:+ default "" (style cfg) in
  let* i := getfield (instruction cfg) "instruction" in
  let* t := getfield (input_template cfg) "input_template" in
  let* filled := format t info in
  Ok (system_prompt, i +:+ nl +:+ nl +:+ filled).

(** The text kept for a character whose call raised. *)
Definition error_text (e : exn) : string :=
  "[Error] " +:+ exn_type e +:+ ": " +:+ exn_str e.

Definition evaluate_character (client : endpoint) (char_name : string)
    (cfg : char_cfg) (info : gmap string string) (max_tokens : Z)
    (base_temperature : F) : result (string * string) :=
  let temperature := char_temperature char_name base_temperature in
  let* prompts := char_prompts cfg info in
  match call_chat_async client (fst prompts) (snd prompts) max_tokens
          temperature with
  | Ok text => Ok (char_name, text)
  | Raise e => Ok (char_name, error_text e)
  end.

(** The outcome of the call of character [char_name], lines 91 to 93. *)
Definition char_outcome (client : endpoint) (char_name : string)
    (prompts : string * string) (max_tokens : Z) (base_temperature : F)
    : result string :=
  call_chat_async client (fst prompts) (snd prompts) max_tokens
    (char_temperature char_name base_temperature).

(** The text of a character in the record, given the outcome of its call. *)
Definition kept_text (outcome : result string) : string :=
  match outcome with
  | Ok text => text
  | Raise e => error_text e
  end.

(** *** [evaluate_site] *)

(** A row of [top_sites.geojson]: the centroid of its geometry, already
    rendered as ["x, y"] with five decimals ([None] when the row has no
    geometry), and its other columns, rendered as text. *)
Record row : Type := {
  centroid : option string;
  columns : gmap string string
}.

(** [row.get(key, default)] *)
Definition row_get (r : row) (key default : string) : string :=
  match columns r !! key with
  | Some v => v
  | None => default
  end.

Definition site_info (coordinates : string) (r : row) : gmap string string :=
  <["region_name" := row_get r "region" "Amazonia"]>
  (<["hypothesis_summary" := row_get r "hypothesis" "仮説未入力"]>
  (<["landcover_class" := row_get r "landcover" "NaN"]>
  (<["river_distance_km" := row_get r "river_dist" "NaN"]>
  (<["elevation_m" := row_get r "elevation" "NaN"]>
  (<["slope_deg" := row_get r "slope" "NaN"]>
  (<["ndvi" := row_get r "ndvi" "NaN"]>
  (<["landform" := row_get r "landform" "未分類"]>
  (<["coordinates" := coordinates]> ∅)))))))).

(** The keys of [info], lines 116 to 124. *)
Definition info_keys : list string :=
  ["coordinates"; "landform"; "ndvi"; "slope_deg"; "elevation_m";
   "river_distance_km"; "landcover_class"; "hypothesis_summary";
   "region_name"].

(** An evaluation record, as written to [<site_id>.json]. *)
Record record : Type := {
  site_metadata : gmap string string;
  characters : gmap string string;
  summary : string
}.

(** [await asyncio.gather] of the tasks: all the results in task order, or the
    exception of a task. The tasks of [evaluate_site] raise, if at all,
    before their first suspension, hence in task order. *)
Fixpoint gather {A : Type} (tasks : list (result A)) : result (list A) :=
  match tasks with
  | [] => Ok []
  | t :: rest =>
      let* x := t in
      let* xs := gather rest in Ok (x :: xs)
  end.

(** [{k: v for k, v in pairs}] *)
Definition dict_of (pairs : list (string * string)) : gmap string string :=
  fold_left (fun d kv => <[fst kv := snd kv]> d) pairs ∅.

(** The keyword arguments of the summary template, lines 140 to 144. *)
Definition summary_kwargs (characters : gmap string string)
    : gmap string string :=
  <["ecologist_opinion" := default "" (characters !! "ecologist")]>
  (<["historian_opinion" := default "" (characters !! "historian")]>
  (<["skeptic_opinion" := default "" (characters !! "skeptic")]>
  (<["engineer_opinion" := default "" (characters !! "engineer")]>
  (<["explorer_opinion" := default "" (characters !! "explorer")]> ∅)))).

(** The keyword names of the summary template, lines 140 to 144. *)
Definition opinion_keys : list string :=
  ["explorer_opinion"; "engineer_opinion"; "skeptic_opinion";
   "historian_opinion"; "ecologist_opinion"].

(** The two prompts of the summary call, lines 137 to 145. *)
Definition summary_prompts (sum_cfg : char_cfg)
    (characters : gmap string string) : result (string * string) :=
  let* r := getfield (role sum_cfg) "role" in
  let system_prompt := r +:+ nl +:+ default "" (style sum_cfg) in
  let* t := getfield (input_template sum_cfg) "input_template" in
  let* summary_input := format t (summary_kwargs characters) in
  Ok (system_prompt, summary_input).

(** [prompt_cfg.items()] without the summary, line 130. *)
Definition cast (prompt_cfg : gmap string char_cfg)
    : list (string * char_cfg) :=
  filter (fun kv => fst kv <> "summary") (map_to_list prompt_cfg).

(** The character tasks of a site, lines 128 to 131.  [client c] is the
    service as the call of character [c] sees it. *)
Definition char_tasks (client : string -> endpoint)
    (prompt_cfg : gmap string char_cfg) (info : gmap string string)
    (max_tokens : Z) (temperature : F) : list (result (string * string)) :=
  map (fun kv => evaluate_character (client (fst kv)) (fst kv) (snd kv) info
                   max_tokens temperature)
    (cast prompt_cfg).

Definition evaluate_site (client : string -> endpoint) (site_id : string)
    (r : row) (prompt_cfg : gmap string char_cfg) (max_tokens : Z)
    (temperature : F) : result record :=
  let* point :=
    match centroid r with
    | Some p => Ok p
    | None => Raise (Exn "AttributeError"
                       "'NoneType' object has no attribute 'centroid'")
    end in
  let info := site_info point r in
  let* char_results :=
    gather (char_tasks client prompt_cfg info max_tokens temperature) in
  let characters := dict_of char_results in
  let* summary_text :=
    match prompt_cfg !! "summary" with
    | Some sum_cfg =>
        let* prompts := summary_prompts sum_cfg characters in
        call_chat_async (client "summary") (fst prompts) (snd prompts)
          max_tokens temperature
    | None => Ok ""
    end in
  Ok {| site_metadata := info ∪ {["site_id" := site_id]};
        characters := characters;
        summary := summary_text |}.

(** *** [main] *)

(** [f"{idx:03d}"] *)
Fixpoint zeros (n : nat) : string :=
  match n with
  | O => ""
  | S n' => String "0" (zeros n')
  end.

Definition zfill3 (digits : string) : string :=
  zeros (3 - String.length digits) +:+ digits.

(** [f"site_{idx:03d}"] *)
Definition site_id_of (idx : nat) : string :=
  "site_" +:+ zfill3 (pretty idx).

(** The output directory (file name to content) and the list [failed]. *)
Definition outputs : Type := gmap string record * list (string * string).

(** The body of the loop over [asyncio.as_completed(tasks)]. *)
Definition collect (out : outputs) (coro : result record) : result outputs :=
  match coro with
  | Raise e => Ok (fst out, snd out ++ [("unknown", exn_str e)])
  | Ok res =>
      let* site_id := getitem (site_metadata res) "site_id" in
      Ok (<[site_id +:+ ".json" := res]> (fst out), snd out)
  end.

Fixpoint collect_all (out : outputs) (coros : list (result record))
    : result outputs :=
  match coros with
  | [] => Ok out
  | coro :: rest =>
      let* out' := collect out coro in collect_all out' rest
  end.

Section Main.

(** The order in which [asyncio.as_completed] hands the tasks back. *)
Variable as_completed : list (result record) -> list (result record).

(** [client site_id c]: the service as the call of character [c] for the
    site [site_id] sees it. *)
Variable client : string -> string -> endpoint.

(** The task of the site at index [idx], lines 181 to 183. *)
Definition site_task (prompt_cfg : gmap string char_cfg) (max_tokens : Z)
    (temperature : F) (idx : nat) (r : row) : result record :=
  evaluate_site (client (site_id_of idx)) (site_id_of idx) r prompt_cfg
    max_tokens temperature.

Definition main (gdf : list row) (prompt_cfg : gmap string char_cfg)
    (api_key : option string) (max_tokens : Z) (temperature : F)
    : result outputs :=
  match api_key with
  | None | Some "" => Raise (Exn "OSError" "OPENAI_API_KEY が設定されていません")
  | Some _ =>
      let tasks := imap (site_task prompt_cfg max_tokens temperature) gdf in
      collect_all (∅, []) (as_completed tasks)
  end.

End Main.

(** What the loop of [main] leaves behind, given the tasks in the order
    they completed: the records of the tasks that returned, each with its
    file name, and a ledger entry for every task that raised. *)
Definition records_of (coros : list (result record)) : list record :=
  omap (fun c => match c with Ok res => Some res | Raise _ => None end) coros.

Definition ledger_of (coros : list (result record))
    : list (string * string) :=
  omap (fun c => match c with
                 | Ok _ => None
                 | Raise e => Some ("unknown", exn_str e)
                 end) coros.

Definition file_of (res : record) : string * record :=
  (default "" (site_metadata res !! "site_id") +:+ ".json", res).

(** What a run of [main] left behind: whether the output directory holds
    the file [name], and the ledger ([None] when [main] itself raised). *)
Definition wrote (run : result outputs) (name : string) : bool :=
  match run with
  | Ok (files, _) =>
      match files !! name with Some _ => true | None => false end
  | Raise _ => false
  end.

Definition ledger (run : result outputs) : option (list (string * string)) :=
  match run with
  | Ok (_, failed) => Some failed
  | Raise _ => None
  end.

(** The names the summary template can refer to. *)
Definition summary_sources : list string :=
  ["explorer"; "engineer"; "skeptic"; "historian"; "ecologist"].

(** *** Sample inputs

    Three characters and a summary; a service that refuses the skeptic
    twice before answering, never answers the poet, and times out on the
    summary of [site_002]. *)
Definition sample_template : list segment :=
  [Lit "Site at "; Field "coordinates"; Lit ", NDVI "; Field "ndvi"].

Definition sample_summary_template : list segment :=
  [Lit "Explorer: "; Field "explorer_opinion";
   Lit " Skeptic: "; Field "skeptic_opinion";
   Lit " Engineer: "; Field "engineer_opinion"].

Definition sample_char (r : string) (t : list segment) : char_cfg :=
  {| role := Some r; style := None; instruction := Some "Assess the site.";
     input_template := Some t |}.

Definition sample_prompt_cfg : gmap string char_cfg :=
  <["explorer" := sample_char "You are an explorer." sample_template]>
  (<["skeptic" := sample_char "You are a skeptic." sample_template]>
  (<["poet" := sample_char "You are a poet." sample_template]>
  (<["summary" := sample_char "You summarise." sample_summary_template]> ∅))).

Definition sample_row : row :=
  {| centroid := Some "-60.00000, -3.00000";
     columns := {["ndvi" := "0.5"]} |}.

Definition bare_row : row := {| centroid := None; columns := ∅ |}.

Definition sample_client (poem : result string) (site c : string) : endpoint :=
  fun req n =>
    if decide (c = "skeptic") then
      if Nat.ltb n 2 then Raise (Exn "RateLimitError" "slow down")
      else Ok "doubtful"
    else if decide (c = "poet") then poem
    else if decide (c = "summary") then
      if decide (site = "site_002") then Raise (Exn "APITimeoutError" "timed out")
      else Ok ("In short. " +:+ user_prompt req)
    else Ok ("I am the " +:+ c).

Definition reversed (l : list (result record)) : list (result record) :=
  rev l.

End Dialogue.

(** ** Scripts that read the dialogue records

    [fix_character_json_format.py], [filter_valid_comment_jsons.py],
    [json_comments_to_scores.py], [summarize_characters_output.py] and
    [add_site_id_to_geojson.py]. *)

Module Records.

(** A value inside a [{"comment": ...}] object: a text, or anything else. *)
Inductive leaf : Type :=
| LStr (s : string)
| LOther.

(** The value of a character in a record file: a text (as
    [generate_character_dialogue.py] writes it), an object, or anything
    else (a number, a list, null). *)
Inductive content : Type :=
| CStr (s : string)
| CObj (o : gmap string leaf)
| COther.

(** A record file as far as these scripts read it: the value under
    ["characters"], if the key is there. *)
Record site_json : Type := {
  json_characters : option (gmap string content)
}.

Section Blank.

(** [text.strip() == ""], the test of Python on a text. *)
Variable blank : string -> bool.

(** [filter_valid_comment_jsons.py], [has_nonempty_comment]. *)
Definition has_nonempty_comment (data : site_json) : bool :=
  existsb (fun kv => match snd kv with
                     | CStr comment => negb (blank comment)
                     | _ => false
                     end)
    (map_to_list (default ∅ (json_characters data))).

End Blank.

(** [fix_character_json_format.py]: the new value of one character. *)
Definition fix_value (val : content) : content :=
  match val with
  | CStr s => CObj {["comment" := LStr s]}
  | _ => val
  end.

Definition is_str (val : content) : bool :=
  match val with CStr _ => true | _ => false end.

(** The body of the loop of [fix_character_comments] for one file: the
    data after the loop, and whether the file is written back. *)
Definition fix_file (data : site_json) : site_json * bool :=
  match json_characters data with
  | Some chars =>
      ({| json_characters := Some (fix_value <$> chars) |},
       existsb (fun kv => is_str (snd kv)) (map_to_list chars))
  | None => (data, false)
  end.

(** [json_comments_to_scores.py], line 61: the comment of a character, a
    text or a value that is none ([None] here).  On a value that is
    neither a text nor an object, [content.get] raises; Python's message
    also names the type of the value. *)
Definition comment_of (val : content) : result (option string) :=
  match val with
  | CStr s => Ok (Some s)
  | CObj o =>
      match o !! "comment" with
      | Some (LStr s) => Ok (Some s)
      | Some LOther => Ok None
      | None => Ok (Some "")
      end
  | COther => Raise (Exn "AttributeError" "object has no attribute 'get'")
  end.

(** A record of [generate_character_dialogue.py] as these scripts read
    it back. *)
Definition of_record (rec : Dialogue.record) : site_json :=
  {| json_characters := Some (CStr <$> Dialogue.characters rec) |}.

(** [summarize_characters_output.py], [truncate], on a text given as the
    list of its characters.  [text[:k]] keeps the first [k] characters,
    and drops the last [-k] when [k] is negative. *)
Definition slice_to {A : Type} (text : list A) (k : Z) : list A :=
  if 0 <=? k then take (Z.to_nat k) text
  else take (Z.to_nat (Z.of_nat (length text) + k)) text.

Definition truncate {A : Type} (ellipsis : A) (text : list A) (len : Z)
    : list A :=
  if Z.of_nat (length text) <=? len then text
  else slice_to text (len - 3) ++ [ellipsis].

(** [add_site_id_to_geojson.py]: the [site_id] column, over the reset
    index. *)
Definition add_site_id {A : Type} (gdf : list A) : list (A * string) :=
  imap (fun i r => (r, Dialogue.site_id_of i)) gdf.

End Records.

(** ** [generate_hypotheses.py]: the character and narrator calls

    Step 5 of [main], lines 141 to 185, on the records of step 4. *)

Module Hypotheses.

Import Dialogue.

(** One entry of [tmpl["characters"]]: its ["prompt"], if it has one. *)
Record prompt_entry : Type := {
  prompt : option string
}.

(** [call_gpt_async]: the same decorator as [call_chat_async], and
    [max_tokens] left at its default. *)
Definition call_gpt_async (client : endpoint) (system_prompt user_prompt : string)
    (temperature : F) : result string :=
  fst (retrying (Nat.pred stop_after_attempt) 0
         (client {| system_prompt := system_prompt;
                    user_prompt := user_prompt;
                    max_tokens := 1024;
                    Dialogue.temperature := temperature |})).

(** A Python dictionary whose order matters: [d[k] = v] replaces the
    value of a key in place and appends a new key. *)
Fixpoint dict_set {K V : Type} `{EqDecision K} (d : list (K * V)) (k : K)
    (v : V) : list (K * V) :=
  match d with
  | [] => [(k, v)]
  | (k', v') :: rest =>
      if decide (k' = k) then (k, v) :: rest
      else (k', v') :: dict_set rest k v
  end.

Fixpoint dict_get {K V : Type} `{EqDecision K} (d : list (K * V)) (k : K)
    : option V :=
  match d with
  | [] => None
  | (k', v') :: rest => if decide (k' = k) then Some v' else dict_get rest k
  end.

(** [sep.join(texts)] *)
Fixpoint join (sep : string) (texts : list string) : string :=
  match texts with
  | [] => ""
  | [t] => t
  | t :: rest => t +:+ sep +:+ join sep rest
  end.

Definition separator : string := nl +:+ nl +:+ "---" +:+ nl +:+ nl.

(** A scheduled call: the cluster and character it is for ([t.meta]) and
    its two prompts. *)
Record scheduled : Type := {
  meta_cid : Z;
  meta_char : string;
  sched_system : string;
  sched_user : string
}.

Section Run.

Context {P : Type}.

(** The user prompt of a cluster, lines 151 to 162; the rendering of its
    numbers is Python's. *)
Variable describe : Clustering.cluster_record P -> string.

(** Of the exceptions raised by the tasks that fail, the one that
    [asyncio.gather] sees first. *)
Variable earliest : list exn -> exn.

(** The service as the call of a character for a cluster sees it, and as
    the narrator call of a cluster sees it. *)
Variable client : Z -> string -> endpoint.
Variable narrator : Z -> endpoint.

(** The loops of lines 149 to 167: the calls in the order they are
    scheduled.  A character entry without a ["prompt"] raises. *)
Fixpoint schedule_chars (cid : Z) (user : string)
    (char_prompts : list (string * prompt_entry)) : result (list scheduled) :=
  match char_prompts with
  | [] => Ok []
  | (char, prop) :: rest =>
      let* system := getfield (prompt prop) "prompt" in
      let* more := schedule_chars cid user rest in
      Ok ({| meta_cid := cid; meta_char := char; sched_system := system;
             sched_user := user |} :: more)
  end.

Fixpoint schedule (clusters : list (Clustering.cluster_record P))
    (char_prompts : list (string * prompt_entry)) : result (list scheduled) :=
  match clusters with
  | [] => Ok []
  | row :: rest =>
      let* here := schedule_chars (Clustering.cluster row) (describe row)
                     char_prompts in
      let* more := schedule rest char_prompts in
      Ok (here ++ more)
  end.

Definition run_task (t : scheduled) : result string :=
  call_gpt_async (client (meta_cid t) (meta_char t)) (sched_system t)
    (sched_user t) (dec 7 1).

Definition failures (outcomes : list (result string)) : list exn :=
  omap (fun o => match o with Ok _ => None | Raise e => Some e end) outcomes.

Definition answers (outcomes : list (result string)) : list string :=
  omap (fun o => match o with Ok text => Some text | Raise _ => None end)
    outcomes.

(** [await asyncio.gather] of running tasks: every answer in task order,
    or the exception seen first. *)
Definition gather_running (outcomes : list (result string))
    : result (list string) :=
  match failures outcomes with
  | [] => Ok (answers outcomes)
  | errs => Raise (earliest errs)
  end.

(** [cluster_results.setdefault(cid, {})[char] = res] *)
Definition record_answer (results : list (Z * list (string * string)))
    (t : scheduled) (res : string) : list (Z * list (string * string)) :=
  dict_set results (meta_cid t)
    (dict_set (default [] (dict_get results (meta_cid t))) (meta_char t) res).

Fixpoint record_answers (results : list (Z * list (string * string)))
    (tasks : list scheduled) (responses : list string)
    : list (Z * list (string * string)) :=
  match tasks, responses with
  | t :: tasks', res :: responses' =>
      record_answers (record_answer results t res) tasks' responses'
  | _, _ => results
  end.

(** The narrator loop, lines 178 to 185: one call after the other. *)
Fixpoint narrate (narrator_tmpl : list segment) (lang : string)
    (results : list (Z * list (string * string)))
    (done : list (Z * string)) : result (list (Z * string)) :=
  match results with
  | [] => Ok done
  | (cid, char_dict) :: rest =>
      let joined := join separator (map snd char_dict) in
      let* system := format narrator_tmpl {["lang" := lang]} in
      let* text := call_gpt_async (narrator cid) system joined (dec 5 1) in
      narrate narrator_tmpl lang rest (dict_set done cid text)
  end.

Definition main_calls (clusters : list (Clustering.cluster_record P))
    (char_prompts : list (string * prompt_entry))
    (narrator_tmpl : list segment) (lang : string) (api_key : option string)
    : result (list (Z * list (string * string)) * list (Z * string)) :=
  match api_key with
  | None | Some "" =>
      Raise (Exn "OSError" "環境変数 OPENAI_API_KEY が設定されていません。")
  | Some _ =>
      let* tasks := schedule clusters char_prompts in
      let* responses := gather_running (map run_task tasks) in
      let cluster_results := record_answers [] tasks responses in
      let* narrator_results :=
        narrate narrator_tmpl lang cluster_results [] in
      Ok (cluster_results, narrator_results)
  end.

End Run.

(** *** Sample inputs *)

Definition sample_characters : list (string * prompt_entry) :=
  [("Explorer", {| prompt := Some "You explore." |});
   ("Skeptic", {| prompt := Some "You doubt." |})].

Definition sample_record (cid : Z) (n : nat) : Clustering.cluster_record nat :=
  {| Clustering.cluster := cid; Clustering.hull := n;
     Clustering.mean := zero; Clustering.q25 := zero; Clustering.q75 := zero;
     Clustering.iqr := zero; Clustering.min := zero; Clustering.max := zero;
     Clustering.n_pts := n |}.

Definition sample_describe (c : Clustering.cluster_record nat) : string :=
  "cluster " +:+ pretty (Clustering.cluster c).

Definition sample_earliest (errs : list exn) : exn :=
  default (Exn "Exception" "") (head errs).

(** A service that answers everybody, except the skeptic of cluster 1. *)
Definition flaky_client (cid : Z) (char : string) : endpoint :=
  fun req n =>
    if decide (cid = 1 /\ char = "Skeptic")
    then Raise (Exn "RateLimitError" "slow down")
    else Ok (char +:+ " on " +:+ user_prompt req).

Definition steady_client (cid : Z) (char : string) : endpoint :=
  fun req n => Ok (char +:+ " on " +:+ user_prompt req).

Definition sample_narrator (cid : Z) : endpoint :=
  fun req n => Ok ("In short: " +:+ user_prompt req).

Definition sample_narrator_tmpl : list segment :=
  [Lit "Summarise in "; Field "lang"].

Definition sample_clusters : list (Clustering.cluster_record nat) :=
  [sample_record 0 3; sample_record 1 2].

End Hypotheses.

(** * Properties *)

Lemma bind_Ok_inv {A B : Type} (r : result A) (k : A -> result B) (b : B) :
  bind r k = Ok b -> exists a, r = Ok a /\ k a = Ok b.
Proof.
  destruct r as [a|e]; simpl; intros H; [eauto | discriminate].
Qed.

Lemma bind_Raise_inv {A B : Type} (r : result A) (k : A -> result B) (e : exn) :
  bind r k = Raise e -> r = Raise e \/ exists a, r = Ok a /\ k a = Raise e.
Proof.
  destruct r as [a|e']; simpl; intros H; [eauto | left; congruence].
Qed.

Lemma NoDup_map_filter {A B : Type} (f : A -> B) (P : A -> Prop)
    `{forall x, Decision (P x)} (l : list A) :
  NoDup (map f l) -> NoDup (map f (filter P l)).
Proof.
  induction l as [|a l IH]; cbn [map]; intros Hnd; [constructor|].
  apply NoDup_cons in Hnd as [Ha Hnd]. rewrite filter_cons.
  destruct (decide (P a)); [|exact (IH Hnd)].
  cbn [map]. apply NoDup_cons. split; [|exact (IH Hnd)].
  intros Hin. apply Ha.
  apply list_elem_of_In, in_map_iff in Hin as (y & Hy & Hin).
  apply list_elem_of_In, in_map_iff. exists y. split; [exact Hy|].
  apply list_elem_of_In. apply list_elem_of_In, list_elem_of_filter in Hin.
  tauto.
Qed.

(** ** The scoring engine *)

Module ScoringFacts.

Import Scoring.

(** The vectorised computation, once the configuration has been read, is
    the row-wise score of every site. *)
Lemma score_columns_rows (p : params) (df : list site) :
  divide_where
    (iadd_scaled
      (iadd_scaled
        (iadd_scaled
          (iadd_scaled
            (iadd_scaled (replicate (length df) zero)
               (notnan (map ndvi df))
               (map (fun v => sub one (div (abs (sub v (ndvi_ideal p))) (ndvi_range p)))
                  (map ndvi df))
               (ndvi_weight p))
            (notnan (map slope df))
            (map (fun v => clip (sub one (div v (slope_max_deg p))) zero one)
               (map slope df))
            (slope_weight p))
          (notnan (map elevation df))
          (map (fun v => sub one (div (abs (sub v (elev_ideal p))) (elev_range p)))
             (map elevation df))
          (elev_weight p))
        (notnan (map carbon df))
        (map (fun v => clip (div v (carbon_norm_div p)) zero one) (map carbon df))
        (carbon_weight p))
      (notnan (map landcover df))
      (map (isin (lc_classes p)) (map landcover df))
      (lc_weight p))
    (iadd_const
      (iadd_const
        (iadd_const
          (iadd_const
            (iadd_const (replicate (length df) zero) (notnan (map ndvi df))
               (ndvi_weight p))
            (notnan (map slope df)) (slope_weight p))
          (notnan (map elevation df)) (elev_weight p))
        (notnan (map carbon df)) (carbon_weight p))
      (notnan (map landcover df)) (lc_weight p))
  = map (row_score p) df.
Proof.
  induction df as [|x df IH]; [reflexivity|].
  cbn [length replicate map notnan iadd_scaled iadd_const divide_where zip
       zip_with].
  f_equal; [|exact IH].
  unfold row_score, present_features, features, present.
  rewrite !filter_cons, filter_nil.
  cbn [value subscore fweight].
  unfold finish, accumulate.
  destruct (is_nan (ndvi x)), (is_nan (slope x)), (is_nan (elevation x)),
    (is_nan (carbon x)), (is_nan (landcover x));
    cbn [negb decide decide_rel fold_left fst snd value subscore fweight];
    simpl; reflexivity.
Qed.

Lemma compute_score_vec_rows (df : list site) (cfg : gmap string feature_cfg) :
  compute_score_vec df cfg = let* p := read_cfg cfg in Ok (map (row_score p) df).
Proof.
  unfold compute_score_vec, read_cfg.
  destruct (cfg_get cfg "ndvi" ideal "ideal") as [ni|]; [|reflexivity].
  destruct (cfg_get cfg "ndvi" range "range") as [nr|]; [|reflexivity].
  destruct (cfg_get cfg "ndvi" weight "weight") as [nw|]; [|reflexivity].
  destruct (cfg_get cfg "slope" max_deg "max_deg") as [sm|]; [|reflexivity].
  destruct (cfg_get cfg "slope" weight "weight") as [sw|]; [|reflexivity].
  destruct (cfg_get cfg "elevation" ideal "ideal") as [ei|]; [|reflexivity].
  destruct (cfg_get cfg "elevation" range "range") as [er|]; [|reflexivity].
  destruct (cfg_get cfg "elevation" weight "weight") as [ew|]; [|reflexivity].
  destruct (cfg_get cfg "carbon" norm_div "norm_div") as [cd|]; [|reflexivity].
  destruct (cfg_get cfg "carbon" weight "weight") as [cw|]; [|reflexivity].
  destruct (cfg_get cfg "landcover" pref_classes "pref_classes") as [lcl|];
    [|reflexivity].
  destruct (cfg_get cfg "landcover" weight "weight") as [lw|]; [|reflexivity].
  cbn [bind]. f_equal.
  exact (score_columns_rows
           {| ndvi_ideal := ni; ndvi_range := nr; ndvi_weight := nw;
              slope_max_deg := sm; slope_weight := sw;
              elev_ideal := ei; elev_range := er; elev_weight := ew;
              carbon_norm_div := cd; carbon_weight := cw;
              lc_classes := lcl; lc_weight := lw |} df).
Qed.

Lemma compute_score_vec_lookup df cfg p i x :
  read_cfg cfg = Ok p -> df !! i = Some x ->
  exists scores, compute_score_vec df cfg = Ok scores
    /\ length scores = length df
    /\ scores !! i = Some (row_score p x).
Proof.
  intros Hp Hx. rewrite compute_score_vec_rows, Hp. cbn [bind].
  eexists; split; [reflexivity|]. split.
  - apply length_map.
  - change (map (row_score p) df) with (row_score p <$> df).
    rewrite list_lookup_fmap, Hx. reflexivity.
Qed.

(** The only exception the configuration reads raise is [KeyError]. *)
Lemma cfg_get_raises {V : Type} cfg feat (proj : feature_cfg -> option V) key e :
  cfg_get cfg feat proj key = Raise e -> exn_type e = "KeyError".
Proof.
  unfold cfg_get, getitem, getfield.
  destruct (cfg !! feat) as [c|]; cbn [bind].
  - destruct (proj c); [discriminate|]. intros [= <-]. reflexivity.
  - intros [= <-]. reflexivity.
Qed.

Lemma read_cfg_raises cfg e :
  read_cfg cfg = Raise e -> exn_type e = "KeyError".
Proof.
  unfold read_cfg. intros H.
  repeat match type of H with
  | bind ?r _ = Raise _ =>
      let H' := fresh in
      apply bind_Raise_inv in H as [H'|(? & _ & H)];
        [exact (cfg_get_raises _ _ _ _ _ H')|]
  end.
  discriminate.
Qed.

(** A total weight equal to zero is not greater than zero. *)
Lemma eqb_zero_not_pos (w : F) : eqb w zero = true -> ltb zero w = false.
Proof.
  unfold eqb, ltb, SFeqb, SFltb, zero.
  destruct w as [s|s| |s m e]; cbn; try discriminate; try reflexivity.
  - destruct s; discriminate.
  - destruct s; discriminate.
Qed.

Lemma all_absent_no_features p x :
  Forall (fun f => is_nan (value f) = true) (features p x) ->
  present_features p x = [].
Proof.
  intros H. unfold present_features.
  induction H as [|f fs Hf _ IH]; [reflexivity|].
  rewrite filter_cons.
  destruct (decide (present f = true)) as [Hp|_]; [|exact IH].
  unfold present in Hp. rewrite Hf in Hp. discriminate.
Qed.

(** C1 (violated by the code): with non-negative weights the score should lie in
    [0, 1], every sub-score being clipped.  The NDVI and elevation
    sub-scores are not clipped, unlike the slope and carbon ones: a site
    whose only feature is an NDVI of -0.5 (ideal 0.5, range 0.5) scores -1,
    and a site with every feature present and an elevation of 2000 m
    (ideal 100, range 200) scores below zero as well. *)
Theorem unclipped_subscore_leaves_unit_interval :
  Forall (fun w => leb zero w = true)
    [ndvi_weight (sample_params (dec 5 1));
     slope_weight (sample_params (dec 5 1));
     elev_weight (sample_params (dec 5 1));
     carbon_weight (sample_params (dec 5 1));
     lc_weight (sample_params (dec 5 1))]
  /\ read_cfg (sample_cfg (dec 5 1)) = Ok (sample_params (dec 5 1))
  /\ exists s, compute_score_vec [only_ndvi (dec (-5) 1); highland]
                 (sample_cfg (dec 5 1)) = Ok [of_Z (-1); s]
       /\ ltb (of_Z (-1)) zero = true
       /\ ltb s zero = true.
Proof.
  split; [repeat constructor|].
  split; [vm_compute; reflexivity|].
  eexists. split; [vm_compute; reflexivity|].
  split; vm_compute; reflexivity.
Qed.

(** C5, as stated, fails: with [range] equal to zero for NDVI the engine
    raises nothing; it divides by zero and returns minus infinity. *)
Lemma zero_range_is_divided_by :
  leb (ndvi_range (sample_params zero)) zero = true
  /\ read_cfg (sample_cfg zero) = Ok (sample_params zero)
  /\ compute_score_vec [only_ndvi (of_Z 1)] (sample_cfg zero) = Ok [ninf].
Proof.
  repeat split; vm_compute; reflexivity.
Qed.

(** C5, amended: the engine has no guard on the divisors.  Whatever the
    values of [range], [max_deg] and [norm_div], a configuration that has
    every key the engine reads yields one score per site, computed with the
    division by that divisor; the only exception the engine raises is the
    [KeyError] of a key the configuration lacks. *)
Theorem divisors_are_not_checked (df : list site)
    (cfg : gmap string feature_cfg) :
  match read_cfg cfg with
  | Ok p =>
      compute_score_vec df cfg = Ok (map (row_score p) df)
      /\ length (map (row_score p) df) = length df
  | Raise e =>
      compute_score_vec df cfg = Raise e /\ exn_type e = "KeyError"
  end.
Proof.
  rewrite compute_score_vec_rows.
  destruct (read_cfg cfg) as [p|e] eqn:Hp; cbn [bind].
  - split; [reflexivity|apply length_map].
  - split; [reflexivity|exact (read_cfg_raises _ _ Hp)].
Qed.

(** C6, as stated, fails for an infinite value: it is not treated as
    absent (an absent NDVI gives the score 0), and minus infinity is
    returned as the score, which the later [fillna(0)] of [main] leaves
    in place. *)
Lemma infinite_value_propagates :
  is_inf pinf = true
  /\ compute_score_vec [only_ndvi pinf] (sample_cfg (dec 5 1)) = Ok [ninf]
  /\ compute_score_vec [only_ndvi nan] (sample_cfg (dec 5 1)) = Ok [zero]
  /\ fillna [ninf] = [ninf].
Proof.
  repeat split; vm_compute; reflexivity.
Qed.

(** C6, amended: a NaN feature value, which is what the numeric coercion of
    [main] turns a null or non-numeric cell into, is treated as absent: the
    score of a site is accumulated over the features whose value is not
    NaN, so a NaN value adds to neither the weighted sum nor the weight
    sum. *)
Theorem nan_value_is_absent (parse : string -> option F)
    (gdf : list raw_site) (cfg : gmap string feature_cfg) (p : params)
    (i : nat) (r : raw_site)
    (Hcfg : read_cfg cfg = Ok p) (Hr : gdf !! i = Some r) :
  (forall c, c = CNull \/ (exists s, c = CText s /\ parse s = None) ->
     is_nan (to_numeric parse c) = true)
  /\ (forall f, f ∈ present_features p (coerce parse r) <->
        f ∈ features p (coerce parse r) /\ is_nan (value f) = false)
  /\ exists scores, main_site_score parse gdf cfg = Ok scores
       /\ scores !! i
          = Some (finish (accumulate (present_features p (coerce parse r)))).
Proof.
  split; [|split].
  - intros c [->|(s & -> & Hs)]; cbn; [reflexivity|]. rewrite Hs. reflexivity.
  - intros f. unfold present_features. rewrite list_elem_of_filter.
    unfold present. destruct (is_nan (value f)); cbn; intuition congruence.
  - unfold main_site_score.
    destruct (compute_score_vec_lookup (map (coerce parse) gdf) cfg p i
                (coerce parse r) Hcfg) as (scores & Hs & _ & Hi).
    { change (map (coerce parse) gdf) with (coerce parse <$> gdf).
      rewrite list_lookup_fmap, Hr. reflexivity. }
    exists scores. split; [exact Hs|exact Hi].
Qed.

Lemma nan_value_is_absent_witness :
  exists scores,
    main_site_score no_parse [text_ndvi] (sample_cfg (dec 5 1)) = Ok scores
    /\ scores !! 0%nat
       = Some (finish (accumulate
                 (present_features (sample_params (dec 5 1))
                    (coerce no_parse text_ndvi)))).
Proof.
  apply (nan_value_is_absent no_parse [text_ndvi] (sample_cfg (dec 5 1))
           (sample_params (dec 5 1)) 0 text_ndvi);
    vm_compute; reflexivity.
Defined.

(** C9: a site whose present features carry zero total weight, in
    particular a site with every feature absent, gets the score 0 exactly:
    the division is performed only where the weight sum is greater than
    zero, and the score is 0 elsewhere. *)
Theorem zero_weight_scores_zero (df : list site)
    (cfg : gmap string feature_cfg) (p : params) (i : nat) (x : site)
    (Hcfg : read_cfg cfg = Ok p) (Hx : df !! i = Some x) :
  exists scores, compute_score_vec df cfg = Ok scores
    /\ scores !! i
       = Some (if ltb zero (weight_sum p x)
               then div (fst (accumulate (present_features p x)))
                      (weight_sum p x)
               else zero)
    /\ (eqb (weight_sum p x) zero = true -> scores !! i = Some zero)
    /\ (Forall (fun f => is_nan (value f) = true) (features p x) ->
        scores !! i = Some zero)
    /\ is_nan zero = false.
Proof.
  destruct (compute_score_vec_lookup df cfg p i x Hcfg Hx)
    as (scores & Hs & _ & Hi).
  exists scores. split; [exact Hs|].
  split; [exact Hi|]. split; [|split; [|reflexivity]].
  - intros Hw. rewrite Hi. unfold row_score, finish. fold (weight_sum p x).
    rewrite (eqb_zero_not_pos _ Hw). reflexivity.
  - intros Habs. rewrite Hi. unfold row_score.
    rewrite (all_absent_no_features p x Habs). reflexivity.
Qed.

Lemma zero_weight_scores_zero_witness :
  exists scores,
    compute_score_vec [highland; only_ndvi nan] (sample_cfg (dec 5 1))
      = Ok scores
    /\ scores !! 1%nat = Some zero.
Proof.
  destruct (zero_weight_scores_zero [highland; only_ndvi nan]
              (sample_cfg (dec 5 1)) (sample_params (dec 5 1)) 1
              (only_ndvi nan))
    as (scores & Hs & _ & Hz & _); [vm_compute; reflexivity..|].
  exists scores. split; [exact Hs|]. apply Hz. vm_compute. reflexivity.
Defined.

End ScoringFacts.

(** ** The clustering engine *)

Module ClusteringFacts.

Import Clustering.

(** *** Keys of a [groupby] *)

Lemma elem_of_insert_key (x k : Z) (ks : list Z) :
  x ∈ insert_key k ks <-> x = k \/ x ∈ ks.
Proof.
  induction ks as [|k' ks IH]; cbn [insert_key].
  - rewrite list_elem_of_singleton, elem_of_nil. tauto.
  - destruct (Z.ltb_spec k k') as [Hlt|Hge].
    + rewrite (elem_of_cons (k' :: ks)). tauto.
    + destruct (Z.eqb_spec k k') as [->|Hne].
      * rewrite elem_of_cons. tauto.
      * rewrite !elem_of_cons, IH. tauto.
Qed.

Lemma insert_key_sorted (k : Z) (ks : list Z) :
  StronglySorted Z.lt ks -> StronglySorted Z.lt (insert_key k ks).
Proof.
  induction 1 as [|k' ks Hs IH Hall]; cbn [insert_key].
  - repeat constructor.
  - destruct (Z.ltb_spec k k') as [Hlt|Hge].
    + constructor; [constructor; assumption|].
      constructor; [exact Hlt|].
      eapply Forall_impl; [exact Hall|]. intros y Hy. cbn in Hy |- *. lia.
    + destruct (Z.eqb_spec k k') as [->|Hne].
      * constructor; assumption.
      * constructor; [exact IH|].
        apply Forall_forall. intros y Hy.
        apply elem_of_insert_key in Hy as [->|Hy]; [lia|].
        rewrite Forall_forall in Hall. exact (Hall y Hy).
Qed.

Lemma sorted_keys_sorted (l : list Z) : StronglySorted Z.lt (sorted_keys l).
Proof.
  induction l as [|k l IH]; cbn; [constructor|].
  apply insert_key_sorted, IH.
Qed.

Lemma elem_of_sorted_keys (x : Z) (l : list Z) : x ∈ sorted_keys l <-> x ∈ l.
Proof.
  induction l as [|k l IH]; cbn; [reflexivity|].
  rewrite elem_of_insert_key, elem_of_cons, IH. reflexivity.
Qed.

Lemma strictly_sorted_NoDup (l : list Z) : StronglySorted Z.lt l -> NoDup l.
Proof.
  induction 1 as [|k l Hs IH Hall]; [constructor|].
  apply NoDup_cons. split; [|exact IH].
  intros Hin. rewrite Forall_forall in Hall. specialize (Hall k Hin). lia.
Qed.

(** *** Groups *)

Section Groups.

Context {G : Type}.

Implicit Types (gdf : list (row G * Z)) (ks : list Z).

Lemma groupby_keys gdf : map fst (groupby gdf) = sorted_keys (map snd gdf).
Proof.
  unfold groupby. rewrite map_map. cbn [fst]. apply map_id.
Qed.

Lemma groupby_lookup gdf i g :
  groupby gdf !! i = Some g ->
  sorted_keys (map snd gdf) !! i = Some (fst g)
  /\ snd g = filter (fun r => snd r = fst g) gdf.
Proof.
  unfold groupby.
  set (ks := sorted_keys (map snd gdf)).
  change (map ?f ks) with (f <$> ks).
  rewrite list_lookup_fmap.
  destruct (ks !! i) as [k|]; cbn; [|discriminate].
  intros [= <-]. split; reflexivity.
Qed.

(** The sub-frames of distinct keys, over all keys, rearrange the frame. *)
Lemma groups_concat gdf ks :
  NoDup ks -> (forall r, r ∈ gdf -> snd r ∈ ks) ->
  concat (map (fun k => filter (fun r => snd r = k) gdf) ks) ≡ₚ gdf.
Proof.
  intros Hnd. revert gdf.
  induction Hnd as [|k ks Hk Hnd IH]; intros gdf Hall.
  - destruct gdf as [|r gdf]; [reflexivity|].
    specialize (Hall r (list_elem_of_here _ _)). inversion Hall.
  - cbn [map concat].
    etransitivity;
      [|apply (filter_app_complement (fun r => snd r = k) gdf)].
    apply Permutation_app_head.
    rewrite (map_ext_in _
               (fun k' => filter (fun r => snd r = k')
                            (filter (fun r => snd r <> k) gdf)) ks).
    + apply IH. intros r Hr. apply list_elem_of_filter in Hr as [Hne Hr].
      specialize (Hall r Hr). apply elem_of_cons in Hall as [?|?];
        [contradiction|assumption].
    + intros k' Hk'. rewrite list_filter_filter. apply list_filter_iff.
      intros r. split; [|tauto]. intros ->. split; [reflexivity|].
      intros ->. apply Hk, list_elem_of_In, Hk'.
Qed.

Lemma groupby_concat gdf : concat (map snd (groupby gdf)) ≡ₚ gdf.
Proof.
  unfold groupby. rewrite map_map. cbn [snd].
  apply groups_concat.
  - apply strictly_sorted_NoDup, sorted_keys_sorted.
  - intros r Hr. apply elem_of_sorted_keys.
    change (map snd gdf) with (snd <$> gdf).
    apply list_elem_of_fmap. exists r. split; [reflexivity|exact Hr].
Qed.

End Groups.

(** Lists that do not share an element, once concatenated without
    repetition: an element sits in one of them only. *)
Lemma NoDup_concat_lookup {A : Type} (ls : list (list A)) (i j : nat)
    (a b : list A) (x : A) :
  NoDup (concat ls) -> ls !! i = Some a -> ls !! j = Some b ->
  x ∈ a -> x ∈ b -> i = j.
Proof.
  revert i j. induction ls as [|l ls IH]; intros i j Hnd Hi Hj Ha Hb.
  - discriminate.
  - cbn [concat] in Hnd. apply NoDup_app in Hnd as (_ & Hdis & Hnd).
    assert (Hin : forall k c, ls !! k = Some c -> x ∈ c -> x ∈ concat ls).
    { intros k c Hk Hc. apply list_elem_of_In, in_concat. exists c.
      split; [|apply list_elem_of_In, Hc].
      apply list_elem_of_In, list_elem_of_lookup. exists k. exact Hk. }
    destruct i as [|i], j as [|j]; cbn in Hi, Hj.
    + reflexivity.
    + injection Hi as <-. destruct (Hdis x Ha (Hin j b Hj Hb)).
    + injection Hj as <-. destruct (Hdis x Hb (Hin i a Hi Ha)).
    + f_equal. exact (IH i j Hnd Hi Hj Ha Hb).
Qed.

Lemma read_file_labels {G : Type} (rows : list (F * G)) :
  map label (read_file rows) = seq 0 (length rows).
Proof.
  unfold read_file.
  change (map label ?l) with (label <$> l).
  rewrite fmap_imap.
  rewrite (imap_ext _ (fun j _ => j)) by reflexivity.
  rewrite imap_seq_0. apply list_fmap_id.
Qed.

Section Engine.

Context {G P : Type}.
Variable to_crs : Z -> G -> F * F.
Variable quantile : list F -> F -> F.
Variable series_mean : list F -> F.
Variable series_min : list F -> F.
Variable series_max : list F -> F.
Variable DBSCAN : F -> Z -> list (F * F) -> list Z.
Variable hull_buffer : list (F * F) -> F -> P.

Lemma top_rows_labels (in_file : list (F * G)) (cfg : cluster_cfg) :
  NoDup (map label (top_rows quantile (read_file in_file) cfg)).
Proof.
  unfold top_rows. apply NoDup_map_filter.
  rewrite read_file_labels. apply NoDup_seq.
Qed.

(** The labelled frame holds the rows it was given, one label each. *)
Lemma labelled_rows suggest_eps (top : list (row G)) (cfg : cluster_cfg) lab :
  labelled to_crs DBSCAN suggest_eps top cfg = Ok lab ->
  map (fun r => label (fst r)) lab = map label top
  /\ map (fun r => site_score (fst r)) lab = map site_score top
  /\ length lab = length top.
Proof.
  unfold labelled, set_cluster.
  destruct (decide _) as [Hlen|]; [|discriminate].
  intros [= <-].
  set (proj := project_gdf to_crs top (proj_epsg cfg)) in *.
  assert (Hfst : map fst (zip proj (DBSCAN
            (mul match eps_km cfg with
                 | EpsAuto => suggest_eps proj
                 | EpsValue x => x
                 end (of_Z 1000)) (min_samples cfg) (map geometry proj)))
          = proj).
  { apply fst_zip. rewrite Hlen. reflexivity. }
  rewrite <- (map_map fst label), <- (map_map fst site_score), Hfst.
  split; [|split].
  - unfold proj, project_gdf. rewrite map_map. reflexivity.
  - unfold proj, project_gdf. rewrite map_map. reflexivity.
  - rewrite <- (length_map fst), Hfst. unfold proj, project_gdf.
    apply length_map.
Qed.

Lemma cluster_groups_inv suggest_eps in_file cfg groups :
  cluster_groups to_crs quantile DBSCAN suggest_eps in_file cfg = Ok groups ->
  exists lab,
    labelled to_crs DBSCAN suggest_eps
      (top_rows quantile (read_file in_file) cfg) cfg = Ok lab
    /\ not_noise lab <> []
    /\ groups = groupby (not_noise lab).
Proof.
  unfold cluster_groups.
  destruct (top_rows quantile (read_file in_file) cfg) as [|r top] eqn:Htop;
    [discriminate|].
  destruct (labelled to_crs DBSCAN suggest_eps (r :: top) cfg) as [lab|];
    cbn [bind]; [|discriminate].
  destruct (not_noise lab) as [|r' kept] eqn:Hkept; [discriminate|].
  intros [= <-]. exists lab. rewrite Hkept. split; [reflexivity|].
  split; [discriminate|reflexivity].
Qed.

(** C7: the clusters of a run are pairwise disjoint, and together they
    hold the top-quantile sites that DBSCAN did not label as noise, each
    one exactly once. *)
Theorem clusters_partition_filtered_sites suggest_eps
    (in_file : list (F * G)) (cfg : cluster_cfg)
    (groups : list (Z * list (row (F * F) * Z)))
    (Hrun : cluster_groups to_crs quantile DBSCAN suggest_eps in_file cfg
            = Ok groups) :
  exists lab,
    labelled to_crs DBSCAN suggest_eps
      (top_rows quantile (read_file in_file) cfg) cfg = Ok lab
    /\ map (fun r => label (fst r)) lab
       = map label (top_rows quantile (read_file in_file) cfg)
    /\ concat (map snd groups) ≡ₚ not_noise lab
    /\ concat (map (fun g => members (snd g)) groups)
       ≡ₚ members (not_noise lab)
    /\ NoDup (concat (map (fun g => members (snd g)) groups))
    /\ (forall i j gi gj n,
          groups !! i = Some gi -> groups !! j = Some gj ->
          n ∈ members (snd gi) -> n ∈ members (snd gj) -> i = j)
    /\ (forall r, r ∈ not_noise lab ->
          exists i g, groups !! i = Some g /\ label (fst r) ∈ members (snd g)
            /\ forall j g', groups !! j = Some g' ->
                 label (fst r) ∈ members (snd g') -> j = i).
Proof.
  destruct (cluster_groups_inv _ _ _ _ Hrun) as (lab & Hlab & _ & ->).
  exists lab. split; [exact Hlab|].
  destruct (labelled_rows _ _ _ _ Hlab) as (Hlabels & _ & _).
  split; [exact Hlabels|].
  pose proof (groupby_concat (not_noise lab)) as Hperm.
  split; [exact Hperm|].
  assert (Hmem : concat (map (fun g => members (snd g))
                           (groupby (not_noise lab)))
                 ≡ₚ members (not_noise lab)).
  { etransitivity; [|apply (Permutation_map _ Hperm)].
    rewrite concat_map, map_map. reflexivity. }
  split; [exact Hmem|].
  assert (Hnd : NoDup (concat (map (fun g => members (snd g))
                                 (groupby (not_noise lab))))).
  { rewrite Hmem. unfold members, not_noise. apply NoDup_map_filter.
    rewrite Hlabels. apply top_rows_labels. }
  split; [exact Hnd|].
  assert (Hdisj : forall i j gi gj n,
            groupby (not_noise lab) !! i = Some gi ->
            groupby (not_noise lab) !! j = Some gj ->
            n ∈ members (snd gi) -> n ∈ members (snd gj) -> i = j).
  { intros i j gi gj n Hi Hj Hni Hnj.
    apply (NoDup_concat_lookup _ i j (members (snd gi)) (members (snd gj)) n
             Hnd); [| |exact Hni|exact Hnj].
    - change (map ?f ?l) with (f <$> l). rewrite list_lookup_fmap, Hi.
      reflexivity.
    - change (map ?f ?l) with (f <$> l). rewrite list_lookup_fmap, Hj.
      reflexivity. }
  split; [exact Hdisj|].
  intros r Hr.
  assert (Hin : r ∈ concat (map snd (groupby (not_noise lab))))
    by (rewrite Hperm; exact Hr).
  apply list_elem_of_In, in_concat in Hin as (sub & Hsub & Hrsub).
  apply in_map_iff in Hsub as (g & <- & Hg).
  apply list_elem_of_In, list_elem_of_lookup in Hg as (i & Hi).
  assert (Hri : label (fst r) ∈ members (snd g)).
  { unfold members. apply list_elem_of_In, in_map_iff. exists r.
    split; [reflexivity|exact Hrsub]. }
  exists i, g. split; [exact Hi|]. split; [exact Hri|].
  intros j g' Hj Hrj. exact (Hdisj j i g' g _ Hj Hi Hrj Hri).
Qed.

(** With a numeric [eps_km] the eps heuristic is never consulted. *)
Lemma labelled_numeric_eps suggest1 suggest2 (top : list (row G))
    (cfg : cluster_cfg) (x : F) :
  eps_km cfg = EpsValue x ->
  labelled to_crs DBSCAN suggest1 top cfg
  = labelled to_crs DBSCAN suggest2 top cfg.
Proof.
  intros Heps. unfold labelled. rewrite Heps. reflexivity.
Qed.

Lemma cluster_groups_numeric_eps suggest1 suggest2 (in_file : list (F * G))
    (cfg : cluster_cfg) (x : F) :
  eps_km cfg = EpsValue x ->
  cluster_groups to_crs quantile DBSCAN suggest1 in_file cfg
  = cluster_groups to_crs quantile DBSCAN suggest2 in_file cfg.
Proof.
  intros Heps. unfold cluster_groups.
  destruct (top_rows quantile (read_file in_file) cfg) as [|r top];
    [reflexivity|].
  rewrite (labelled_numeric_eps suggest1 suggest2 _ _ _ Heps). reflexivity.
Qed.

(** C8: with a numeric eps two runs on the same input build the same
    clusters, whatever the eps heuristic would have suggested in either
    run; and the records come in ascending order of the DBSCAN labels,
    each record carrying the label of its members as its id. *)
Theorem cluster_ids_ascend_with_labels suggest1 suggest2
    (in_file : list (F * G)) (cfg : cluster_cfg) (x : F)
    (Heps : eps_km cfg = EpsValue x) :
  cluster_groups to_crs quantile DBSCAN suggest1 in_file cfg
  = cluster_groups to_crs quantile DBSCAN suggest2 in_file cfg
  /\ main_records to_crs quantile series_mean series_min series_max DBSCAN
       hull_buffer suggest1 in_file cfg
     = main_records to_crs quantile series_mean series_min series_max DBSCAN
         hull_buffer suggest2 in_file cfg
  /\ forall recs,
       main_records to_crs quantile series_mean series_min series_max DBSCAN
         hull_buffer suggest1 in_file cfg = Ok recs ->
       StronglySorted Z.lt (map cluster recs)
       /\ exists lab groups,
            labelled to_crs DBSCAN suggest1
              (top_rows quantile (read_file in_file) cfg) cfg = Ok lab
            /\ cluster_groups to_crs quantile DBSCAN suggest1 in_file cfg
               = Ok groups
            /\ map cluster recs = sorted_keys (map snd (not_noise lab))
            /\ map (fun c => (cluster c, n_pts c)) recs
               = map (fun g => (fst g, length (snd g))) groups
            /\ (forall g r, g ∈ groups -> r ∈ snd g -> snd r = fst g).
Proof.
  pose proof (cluster_groups_numeric_eps suggest1 suggest2 in_file cfg x Heps)
    as Hsame.
  split; [exact Hsame|].
  split; [unfold main_records; rewrite Hsame; reflexivity|].
  intros recs Hrecs. unfold main_records in Hrecs.
  apply bind_Ok_inv in Hrecs as (groups & Hgroups & [= <-]).
  destruct (cluster_groups_inv _ _ _ _ Hgroups) as (lab & Hlab & _ & Hg).
  assert (Hids : map cluster
                   (map (fun g => make_record quantile series_mean series_min
                                    series_max hull_buffer cfg (fst g) (snd g))
                      groups)
                 = sorted_keys (map snd (not_noise lab))).
  { rewrite map_map. cbn [cluster make_record]. rewrite Hg.
    apply groupby_keys. }
  split; [rewrite Hids; apply sorted_keys_sorted|].
  exists lab, groups. split; [exact Hlab|]. split; [exact Hgroups|].
  split; [exact Hids|]. split.
  - rewrite map_map. reflexivity.
  - intros g r Hgin Hr. rewrite Hg in Hgin.
    apply list_elem_of_lookup in Hgin as (i & Hi).
    apply groupby_lookup in Hi as (_ & Hsub).
    rewrite Hsub in Hr. apply list_elem_of_filter in Hr as [Hr _]. exact Hr.
Qed.

End Engine.

Lemma clusters_partition_filtered_sites_witness :
  exists groups,
    cluster_groups sample_to_crs sample_quantile sample_DBSCAN
      sample_suggest_eps sample_file sample_cluster_cfg = Ok groups
    /\ map (fun g => (fst g, members (snd g))) groups
       = [(0, [1%nat]); (1, [0%nat; 3%nat])]
    /\ NoDup (concat (map (fun g => members (snd g)) groups)).
Proof.
  eexists. split; [vm_compute; reflexivity|].
  split; [vm_compute; reflexivity|].
  destruct (clusters_partition_filtered_sites sample_to_crs sample_quantile
              sample_DBSCAN sample_suggest_eps sample_file sample_cluster_cfg _ eq_refl)
    as (lab & _ & _ & _ & _ & Hnd & _).
  exact Hnd.
Defined.

Lemma cluster_ids_ascend_with_labels_witness :
  eps_km sample_cluster_cfg = EpsValue (of_Z 2)
  /\ main_records sample_to_crs sample_quantile sample_stat sample_stat
       sample_stat sample_DBSCAN sample_hull sample_suggest_eps sample_file
       sample_cluster_cfg
     = main_records sample_to_crs sample_quantile sample_stat sample_stat
         sample_stat sample_DBSCAN sample_hull other_suggest_eps sample_file
         sample_cluster_cfg
  /\ exists recs,
       main_records sample_to_crs sample_quantile sample_stat sample_stat
         sample_stat sample_DBSCAN sample_hull sample_suggest_eps sample_file
         sample_cluster_cfg = Ok recs
       /\ map (fun c => (cluster c, n_pts c)) recs
          = [(0, 1%nat); (1, 2%nat)]
       /\ StronglySorted Z.lt (map cluster recs).
Proof.
  split; [reflexivity|].
  destruct (cluster_ids_ascend_with_labels sample_to_crs sample_quantile
              sample_stat sample_stat sample_stat sample_DBSCAN sample_hull sample_suggest_eps other_suggest_eps
              sample_file sample_cluster_cfg (of_Z 2) eq_refl)
    as (_ & Hsame & Hsorted).
  split; [exact Hsame|].
  eexists. split; [vm_compute; reflexivity|].
  split; [vm_compute; reflexivity|].
  apply Hsorted. vm_compute. reflexivity.
Defined.

End ClusteringFacts.

(** ** The dialogue orchestrator *)

Module DialogueFacts.

Import Dialogue.

(** *** The retry loop *)

Lemma retrying_attempts_le (remaining attempt : nat) call :
  (snd (retrying remaining attempt call) <= attempt + S remaining)%nat.
Proof.
  revert attempt. induction remaining as [|n IH]; intros attempt; cbn.
  - destruct (call attempt); cbn; lia.
  - destruct (call attempt); cbn; [lia|].
    specialize (IH (S attempt)). lia.
Qed.

Lemma retrying_succeeds (remaining attempt k : nat) call (t : string) :
  (k <= remaining)%nat ->
  (forall j, (j < k)%nat -> exists e, call (attempt + j)%nat = Raise e) ->
  call (attempt + k)%nat = Ok t ->
  retrying remaining attempt call = (Ok t, S (attempt + k)).
Proof.
  revert remaining attempt.
  induction k as [|k IH]; intros remaining attempt Hk Hfail Hok.
  - rewrite Nat.add_0_r in *.
    destruct remaining; cbn; rewrite Hok; reflexivity.
  - destruct remaining as [|n]; [lia|]. cbn.
    destruct (Hfail 0%nat ltac:(lia)) as [e He].
    rewrite Nat.add_0_r in He. rewrite He.
    rewrite (IH n (S attempt)).
    + f_equal. f_equal. lia.
    + lia.
    + intros j Hj. destruct (Hfail (S j) ltac:(lia)) as [e' He'].
      exists e'. rewrite <- He'. f_equal. lia.
    + rewrite <- Hok. f_equal. lia.
Qed.

Lemma retrying_gives_up (remaining attempt : nat) call (e : exn) :
  (forall j, (j < remaining)%nat -> exists e', call (attempt + j)%nat = Raise e') ->
  call (attempt + remaining)%nat = Raise e ->
  retrying remaining attempt call = (Raise e, S (attempt + remaining)).
Proof.
  revert attempt.
  induction remaining as [|n IH]; intros attempt Hfail Hlast.
  - rewrite Nat.add_0_r in *. cbn. rewrite Hlast. reflexivity.
  - cbn. destruct (Hfail 0%nat ltac:(lia)) as [e' He'].
    rewrite Nat.add_0_r in He'. rewrite He'.
    rewrite (IH (S attempt)).
    + f_equal. f_equal. lia.
    + intros j Hj. destruct (Hfail (S j) ltac:(lia)) as [e'' He''].
      exists e''. rewrite <- He''. f_equal. lia.
    + rewrite <- Hlast. f_equal. lia.
Qed.

(** *** [evaluate_character] *)

Lemma evaluate_character_kept client c cfg info mt temp :
  evaluate_character client c cfg info mt temp
  = let* pr := char_prompts cfg info in
    Ok (c, kept_text (char_outcome client c pr mt temp)).
Proof.
  unfold evaluate_character, char_outcome.
  destruct (char_prompts cfg info) as [pr|e]; cbn [bind]; [|reflexivity].
  destruct (call_chat_async _ _ _ _ _); reflexivity.
Qed.

(** *** [gather] and the dictionary of character texts *)

Lemma gather_map_inv {A B : Type} (f : A -> result B) (l : list A)
    (rs : list B) :
  gather (map f l) = Ok rs -> Forall2 (fun a x => f a = Ok x) l rs.
Proof.
  revert rs. induction l as [|a l IH]; intros rs; cbn [map gather].
  - intros [= <-]. constructor.
  - intros H. apply bind_Ok_inv in H as (x & Hx & H).
    apply bind_Ok_inv in H as (xs & Hxs & [= <-]).
    constructor; [exact Hx|exact (IH xs Hxs)].
Qed.

Lemma gather_map_Ok {A B : Type} (f : A -> result B) (l : list A) :
  Forall (fun a => exists x, f a = Ok x) l ->
  exists rs, gather (map f l) = Ok rs.
Proof.
  induction 1 as [|a l [x Hx] _ [rs IH]]; cbn [map gather].
  - exists []. reflexivity.
  - exists (x :: rs). rewrite Hx, IH. reflexivity.
Qed.

Lemma fold_insert_lookup {V : Type} (pairs : list (string * V))
    (acc : gmap string V) (k : string) (v : V) :
  NoDup (map fst pairs) ->
  (forall p, p ∈ pairs -> acc !! fst p = None) ->
  fold_left (fun d kv => <[fst kv := snd kv]> d) pairs acc !! k = Some v
  <-> (k, v) ∈ pairs \/ acc !! k = Some v.
Proof.
  revert acc. induction pairs as [|[k' v'] pairs IH]; intros acc Hnd Hfresh.
  - cbn. rewrite elem_of_nil. tauto.
  - cbn [map fst] in Hnd. apply NoDup_cons in Hnd as [Hk' Hnd].
    cbn [fold_left fst snd]. rewrite IH; [|exact Hnd|].
    + rewrite elem_of_cons. destruct (decide (k' = k)) as [->|Hne].
      * rewrite lookup_insert_eq.
        pose proof (Hfresh (k, v') (list_elem_of_here _ _)) as Hacc.
        cbn [fst] in Hacc. rewrite Hacc.
        split.
        -- intros [Hin|[= ->]]; [|tauto].
           destruct Hk'. apply list_elem_of_In, in_map_iff.
           exists (k, v). split; [reflexivity|apply list_elem_of_In, Hin].
        -- intros [[[= ->]|Hin]|?]; [tauto|tauto|discriminate].
      * rewrite lookup_insert_ne by exact Hne.
        split; [intros [?|?]; tauto|].
        intros [[[= -> ->]|?]|?]; [contradiction|tauto|tauto].
    + intros p Hp. destruct (decide (k' = fst p)) as [->|Hne].
      * destruct Hk'. apply list_elem_of_In, in_map_iff.
        exists p. split; [reflexivity|apply list_elem_of_In, Hp].
      * rewrite lookup_insert_ne by exact Hne.
        apply Hfresh. apply list_elem_of_further, Hp.
Qed.

Lemma dict_of_lookup (pairs : list (string * string)) (k v : string) :
  NoDup (map fst pairs) ->
  dict_of pairs !! k = Some v <-> (k, v) ∈ pairs.
Proof.
  intros Hnd. unfold dict_of. rewrite fold_insert_lookup; [|exact Hnd|].
  - rewrite lookup_empty. split; [intros [?|?]; [assumption|discriminate]|tauto].
  - intros p _. apply lookup_empty.
Qed.

Lemma elem_of_cast prompt_cfg c cfg :
  (c, cfg) ∈ cast prompt_cfg <-> prompt_cfg !! c = Some cfg /\ c <> "summary".
Proof.
  unfold cast. rewrite list_elem_of_filter, elem_of_map_to_list.
  cbn [fst]. tauto.
Qed.

Lemma cast_NoDup prompt_cfg : NoDup (map fst (cast prompt_cfg)).
Proof.
  unfold cast. apply NoDup_map_filter.
  apply NoDup_fst_map_to_list.
Qed.

(** *** [evaluate_site] *)

Section Site.

Variable client : string -> endpoint.
Variable tokens : Z.
Variable base : F.

Local Abbreviation outcome c pr :=
  (char_outcome (client c) c pr tokens base).

Lemma char_results_pairs prompt_cfg info rs :
  gather (char_tasks client prompt_cfg info tokens base) = Ok rs ->
  Forall2 (fun kv x =>
             fst x = fst kv
             /\ exists pr, char_prompts (snd kv) info = Ok pr
                  /\ snd x = kept_text (outcome (fst kv) pr))
    (cast prompt_cfg) rs.
Proof.
  intros H. apply gather_map_inv in H.
  eapply Forall2_impl; [exact H|].
  intros [c cfg] x Hx. cbn [fst snd] in *.
  rewrite evaluate_character_kept in Hx.
  apply bind_Ok_inv in Hx as (pr & Hpr & [= <-]).
  split; [reflexivity|]. exists pr. split; [exact Hpr|reflexivity].
Qed.

Lemma char_results_dict prompt_cfg info rs :
  gather (char_tasks client prompt_cfg info tokens base) = Ok rs ->
  (forall c cfg, prompt_cfg !! c = Some cfg -> c <> "summary" ->
     exists pr, char_prompts cfg info = Ok pr
       /\ dict_of rs !! c = Some (kept_text (outcome c pr)))
  /\ (forall c, is_Some (dict_of rs !! c) ->
        c <> "summary" /\ is_Some (prompt_cfg !! c)).
Proof.
  intros H. apply char_results_pairs in H.
  assert (Hkeys : map fst rs = map fst (cast prompt_cfg)).
  { induction H as [|kv x l k [Hx _] _ IH]; [reflexivity|].
    cbn [map]. rewrite Hx, IH. reflexivity. }
  assert (Hnd : NoDup (map fst rs))
    by (rewrite Hkeys; apply cast_NoDup).
  split.
  - intros c cfg Hc Hne.
    assert (Hin : (c, cfg) ∈ cast prompt_cfg) by (apply elem_of_cast; tauto).
    clear Hkeys. induction H as [|kv x l k [Hx (pr & Hpr & Ht)] _ IH].
    + inversion Hin.
    + cbn [map] in Hnd. apply NoDup_cons in Hnd as [Hfresh Hnd].
      apply elem_of_cons in Hin as [<-|Hin].
      * cbn [fst snd] in *. exists pr. split; [exact Hpr|].
        apply dict_of_lookup; [apply NoDup_cons; tauto|].
        destruct x as [xc xt]. cbn [fst snd] in *. subst.
        apply list_elem_of_here.
      * destruct (IH Hnd Hin) as (pr' & Hpr' & Hlook).
        exists pr'. split; [exact Hpr'|].
        apply dict_of_lookup; [apply NoDup_cons; tauto|].
        apply list_elem_of_further. apply dict_of_lookup in Hlook; assumption.
  - intros c [t Ht]. apply dict_of_lookup in Ht; [|exact Hnd].
    assert (Hc : c ∈ map fst (cast prompt_cfg)).
    { rewrite <- Hkeys. apply list_elem_of_In, in_map_iff. exists (c, t).
      split; [reflexivity|apply list_elem_of_In, Ht]. }
    apply list_elem_of_In, in_map_iff in Hc as ([c' cfg] & <- & Hin).
    apply list_elem_of_In, elem_of_cast in Hin as [Hcfg Hne].
    cbn [fst]. split; [exact Hne|]. exists cfg. exact Hcfg.
Qed.

Lemma char_results_exist prompt_cfg info :
  (forall c cfg, prompt_cfg !! c = Some cfg -> c <> "summary" ->
     exists pr, char_prompts cfg info = Ok pr) ->
  exists rs,
    gather (char_tasks client prompt_cfg info tokens base) = Ok rs.
Proof.
  intros Hrender. unfold char_tasks. apply gather_map_Ok.
  apply Forall_forall. intros [c cfg] Hin.
  apply elem_of_cast in Hin as [Hc Hne].
  destruct (Hrender c cfg Hc Hne) as [pr Hpr]. cbn [fst snd].
  rewrite evaluate_character_kept, Hpr. cbn [bind]. eexists. reflexivity.
Qed.

(** What an emitted record holds. *)
Lemma evaluate_site_Ok_inv site_id r prompt_cfg rec :
  evaluate_site client site_id r prompt_cfg tokens base = Ok rec ->
  exists p, centroid r = Some p
    /\ site_metadata rec = site_info p r ∪ {["site_id" := site_id]}
    /\ (forall c cfg, prompt_cfg !! c = Some cfg -> c <> "summary" ->
          exists pr, char_prompts cfg (site_info p r) = Ok pr
            /\ characters rec !! c = Some (kept_text (outcome c pr)))
    /\ (forall c, is_Some (characters rec !! c) ->
          c <> "summary" /\ is_Some (prompt_cfg !! c))
    /\ match prompt_cfg !! "summary" with
       | Some sum_cfg =>
           exists pr, summary_prompts sum_cfg (characters rec) = Ok pr
             /\ call_chat_async (client "summary") (fst pr) (snd pr)
                  tokens base = Ok (summary rec)
       | None => summary rec = ""
       end.
Proof.
  unfold evaluate_site. intros H.
  destruct (centroid r) as [p|]; cbn [bind] in H; [|discriminate].
  apply bind_Ok_inv in H as (rs & Hrs & H).
  apply bind_Ok_inv in H as (text & Htext & [= <-]).
  destruct (char_results_dict _ _ _ Hrs) as [Hchars Hdom].
  exists p. cbn [site_metadata characters summary].
  split; [reflexivity|]. split; [reflexivity|].
  split; [exact Hchars|]. split; [exact Hdom|].
  destruct (prompt_cfg !! "summary") as [sum_cfg|].
  - apply bind_Ok_inv in Htext as (pr & Hpr & Hcall).
    exists pr. split; [exact Hpr|exact Hcall].
  - injection Htext as <-. reflexivity.
Qed.

(** A summary call that raises makes the whole site raise. *)
Lemma evaluate_site_summary_raises site_id r p prompt_cfg rs sum_cfg pr e :
  centroid r = Some p ->
  gather (char_tasks client prompt_cfg (site_info p r) tokens base)
    = Ok rs ->
  prompt_cfg !! "summary" = Some sum_cfg ->
  summary_prompts sum_cfg (dict_of rs) = Ok pr ->
  call_chat_async (client "summary") (fst pr) (snd pr) tokens base
    = Raise e ->
  evaluate_site client site_id r prompt_cfg tokens base = Raise e.
Proof.
  intros Hp Hrs Hsum Hpr Hcall. unfold evaluate_site.
  rewrite Hp. cbn [bind]. rewrite Hrs. cbn [bind].
  rewrite Hsum, Hpr. cbn [bind]. rewrite Hcall. reflexivity.
Qed.

(** Without a summary, a site whose prompts render is always emitted. *)
Lemma evaluate_site_no_summary site_id r p prompt_cfg :
  centroid r = Some p ->
  prompt_cfg !! "summary" = None ->
  (forall c cfg, prompt_cfg !! c = Some cfg -> c <> "summary" ->
     exists pr, char_prompts cfg (site_info p r) = Ok pr) ->
  exists rec,
    evaluate_site client site_id r prompt_cfg tokens base = Ok rec.
Proof.
  intros Hp Hsum Hrender.
  destruct (char_results_exist prompt_cfg (site_info p r) Hrender)
    as [rs Hrs].
  unfold evaluate_site. rewrite Hp. cbn [bind]. rewrite Hrs. cbn [bind].
  rewrite Hsum. cbn [bind]. eexists. reflexivity.
Qed.

Lemma evaluate_site_with_summary site_id r p prompt_cfg rs sum_cfg pr text :
  centroid r = Some p ->
  gather (char_tasks client prompt_cfg (site_info p r) tokens base)
    = Ok rs ->
  prompt_cfg !! "summary" = Some sum_cfg ->
  summary_prompts sum_cfg (dict_of rs) = Ok pr ->
  call_chat_async (client "summary") (fst pr) (snd pr) tokens base
    = Ok text ->
  evaluate_site client site_id r prompt_cfg tokens base
  = Ok {| site_metadata := site_info p r ∪ {["site_id" := site_id]};
          characters := dict_of rs; summary := text |}.
Proof.
  intros Hp Hrs Hsum Hpr Hcall. unfold evaluate_site.
  rewrite Hp. cbn [bind]. rewrite Hrs. cbn [bind].
  rewrite Hsum, Hpr. cbn [bind]. rewrite Hcall. reflexivity.
Qed.

(** C3, as stated, fails for the summary step: when the summary call of a
    site fails for good, no record with a placeholder is emitted; the site
    raises, and [main] is left with a ledger entry and no file for it. *)
Lemma failed_summary_discards_site :
  is_Some (sample_prompt_cfg !! "summary")
  /\ evaluate_site (sample_client (Ok "ode") "site_002") "site_002"
       sample_row sample_prompt_cfg 512 (dec 7 1)
     = Raise (Exn "APITimeoutError" "timed out")
  /\ collect (∅, [])
       (evaluate_site (sample_client (Ok "ode") "site_002") "site_002"
          sample_row sample_prompt_cfg 512 (dec 7 1))
     = Ok (∅, [("unknown", "timed out")]).
Proof.
  split; [eexists; vm_compute; reflexivity|].
  split; vm_compute; reflexivity.
Qed.

(** C3, amended: in a site whose character prompts render, a character
    whose call fails for good keeps the placeholder ["[Error] type: message"]
    as its text, and the site is emitted with it whenever there is no
    summary step or the summary call succeeds; when the summary call fails
    for good the site is not emitted: [evaluate_site] raises that error and
    [main] appends the ledger entry [("unknown", message)]. *)
Theorem permanent_failure_outcomes (site_id : string) (r : row) (p : string)
    (prompt_cfg : gmap string char_cfg)
    (Hgeom : centroid r = Some p)
    (Hrender : forall c cfg, prompt_cfg !! c = Some cfg -> c <> "summary" ->
                 exists pr, char_prompts cfg (site_info p r) = Ok pr) :
  exists chars : gmap string string,
    (forall c cfg pr e,
       prompt_cfg !! c = Some cfg -> c <> "summary" ->
       char_prompts cfg (site_info p r) = Ok pr ->
       outcome c pr = Raise e ->
       chars !! c = Some (error_text e))
    /\ (forall c cfg pr,
          prompt_cfg !! c = Some cfg -> c <> "summary" ->
          char_prompts cfg (site_info p r) = Ok pr ->
          chars !! c = Some (kept_text (outcome c pr)))
    /\ (prompt_cfg !! "summary" = None ->
        evaluate_site client site_id r prompt_cfg tokens base
        = Ok {| site_metadata := site_info p r ∪ {["site_id" := site_id]};
                characters := chars; summary := "" |})
    /\ (forall sum_cfg pr,
          prompt_cfg !! "summary" = Some sum_cfg ->
          summary_prompts sum_cfg chars = Ok pr ->
          match call_chat_async (client "summary") (fst pr) (snd pr)
                  tokens base with
          | Ok text =>
              evaluate_site client site_id r prompt_cfg tokens
                base
              = Ok {| site_metadata :=
                        site_info p r ∪ {["site_id" := site_id]};
                      characters := chars; summary := text |}
          | Raise e =>
              evaluate_site client site_id r prompt_cfg tokens
                base = Raise e
              /\ forall out,
                   collect out (Raise e)
                   = Ok (fst out, snd out ++ [("unknown", exn_str e)])
          end).
Proof.
  destruct (char_results_exist prompt_cfg (site_info p r) Hrender)
    as [rs Hrs].
  destruct (char_results_dict _ _ _ Hrs) as [Hchars _].
  assert (Hkept : forall c cfg pr,
            prompt_cfg !! c = Some cfg -> c <> "summary" ->
            char_prompts cfg (site_info p r) = Ok pr ->
            dict_of rs !! c = Some (kept_text (outcome c pr))).
  { intros c cfg pr Hc Hne Hpr.
    destruct (Hchars c cfg Hc Hne) as (pr' & Hpr' & Hlook).
    rewrite Hpr in Hpr'. injection Hpr' as <-. exact Hlook. }
  exists (dict_of rs). split; [|split; [exact Hkept|split]].
  - intros c cfg pr e Hc Hne Hpr Hout.
    rewrite (Hkept c cfg pr Hc Hne Hpr), Hout. reflexivity.
  - intros Hsum. unfold evaluate_site.
    rewrite Hgeom. cbn [bind]. rewrite Hrs. cbn [bind].
    rewrite Hsum. reflexivity.
  - intros sum_cfg pr Hsum Hpr.
    destruct (call_chat_async (client "summary") (fst pr) (snd pr)
                tokens base) as [text|e] eqn:Hcall.
    + exact (evaluate_site_with_summary _ _ _ _ _ _ _ _ Hgeom Hrs Hsum Hpr
               Hcall).
    + split; [|reflexivity].
      exact (evaluate_site_summary_raises _ _ _ _ _ _ _ _ Hgeom Hrs Hsum Hpr
               Hcall).
Qed.

(** C4, amended: a call is attempted five times at most, and a task
    whose five attempts all fail is not tried again.  In a site whose
    character prompts render, a character task that fails fewer than five
    times and then succeeds has the text of the service as its text; that
    text is in the record of the site, written to [<site_id>.json] with the
    ledger left as it was, when no summary is configured or the summary
    call succeeds within its five attempts.  When the five attempts of the
    summary all fail, the site raises: no record is written, the text of
    the task is in none, and the ledger gets [("unknown", message)].  A
    character task whose five attempts all fail keeps the error
    placeholder as its text. *)
Theorem retry_ceiling_per_task (site_id : string) (r : row) (p : string)
    (prompt_cfg : gmap string char_cfg) (c : string) (cfg : char_cfg)
    (pr : string * string)
    (Hgeom : centroid r = Some p)
    (Hrender : forall c' cfg', prompt_cfg !! c' = Some cfg' ->
                 c' <> "summary" ->
                 exists pr', char_prompts cfg' (site_info p r) = Ok pr')
    (Hc : prompt_cfg !! c = Some cfg) (Hne : c <> "summary")
    (Hpr : char_prompts cfg (site_info p r) = Ok pr) :
  let req := {| system_prompt := fst pr; user_prompt := snd pr;
                max_tokens := tokens;
                temperature := char_temperature c base |} in
  let run := call_chat_async_attempts (client c) (fst pr) (snd pr)
               tokens (char_temperature c base) in
  exists chars : gmap string string,
    let emitted text :=
      {| site_metadata := site_info p r ∪ {["site_id" := site_id]};
         characters := chars; summary := text |} in
    (snd run <= stop_after_attempt)%nat
    /\ (forall k text,
          (k < stop_after_attempt)%nat ->
          (forall j, (j < k)%nat -> exists e, client c req j = Raise e) ->
          client c req k = Ok text ->
          run = (Ok text, S k)
          /\ evaluate_character (client c) c cfg (site_info p r) tokens
               base = Ok (c, text)
          /\ chars !! c = Some text)
    /\ (forall e,
          (forall j, (j < Nat.pred stop_after_attempt)%nat ->
             exists e', client c req j = Raise e') ->
          client c req (Nat.pred stop_after_attempt) = Raise e ->
          run = (Raise e, stop_after_attempt)
          /\ evaluate_character (client c) c cfg (site_info p r) tokens
               base = Ok (c, error_text e)
          /\ chars !! c = Some (error_text e))
    /\ (forall text out,
          collect out (Ok (emitted text))
          = Ok (<[site_id +:+ ".json" := emitted text]> (fst out), snd out))
    /\ (prompt_cfg !! "summary" = None ->
        evaluate_site client site_id r prompt_cfg tokens base
        = Ok (emitted ""))
    /\ (forall sum_cfg spr,
          prompt_cfg !! "summary" = Some sum_cfg ->
          summary_prompts sum_cfg chars = Ok spr ->
          let sreq := {| system_prompt := fst spr; user_prompt := snd spr;
                         max_tokens := tokens; temperature := base |} in
          let srun := call_chat_async_attempts (client "summary") (fst spr)
                        (snd spr) tokens base in
          (snd srun <= stop_after_attempt)%nat
          /\ (forall k text,
                (k < stop_after_attempt)%nat ->
                (forall j, (j < k)%nat ->
                   exists e, client "summary" sreq j = Raise e) ->
                client "summary" sreq k = Ok text ->
                srun = (Ok text, S k)
                /\ evaluate_site client site_id r prompt_cfg tokens base
                   = Ok (emitted text))
          /\ (forall e,
                (forall j, (j < Nat.pred stop_after_attempt)%nat ->
                   exists e', client "summary" sreq j = Raise e') ->
                client "summary" sreq (Nat.pred stop_after_attempt)
                  = Raise e ->
                srun = (Raise e, stop_after_attempt)
                /\ evaluate_site client site_id r prompt_cfg tokens base
                   = Raise e
                /\ forall out,
                     collect out
                       (evaluate_site client site_id r prompt_cfg tokens
                          base)
                     = Ok (fst out, snd out ++ [("unknown", exn_str e)]))).
Proof.
  intros req run.
  destruct (char_results_exist prompt_cfg (site_info p r) Hrender)
    as [rs Hrs].
  destruct (char_results_dict _ _ _ Hrs) as [Hchars _].
  assert (Hlook : dict_of rs !! c = Some (kept_text (fst run))).
  { destruct (Hchars c cfg Hc Hne) as (pr' & Hpr' & Hlook).
    rewrite Hpr in Hpr'. injection Hpr' as <-. exact Hlook. }
  assert (Heval : evaluate_character (client c) c cfg (site_info p r)
                    tokens base
                  = Ok (c, kept_text (fst run))).
  { rewrite evaluate_character_kept, Hpr. reflexivity. }
  exists (dict_of rs). cbn zeta.
  split; [apply (retrying_attempts_le (Nat.pred stop_after_attempt) 0)|].
  split; [|split; [|split; [|split]]].
  - intros k text Hk Hfail Hok.
    assert (Hrun : run = (Ok text, S k)).
    { apply (retrying_succeeds (Nat.pred stop_after_attempt) 0 k);
        [unfold stop_after_attempt in *; cbn; lia|exact Hfail|exact Hok]. }
    split; [exact Hrun|]. rewrite Hrun in Heval, Hlook.
    split; [exact Heval|exact Hlook].
  - intros e Hfail Hlast.
    assert (Hrun : run = (Raise e, stop_after_attempt)).
    { apply (retrying_gives_up (Nat.pred stop_after_attempt) 0);
        [exact Hfail|exact Hlast]. }
    split; [exact Hrun|]. rewrite Hrun in Heval, Hlook.
    split; [exact Heval|exact Hlook].
  - intros text out. unfold collect, getitem. cbn [site_metadata].
    rewrite lookup_union_r.
    + rewrite lookup_singleton_eq. reflexivity.
    + unfold site_info. rewrite !lookup_insert_ne by discriminate.
      apply lookup_empty.
  - intros Hsum. unfold evaluate_site.
    rewrite Hgeom. cbn [bind]. rewrite Hrs. cbn [bind].
    rewrite Hsum. reflexivity.
  - intros sum_cfg spr Hsum Hspr.
    split; [apply (retrying_attempts_le (Nat.pred stop_after_attempt) 0)|].
    split.
    + intros k text Hk Hfail Hok.
      assert (Hrun : call_chat_async_attempts (client "summary") (fst spr)
                       (snd spr) tokens base = (Ok text, S k)).
      { apply (retrying_succeeds (Nat.pred stop_after_attempt) 0 k);
          [unfold stop_after_attempt in *; cbn; lia|exact Hfail|exact Hok]. }
      split; [exact Hrun|].
      apply (evaluate_site_with_summary _ _ _ _ _ _ _ _ Hgeom Hrs Hsum Hspr).
      unfold call_chat_async. rewrite Hrun. reflexivity.
    + intros e Hfail Hlast.
      assert (Hrun : call_chat_async_attempts (client "summary") (fst spr)
                       (snd spr) tokens base
                     = (Raise e, stop_after_attempt)).
      { apply (retrying_gives_up (Nat.pred stop_after_attempt) 0);
          [exact Hfail|exact Hlast]. }
      split; [exact Hrun|].
      assert (Hsite : evaluate_site client site_id r prompt_cfg tokens base
                      = Raise e).
      { apply (evaluate_site_summary_raises _ _ _ _ _ _ _ _ Hgeom Hrs Hsum
                 Hspr).
        unfold call_chat_async. rewrite Hrun. reflexivity. }
      split; [exact Hsite|]. intros out. rewrite Hsite. reflexivity.
Qed.

End Site.

Lemma sample_prompts_render (p : string) (c : string) (cfg : char_cfg) :
  delete "summary" sample_prompt_cfg !! c = Some cfg -> c <> "summary" ->
  exists pr, char_prompts cfg (site_info p sample_row) = Ok pr.
Proof.
  intros Hc Hne. rewrite lookup_delete_ne in Hc by congruence.
  unfold sample_prompt_cfg in Hc.
  repeat (apply lookup_insert_Some in Hc as [[<- <-]|[_ Hc]];
          [try contradiction; eexists; vm_compute; reflexivity|]).
  rewrite lookup_empty in Hc. discriminate.
Qed.

Lemma permanent_failure_outcomes_witness :
  exists rec,
    evaluate_site (sample_client (Raise (Exn "APIError" "boom")) "site_000")
      "site_000" sample_row (delete "summary" sample_prompt_cfg) 512
      (dec 7 1) = Ok rec
    /\ characters rec !! "poet" = Some "[Error] APIError: boom".
Proof.
  destruct (permanent_failure_outcomes
              (sample_client (Raise (Exn "APIError" "boom")) "site_000")
              512 (dec 7 1) "site_000" sample_row "-60.00000, -3.00000"
              (delete "summary" sample_prompt_cfg) eq_refl
              (sample_prompts_render _))
    as (chars & Hplace & _ & Hemit & _).
  eexists. split; [apply Hemit; vm_compute; reflexivity|].
  cbn [characters].
  refine (Hplace "poet" (sample_char "You are a poet." sample_template) _
            (Exn "APIError" "boom") _ _ _ _);
    [vm_compute; reflexivity|discriminate| |]; vm_compute; reflexivity.
Defined.

Lemma retry_ceiling_per_task_witness :
  exists rec,
    evaluate_site (sample_client (Raise (Exn "APIError" "boom")) "site_000")
      "site_000" sample_row (delete "summary" sample_prompt_cfg) 512
      (dec 7 1) = Ok rec
    /\ characters rec !! "skeptic" = Some "doubtful"
    /\ collect (∅, []) (Ok rec) = Ok ({["site_000.json" := rec]}, []).
Proof.
  pose (client := sample_client (Raise (Exn "APIError" "boom")) "site_000").
  pose (info := "Site at -60.00000, -3.00000, NDVI 0.5").
  pose (ask := "Assess the site." +:+ nl +:+ nl +:+ info).
  destruct (retry_ceiling_per_task client 512 (dec 7 1) "site_000"
              sample_row "-60.00000, -3.00000"
              (delete "summary" sample_prompt_cfg) "skeptic"
              (sample_char "You are a skeptic." sample_template)
              ("You are a skeptic." +:+ nl, ask)
              eq_refl (sample_prompts_render _) eq_refl
              ltac:(discriminate) eq_refl)
    as (chars & _ & Hok & _ & Hfile & Hemit & _).
  eexists. split; [apply Hemit; vm_compute; reflexivity|].
  split.
  - destruct (Hok 2%nat "doubtful") as (_ & _ & Hrec).
    + unfold stop_after_attempt. lia.
    + intros [|[|j]] Hj; [eexists; reflexivity..|lia].
    + reflexivity.
    + exact Hrec.
  - exact (Hfile "" (∅, [])).
Defined.

(** C4, as stated, fails: the skeptic of [site_002] is refused twice and
    then answers, fewer failures than the ceiling, yet its text is in no
    record: the summary call of the site fails for good, the site raises,
    and [main] is left without [site_002.json] and with a ledger entry that
    holds the message of the summary. *)
Lemma recovered_text_is_lost :
  let client := sample_client (Ok "An ode.") in
  let cfg := sample_char "You are a skeptic." sample_template in
  let info := site_info "-60.00000, -3.00000" sample_row in
  (exists pr,
     char_prompts cfg info = Ok pr
     /\ call_chat_async_attempts (client "site_002" "skeptic") (fst pr)
          (snd pr) 512 (char_temperature "skeptic" (dec 7 1))
        = (Ok "doubtful", 3%nat))
  /\ evaluate_character (client "site_002" "skeptic") "skeptic" cfg info 512
       (dec 7 1) = Ok ("skeptic", "doubtful")
  /\ evaluate_site (client "site_002") "site_002" sample_row
       sample_prompt_cfg 512 (dec 7 1)
     = Raise (Exn "APITimeoutError" "timed out")
  /\ let run := main reversed client [sample_row; sample_row; sample_row]
                  sample_prompt_cfg (Some "sk-test") 512 (dec 7 1) in
     ledger run = Some [("unknown", "timed out")]
     /\ wrote run "site_002.json" = false
     /\ wrote run "site_000.json" = true
     /\ wrote run "site_001.json" = true.
Proof.
  cbn zeta. split; [eexists; split; vm_compute; reflexivity|].
  split; [vm_compute; reflexivity|].
  split; [vm_compute; reflexivity|].
  split; [vm_compute; reflexivity|].
  split; [vm_compute; reflexivity|].
  split; vm_compute; reflexivity.
Qed.

(** *** The summary step *)

Lemma summary_kwargs_agree (chars1 chars2 : gmap string string) :
  (forall c, c ∈ summary_sources -> chars1 !! c = chars2 !! c) ->
  summary_kwargs chars1 = summary_kwargs chars2.
Proof.
  intros H. unfold summary_kwargs.
  rewrite (H "explorer"), (H "engineer"), (H "skeptic"), (H "historian"),
    (H "ecologist");
    [reflexivity|unfold summary_sources; apply list_elem_of_In; cbn; tauto..].
Qed.

Lemma summary_sources_not_summary (c : string) :
  c ∈ summary_sources -> c <> "summary".
Proof.
  unfold summary_sources. intros Hin ->.
  repeat (apply elem_of_cons in Hin as [Hin|Hin]; [discriminate|]).
  inversion Hin.
Qed.

(** C10: every configured character other than the summary has, as its
    text in the record, what the service answered to its own call (the
    answer of the first attempt that did not raise, or the error
    placeholder).  The input of the summary step is the summary template
    filled with five keyword arguments, the texts of explorer, engineer,
    skeptic, historian and ecologist, a missing one being replaced by the
    empty text; the summary is the answer of the service to that input.
    So two services that agree on these five characters and on the
    summary call produce the same summary input and the same summary,
    whatever they answer to any other character, whose text is in the
    record all the same. *)
Theorem summary_reads_five_characters (client1 client2 : string -> endpoint)
    (site_id : string) (r : row) (prompt_cfg : gmap string char_cfg)
    (tokens : Z) (base : F) (rec1 rec2 : record)
    (Hfive : forall c, c ∈ summary_sources -> client1 c = client2 c)
    (Hsum : client1 "summary" = client2 "summary")
    (H1 : evaluate_site client1 site_id r prompt_cfg tokens base = Ok rec1)
    (H2 : evaluate_site client2 site_id r prompt_cfg tokens base = Ok rec2) :
  summary_kwargs (characters rec1) = summary_kwargs (characters rec2)
  /\ summary rec1 = summary rec2
  /\ (forall chars name, name ∈ summary_sources ->
        summary_kwargs chars !! (name +:+ "_opinion")
        = Some (default "" (chars !! name)))
  /\ (forall chars key, is_Some (summary_kwargs chars !! key) ->
        exists name, name ∈ summary_sources /\ key = name +:+ "_opinion")
  /\ (forall sum_cfg, prompt_cfg !! "summary" = Some sum_cfg ->
        exists pr,
          summary_prompts sum_cfg (characters rec1) = Ok pr
          /\ summary_prompts sum_cfg (characters rec2) = Ok pr
          /\ (exists template,
                input_template sum_cfg = Some template
                /\ format template (summary_kwargs (characters rec1))
                   = Ok (snd pr))
          /\ call_chat_async (client1 "summary") (fst pr) (snd pr) tokens
               base = Ok (summary rec1))
  /\ (prompt_cfg !! "summary" = None -> summary rec1 = "")
  /\ (forall name, name ∈ summary_sources -> prompt_cfg !! name = None ->
        characters rec1 !! name = None
        /\ summary_kwargs (characters rec1) !! (name +:+ "_opinion")
           = Some "")
  /\ exists p,
       centroid r = Some p
       /\ forall c cfg, prompt_cfg !! c = Some cfg -> c <> "summary" ->
            exists pr,
              let req temp := {| system_prompt := fst pr;
                                 user_prompt := snd pr;
                                 max_tokens := tokens;
                                 temperature := temp |} in
              char_prompts cfg (site_info p r) = Ok pr
              /\ characters rec1 !! c
                 = Some (kept_text (char_outcome (client1 c) c pr tokens
                                      base))
              /\ characters rec2 !! c
                 = Some (kept_text (char_outcome (client2 c) c pr tokens
                                      base))
              /\ (forall k text,
                    (k < stop_after_attempt)%nat ->
                    (forall j, (j < k)%nat ->
                       exists e,
                         client1 c (req (char_temperature c base)) j
                         = Raise e) ->
                    client1 c (req (char_temperature c base)) k = Ok text ->
                    characters rec1 !! c = Some text)
              /\ (forall e,
                    (forall j, (j < Nat.pred stop_after_attempt)%nat ->
                       exists e',
                         client1 c (req (char_temperature c base)) j
                         = Raise e') ->
                    client1 c (req (char_temperature c base))
                      (Nat.pred stop_after_attempt) = Raise e ->
                    characters rec1 !! c = Some (error_text e)).
Proof.
  destruct (evaluate_site_Ok_inv _ _ _ _ _ _ _ H1)
    as (p & Hp & _ & Hch1 & Hdom1 & Hs1).
  destruct (evaluate_site_Ok_inv _ _ _ _ _ _ _ H2)
    as (p' & Hp' & _ & Hch2 & Hdom2 & Hs2).
  rewrite Hp in Hp'. injection Hp' as <-.
  assert (Hagree : forall c, c ∈ summary_sources ->
                     characters rec1 !! c = characters rec2 !! c).
  { intros c Hc. pose proof (summary_sources_not_summary c Hc) as Hne.
    destruct (prompt_cfg !! c) as [cfg|] eqn:Hcfg.
    - destruct (Hch1 c cfg Hcfg Hne) as (pr1 & Hpr1 & ->).
      destruct (Hch2 c cfg Hcfg Hne) as (pr2 & Hpr2 & ->).
      rewrite Hpr1 in Hpr2. injection Hpr2 as <-.
      rewrite (Hfive c Hc). reflexivity.
    - destruct (characters rec1 !! c) as [t1|] eqn:E1.
      { destruct (Hdom1 c ltac:(eauto)) as [_ [? ?]]. congruence. }
      destruct (characters rec2 !! c) as [t2|] eqn:E2.
      { destruct (Hdom2 c ltac:(eauto)) as [_ [? ?]]. congruence. }
      reflexivity. }
  pose proof (summary_kwargs_agree _ _ Hagree) as Hkw.
  assert (Hprompts : forall sum_cfg,
            summary_prompts sum_cfg (characters rec1)
            = summary_prompts sum_cfg (characters rec2)).
  { intros sum_cfg. unfold summary_prompts. rewrite Hkw. reflexivity. }
  assert (Hargs : forall chars name, name ∈ summary_sources ->
            summary_kwargs chars !! (name +:+ "_opinion")
            = Some (default "" (chars !! name))).
  { intros chars name Hname. unfold summary_sources in Hname.
    unfold summary_kwargs.
    repeat (apply elem_of_cons in Hname as [->|Hname];
            [cbn [String.app];
             rewrite ?lookup_insert_ne by discriminate;
             apply lookup_insert_eq|]).
    inversion Hname. }
  split; [exact Hkw|].
  split; [|split; [exact Hargs|split; [|split; [|split; [|split]]]]].
  - destruct (prompt_cfg !! "summary") as [sum_cfg|]; [|congruence].
    destruct Hs1 as (pr1 & Hpr1 & Hc1). destruct Hs2 as (pr2 & Hpr2 & Hc2).
    rewrite Hprompts, Hpr2 in Hpr1. injection Hpr1 as <-.
    rewrite Hsum in Hc1. congruence.
  - intros chars key [v Hv]. unfold summary_kwargs in Hv.
    unfold summary_sources.
    apply lookup_insert_Some in Hv as [[<- _]|[_ Hv]];
      [exists "ecologist"; split; [apply list_elem_of_In; cbn; tauto|reflexivity]|].
    apply lookup_insert_Some in Hv as [[<- _]|[_ Hv]];
      [exists "historian"; split; [apply list_elem_of_In; cbn; tauto|reflexivity]|].
    apply lookup_insert_Some in Hv as [[<- _]|[_ Hv]];
      [exists "skeptic"; split; [apply list_elem_of_In; cbn; tauto|reflexivity]|].
    apply lookup_insert_Some in Hv as [[<- _]|[_ Hv]];
      [exists "engineer"; split; [apply list_elem_of_In; cbn; tauto|reflexivity]|].
    apply lookup_insert_Some in Hv as [[<- _]|[_ Hv]];
      [exists "explorer"; split; [apply list_elem_of_In; cbn; tauto|reflexivity]|].
    rewrite lookup_empty in Hv. discriminate.
  - intros sum_cfg Hcfg. rewrite Hcfg in Hs1.
    destruct Hs1 as (pr & Hpr & Hcall). exists pr.
    split; [exact Hpr|]. split; [rewrite <- Hprompts; exact Hpr|].
    split; [|exact Hcall].
    unfold summary_prompts in Hpr.
    apply bind_Ok_inv in Hpr as (role_ & _ & Hpr).
    apply bind_Ok_inv in Hpr as (template & Ht & Hpr).
    apply bind_Ok_inv in Hpr as (input & Hin & [= <-]).
    exists template. split; [|exact Hin].
    unfold getfield in Ht. destruct (input_template sum_cfg); congruence.
  - intros Hnone. rewrite Hnone in Hs1. exact Hs1.
  - intros name Hname Hnone.
    assert (Habsent : characters rec1 !! name = None).
    { destruct (characters rec1 !! name) as [t|] eqn:E; [|reflexivity].
      destruct (Hdom1 name ltac:(eauto)) as [_ [? ?]]. congruence. }
    split; [exact Habsent|].
    rewrite (Hargs _ name Hname), Habsent. reflexivity.
  - exists p. split; [exact Hp|]. intros c cfg Hc Hne.
    destruct (Hch1 c cfg Hc Hne) as (pr & Hpr & Hl1).
    destruct (Hch2 c cfg Hc Hne) as (pr2 & Hpr2 & Hl2).
    rewrite Hpr in Hpr2. injection Hpr2 as <-.
    exists pr. cbn zeta. split; [exact Hpr|]. split; [exact Hl1|].
    split; [exact Hl2|]. split.
    + intros k text Hk Hfail Hok. rewrite Hl1.
      unfold char_outcome, call_chat_async, call_chat_async_attempts.
      rewrite (retrying_succeeds (Nat.pred stop_after_attempt) 0 k _ text);
        [reflexivity|unfold stop_after_attempt in *; cbn; lia|exact Hfail
        |exact Hok].
    + intros e Hfail Hlast. rewrite Hl1.
      unfold char_outcome, call_chat_async, call_chat_async_attempts.
      rewrite (retrying_gives_up (Nat.pred stop_after_attempt) 0 _ e);
        [reflexivity|exact Hfail|exact Hlast].
Qed.

Lemma summary_reads_five_characters_witness :
  exists rec1 rec2,
    evaluate_site (sample_client (Ok "An ode.") "site_000") "site_000"
      sample_row sample_prompt_cfg 512 (dec 7 1) = Ok rec1
    /\ evaluate_site
         (sample_client (Raise (Exn "APIError" "boom")) "site_000")
         "site_000" sample_row sample_prompt_cfg 512 (dec 7 1) = Ok rec2
    /\ characters rec1 !! "poet" = Some "An ode."
    /\ characters rec2 !! "poet" = Some "[Error] APIError: boom"
    /\ characters rec1 !! "skeptic" = Some "doubtful"
    /\ summary rec1 = summary rec2.
Proof.
  destruct (evaluate_site (sample_client (Ok "An ode.") "site_000")
              "site_000" sample_row sample_prompt_cfg 512 (dec 7 1))
    as [rec1|] eqn:H1; [|vm_compute in H1; discriminate].
  destruct (evaluate_site
              (sample_client (Raise (Exn "APIError" "boom")) "site_000")
              "site_000" sample_row sample_prompt_cfg 512 (dec 7 1))
    as [rec2|] eqn:H2; [|vm_compute in H2; discriminate].
  exists rec1, rec2. split; [reflexivity|]. split; [reflexivity|].
  destruct (summary_reads_five_characters
              (sample_client (Ok "An ode.") "site_000")
              (sample_client (Raise (Exn "APIError" "boom")) "site_000")
              "site_000" sample_row sample_prompt_cfg 512 (dec 7 1)
              rec1 rec2)
    as (_ & Hsame & _ & _ & _ & _ & _ & p & _ & Hall);
    [|reflexivity|exact H1|exact H2|].
  - intros c Hc. unfold summary_sources in Hc.
    repeat (apply elem_of_cons in Hc as [->|Hc]; [reflexivity|]).
    inversion Hc.
  - destruct (Hall "poet" (sample_char "You are a poet." sample_template))
      as (pr & _ & _ & Hpoet2 & Hpoet1 & _); [reflexivity|discriminate|].
    destruct (Hall "skeptic"
                (sample_char "You are a skeptic." sample_template))
      as (pr' & _ & _ & _ & Hskeptic & _); [reflexivity|discriminate|].
    split.
    { apply (Hpoet1 0%nat "An ode.");
        [unfold stop_after_attempt; lia|intros j Hj; lia|reflexivity]. }
    split; [exact Hpoet2|].
    split; [|exact Hsame].
    apply (Hskeptic 2%nat "doubtful");
      [unfold stop_after_attempt; lia| |reflexivity].
    intros [|[|j]] Hj; [eexists; reflexivity..|lia].
Defined.

(** *** Site ids and file names *)

Lemma pretty_N_go_head (x : N) (s : string) :
  (0 < x)%N ->
  exists c s', pretty_N_go x s = String c s' /\ c <> "0"%char.
Proof.
  revert s. induction (N.lt_wf_0 x) as [x _ IH]. intros s Hx.
  rewrite pretty_N_go_step by exact Hx.
  destruct (decide (x < 10)%N) as [Hlt|Hge].
  - rewrite N.div_small by exact Hlt. rewrite pretty_N_go_0.
    rewrite N.mod_small by exact Hlt.
    exists (pretty_N_char x), s. split; [reflexivity|].
    assert (x = 1 \/ x = 2 \/ x = 3 \/ x = 4 \/ x = 5 \/ x = 6 \/ x = 7
            \/ x = 8 \/ x = 9)%N as Hcases by lia.
    repeat (destruct Hcases as [->|Hcases]; [discriminate|]).
    subst. discriminate.
  - apply IH.
    + apply N.div_lt; lia.
    + apply N.div_str_pos. lia.
Qed.

(** The decimal numeral of a number is ["0"] or starts with another digit. *)
Lemma pretty_nat_head (n : nat) :
  (n = 0%nat /\ pretty n = "0")
  \/ exists c s, pretty n = String c s /\ c <> "0"%char.
Proof.
  unfold pretty, pretty_nat, pretty, pretty_N.
  destruct (decide (N.of_nat n = 0%N)) as [H0|Hpos].
  - left. split; [lia|reflexivity].
  - right. apply pretty_N_go_head. lia.
Qed.

Lemma zeros_app_inj (k k' : nat) (c c' : ascii) (t t' : string) :
  c <> "0"%char -> c' <> "0"%char ->
  zeros k +:+ String c t = zeros k' +:+ String c' t' ->
  String c t = String c' t'.
Proof.
  intros Hc Hc'. revert k'.
  induction k as [|k IH]; intros [|k']; cbn; intros H.
  - exact H.
  - injection H as -> _. contradiction.
  - injection H as <- _. contradiction.
  - injection H as H. exact (IH k' H).
Qed.

Lemma zeros_app_not_zeros (k m : nat) (c : ascii) (t : string) :
  c <> "0"%char -> zeros k +:+ String c t <> zeros m.
Proof.
  intros Hc. revert m. induction k as [|k IH]; intros [|m]; cbn; intros H.
  - discriminate.
  - injection H as -> _. contradiction.
  - discriminate.
  - injection H as H. exact (IH m H).
Qed.

Lemma zfill3_pretty_inj (n m : nat) :
  zfill3 (pretty n) = zfill3 (pretty m) -> n = m.
Proof.
  unfold zfill3. intros H.
  destruct (pretty_nat_head n) as [[Hn0 Hn]|(c & s & Hn & Hc)],
    (pretty_nat_head m) as [[Hm0 Hm]|(c' & s' & Hm & Hc')];
    rewrite Hn, Hm in H.
  - congruence.
  - symmetry in H. destruct (zeros_app_not_zeros _ 3 _ _ Hc' H).
  - destruct (zeros_app_not_zeros _ 3 _ _ Hc H).
  - apply zeros_app_inj in H; [|assumption..].
    apply (inj pretty). congruence.
Qed.

Lemma site_id_of_inj (n m : nat) : site_id_of n = site_id_of m -> n = m.
Proof.
  unfold site_id_of. intros H.
  apply (inj (String.app "site_")) in H. exact (zfill3_pretty_inj n m H).
Qed.

Lemma string_app_length (s t : string) :
  String.length (s +:+ t) = (String.length s + String.length t)%nat.
Proof.
  induction s as [|a s IH]; [reflexivity|].
  change (S (String.length (s +:+ t))
          = S (String.length s + String.length t)).
  f_equal. exact IH.
Qed.

Lemma string_app_inj_r (s1 s2 t : string) : s1 +:+ t = s2 +:+ t -> s1 = s2.
Proof.
  revert s2. induction s1 as [|a s1 IH]; intros [|b s2] H.
  - reflexivity.
  - apply (f_equal String.length) in H.
    rewrite !string_app_length in H. cbn in H. lia.
  - apply (f_equal String.length) in H.
    rewrite !string_app_length in H. cbn in H. lia.
  - change (String a (s1 +:+ t) = String b (s2 +:+ t)) in H.
    injection H as -> H. f_equal. exact (IH s2 H).
Qed.

Lemma file_name_inj (n m : nat) :
  site_id_of n +:+ ".json" = site_id_of m +:+ ".json" -> n = m.
Proof.
  intros H. apply site_id_of_inj. exact (string_app_inj_r _ _ _ H).
Qed.

(** *** The loop of [main] *)

Lemma evaluate_site_site_id client site_id r prompt_cfg tokens base rec :
  evaluate_site client site_id r prompt_cfg tokens base = Ok rec ->
  site_metadata rec !! "site_id" = Some site_id.
Proof.
  intros H. destruct (evaluate_site_Ok_inv _ _ _ _ _ _ _ H)
    as (p & _ & Hmeta & _).
  rewrite Hmeta, lookup_union_r.
  - apply lookup_singleton_eq.
  - unfold site_info. rewrite !lookup_insert_ne by discriminate.
    apply lookup_empty.
Qed.

Lemma collect_all_fold (coros : list (result record)) (out : outputs) :
  Forall (fun c => forall rec, c = Ok rec ->
                     is_Some (site_metadata rec !! "site_id")) coros ->
  collect_all out coros
  = Ok (fold_left (fun d kv => <[fst kv := snd kv]> d)
          (map file_of (records_of coros)) (fst out),
        snd out ++ ledger_of coros).
Proof.
  intros H. revert out. induction H as [|c coros Hc _ IH]; intros out.
  - cbn. rewrite app_nil_r. destruct out; reflexivity.
  - cbn [collect_all]. destruct c as [rec|e].
    + destruct (Hc rec eq_refl) as [sid Hsid].
      unfold collect, getitem. rewrite Hsid. cbn [bind].
      rewrite IH. cbn [fst snd]. f_equal. f_equal.
      change (records_of (Ok rec :: coros)) with (rec :: records_of coros).
      assert (Hfile : file_of rec = (sid +:+ ".json", rec))
        by (unfold file_of; rewrite Hsid; reflexivity).
      cbn [map fold_left]. rewrite Hfile. reflexivity.
    + cbn [collect bind]. rewrite IH. cbn [fst snd]. f_equal.
      change (ledger_of (Raise e :: coros))
        with (("unknown", exn_str e) :: ledger_of coros).
      rewrite <- app_assoc. reflexivity.
Qed.

Lemma records_ledger_length (coros : list (result record)) :
  (length (records_of coros) + length (ledger_of coros))%nat = length coros.
Proof.
  induction coros as [|[rec|e] coros IH]; [reflexivity| |].
  - change (records_of (Ok rec :: coros)) with (rec :: records_of coros).
    change (ledger_of (Ok rec :: coros)) with (ledger_of coros).
    cbn [length]. lia.
  - change (records_of (Raise e :: coros)) with (records_of coros).
    change (ledger_of (Raise e :: coros))
      with (("unknown", exn_str e) :: ledger_of coros).
    cbn [length]. lia.
Qed.

(** No repetition among the values picked from an indexed list, when a
    value determines its index. *)
Lemma NoDup_omap_imap {A B : Type} (f : nat -> A -> option B) (l : list A) :
  (forall i j x y b, l !! i = Some x -> l !! j = Some y ->
     f i x = Some b -> f j y = Some b -> i = j) ->
  NoDup (omap id (imap f l)).
Proof.
  revert f. induction l as [|a l IH]; intros f Hinj; [constructor|].
  rewrite imap_cons. cbn [omap list_omap].
  assert (Htail : NoDup (omap id (imap (f ∘ S) l))).
  { apply IH. intros i j x y b Hi Hj Hfi Hfj.
    apply (inj S). exact (Hinj (S i) (S j) x y b Hi Hj Hfi Hfj). }
  unfold id at 1. destruct (f 0%nat a) as [b|] eqn:Hb; [|exact Htail].
  apply NoDup_cons. split; [|exact Htail].
  intros Hin. apply list_elem_of_omap in Hin as (o & Ho & Hob).
  apply elem_of_lookup_imap in Ho as (j & y & -> & Hj).
  unfold id in Hob. cbn in Hob.
  discriminate (Hinj 0%nat (S j) a y b eq_refl Hj Hb Hob).
Qed.

Lemma map_omap_imap {A B C D : Type} (T : nat -> A -> B) (h : B -> option C)
    (g : C -> D) (l : list A) :
  map g (omap h (imap T l)) = omap id (imap (fun i x => g <$> h (T i x)) l).
Proof.
  revert T. induction l as [|a l IH]; intros T; [reflexivity|].
  rewrite !imap_cons. cbn [omap list_omap]. unfold id at 1.
  destruct (h (T 0%nat a)) as [c|]; cbn [fmap option_fmap option_map map];
    rewrite IH; reflexivity.
Qed.

Lemma fold_insert_size {V : Type} (pairs : list (string * V)) :
  NoDup (map fst pairs) ->
  size (fold_left (fun d kv => <[fst kv := snd kv]> d) pairs
          (∅ : gmap string V)) = length pairs.
Proof.
  intros Hnd. rewrite <- (map_size_list_to_map pairs) by exact Hnd.
  f_equal. apply map_eq. intros k. apply option_eq. intros v.
  rewrite fold_insert_lookup; [|exact Hnd|intros; apply lookup_empty].
  rewrite lookup_empty, <- elem_of_list_to_map by exact Hnd.
  split; [intros [?|?]; [assumption|discriminate]|tauto].
Qed.

Section Loop.

Variable client : string -> string -> endpoint.
Variable prompt_cfg : gmap string char_cfg.
Variable tokens : Z.
Variable base : F.

Local Abbreviation task := (site_task client prompt_cfg tokens base).

Lemma task_site_id idx r rec :
  task idx r = Ok rec -> file_of rec = (site_id_of idx +:+ ".json", rec).
Proof.
  intros H. apply evaluate_site_site_id in H.
  unfold file_of. rewrite H. reflexivity.
Qed.

(** The files of the tasks that returned: one per such site, under the
    name of the site. *)
Lemma task_files (gdf : list row) (k : string) (rec : record) :
  (k, rec) ∈ map file_of (records_of (imap task gdf))
  <-> exists idx r, gdf !! idx = Some r /\ task idx r = Ok rec
        /\ k = site_id_of idx +:+ ".json".
Proof.
  change (map file_of ?l) with (file_of <$> l).
  rewrite list_elem_of_fmap. unfold records_of. split.
  - intros (rec' & Hfile & Hin).
    apply list_elem_of_omap in Hin as (c & Hc & Hrec).
    destruct c as [rec''|]; [|discriminate]. injection Hrec as ->.
    apply elem_of_lookup_imap in Hc as (idx & r & Htask & Hr).
    symmetry in Htask. rewrite (task_site_id _ _ _ Htask) in Hfile.
    injection Hfile as -> ->. exists idx, r. tauto.
  - intros (idx & r & Hr & Htask & ->). exists rec.
    split; [symmetry; exact (task_site_id _ _ _ Htask)|].
    apply list_elem_of_omap. exists (Ok rec). split; [|reflexivity].
    rewrite <- Htask. apply elem_of_lookup_imap_2. exact Hr.
Qed.

Lemma task_files_NoDup (gdf : list row) :
  NoDup (map fst (map file_of (records_of (imap task gdf)))).
Proof.
  rewrite map_map. unfold records_of. rewrite map_omap_imap.
  apply NoDup_omap_imap. intros i j x y b _ _ Hi Hj.
  destruct (task i x) as [ri|] eqn:Hti; [|discriminate].
  destruct (task j y) as [rj|] eqn:Htj; [|discriminate].
  cbn [fmap option_fmap option_map] in Hi, Hj.
  injection Hi as Hi. injection Hj as Hj.
  rewrite (evaluate_site_site_id _ _ _ _ _ _ _ Hti) in Hi.
  rewrite (evaluate_site_site_id _ _ _ _ _ _ _ Htj) in Hj.
  apply file_name_inj. exact (eq_trans Hi (eq_sym Hj)).
Qed.

(** C2, amended: with the API key set, [main] settles every submitted
    site exactly once.  A site whose evaluation returns is written to the
    file named after its own id, and to no other; a site whose evaluation
    raises leaves no file and gets one ledger entry.  The files and the
    ledger entries together are as many as the sites.  A ledger entry
    carries the id ["unknown"] and the message of the error, not the id of
    the site. *)
Theorem every_site_settles_once
    (as_completed : list (result record) -> list (result record))
    (gdf : list row) (key : string)
    (Hcompleted : forall l, as_completed l ≡ₚ l)
    (Hkey : key <> "") :
  exists files failed,
    main as_completed client gdf prompt_cfg (Some key) tokens base
      = Ok (files, failed)
    /\ (forall idx r, gdf !! idx = Some r ->
          match task idx r with
          | Ok rec =>
              files !! (site_id_of idx +:+ ".json") = Some rec
              /\ site_metadata rec !! "site_id" = Some (site_id_of idx)
          | Raise e =>
              files !! (site_id_of idx +:+ ".json") = None
              /\ ("unknown", exn_str e) ∈ failed
          end)
    /\ (forall name rec, files !! name = Some rec ->
          exists idx r, gdf !! idx = Some r /\ task idx r = Ok rec
            /\ name = site_id_of idx +:+ ".json")
    /\ (size files + length failed)%nat = length gdf
    /\ failed ≡ₚ ledger_of (imap task gdf)
    /\ (forall entry, entry ∈ failed -> fst entry = "unknown").
Proof.
  set (tasks := imap task gdf).
  set (done := as_completed tasks).
  assert (Hperm : done ≡ₚ tasks) by apply Hcompleted.
  assert (Hids : Forall (fun c => forall rec, c = Ok rec ->
                           is_Some (site_metadata rec !! "site_id")) done).
  { apply Forall_forall. intros c Hc rec ->.
    rewrite Hperm in Hc.
    apply elem_of_lookup_imap in Hc as (idx & r & Htask & _).
    symmetry in Htask. apply evaluate_site_site_id in Htask. eauto. }
  set (pairs := map file_of (records_of done)).
  assert (Hpairs : pairs ≡ₚ map file_of (records_of tasks)).
  { unfold pairs, records_of. apply Permutation_map.
    rewrite Hperm. reflexivity. }
  assert (Hnd : NoDup (map fst pairs)).
  { rewrite Hpairs. apply task_files_NoDup. }
  assert (Hledger : ledger_of done ≡ₚ ledger_of tasks).
  { unfold ledger_of. rewrite Hperm. reflexivity. }
  set (files := fold_left (fun d kv => <[fst kv := snd kv]> d) pairs
                  (∅ : gmap string record)).
  assert (Hfiles : forall k rec,
            files !! k = Some rec
            <-> exists idx r, gdf !! idx = Some r /\ task idx r = Ok rec
                  /\ k = site_id_of idx +:+ ".json").
  { intros k rec. unfold files.
    rewrite fold_insert_lookup; [|exact Hnd|intros; apply lookup_empty].
    rewrite lookup_empty, Hpairs. unfold tasks. rewrite task_files.
    split; [intros [?|?]; [assumption|discriminate]|tauto]. }
  exists files, (ledger_of done).
  split.
  { unfold main. destruct key as [|a key]; [contradiction|].
    fold tasks. fold done. rewrite (collect_all_fold done (∅, []) Hids).
    reflexivity. }
  split; [|split; [|split; [|split]]].
  - intros idx r Hr. destruct (task idx r) as [rec|e] eqn:Htask.
    + split; [|exact (evaluate_site_site_id _ _ _ _ _ _ _ Htask)].
      apply Hfiles. exists idx, r. tauto.
    + split.
      * destruct (files !! (site_id_of idx +:+ ".json")) as [rec|] eqn:Hf;
          [|reflexivity].
        apply Hfiles in Hf as (idx' & r' & Hr' & Htask' & Hname).
        apply file_name_inj in Hname as <-.
        rewrite Hr in Hr'. injection Hr' as <-. congruence.
      * rewrite Hledger. unfold ledger_of. apply list_elem_of_omap.
        exists (Raise e). split; [|reflexivity].
        rewrite <- Htask. apply elem_of_lookup_imap_2. exact Hr.
  - intros name rec Hf. apply Hfiles. exact Hf.
  - unfold files. rewrite (fold_insert_size pairs Hnd).
    unfold pairs. rewrite length_map.
    rewrite <- (length_imap task gdf). fold tasks.
    rewrite <- (Permutation_length Hperm).
    apply records_ledger_length.
  - exact Hledger.
  - intros entry Hin. unfold ledger_of in Hin.
    apply list_elem_of_omap in Hin as (c & _ & Hc).
    destruct c as [|e]; [discriminate|]. injection Hc as <-. reflexivity.
Qed.

End Loop.

(** C2, as stated, fails: the id of a site whose evaluation raises (here a
    row without geometry) is in no record and in no ledger entry; the
    ledger names the site ["unknown"]. *)
Lemma failed_site_id_is_lost :
  main reversed (sample_client (Ok "An ode.")) [bare_row] sample_prompt_cfg
    (Some "sk-test") 512 (dec 7 1)
  = Ok (∅, [("unknown", "'NoneType' object has no attribute 'centroid'")])
  /\ site_id_of 0 = "site_000"
  /\ "site_000" <> "unknown".
Proof.
  split; [vm_compute; reflexivity|].
  split; [vm_compute; reflexivity|discriminate].
Qed.

Lemma reversed_completes (l : list (result record)) : reversed l ≡ₚ l.
Proof.
  unfold reversed. symmetry. apply Permutation_rev.
Qed.

Lemma every_site_settles_once_witness :
  exists files failed,
    main reversed (sample_client (Ok "An ode."))
      [sample_row; bare_row; sample_row] sample_prompt_cfg (Some "sk-test")
      512 (dec 7 1) = Ok (files, failed)
    /\ (size files + length failed)%nat = 3%nat
    /\ is_Some (files !! "site_000.json")
    /\ failed ≡ₚ [("unknown", "'NoneType' object has no attribute 'centroid'");
                  ("unknown", "timed out")].
Proof.
  destruct (every_site_settles_once (sample_client (Ok "An ode."))
              sample_prompt_cfg 512 (dec 7 1) reversed
              [sample_row; bare_row; sample_row] "sk-test"
              reversed_completes ltac:(discriminate))
    as (files & failed & Hrun & Hsites & _ & Hcount & Hledger & _).
  exists files, failed. split; [exact Hrun|]. split; [exact Hcount|].
  split.
  - pose proof (Hsites 0%nat sample_row eq_refl) as H0.
    destruct (site_task (sample_client (Ok "An ode.")) sample_prompt_cfg 512
                (dec 7 1) 0 sample_row) as [rec|] eqn:Htask;
      [|vm_compute in Htask; discriminate].
    exists rec. exact (proj1 H0).
  - rewrite Hledger. vm_compute. reflexivity.
Defined.

End DialogueFacts.

(** * Further properties of the scoring engine *)

Module ScoringMore.

Import Scoring ScoringFacts.

Lemma cfg_get_raises_key {V : Type} cfg feat (proj : feature_cfg -> option V)
    key e :
  cfg_get cfg feat proj key = Raise e ->
  (cfg !! feat = None /\ e = KeyError feat)
  \/ (is_Some (cfg !! feat) /\ e = KeyError key).
Proof.
  unfold cfg_get, getitem, getfield.
  destruct (cfg !! feat) as [c|]; cbn [bind].
  - destruct (proj c); [discriminate|]. intros [= <-]. right. eauto.
  - intros [= <-]. left. eauto.
Qed.

Lemma cfg_get_Ok_entry {V : Type} cfg feat (proj : feature_cfg -> option V)
    key v :
  cfg_get cfg feat proj key = Ok v -> is_Some (cfg !! feat).
Proof.
  unfold cfg_get, getitem.
  destruct (cfg !! feat) as [c|]; cbn [bind]; [eauto|discriminate].
Qed.

(** X1: scoring two frames one after the other gives the scores of the joined
    frame: a site's score does not depend on the sites scored with it. *)
Theorem scores_of_joined_frames (df1 df2 : list site)
    (cfg : gmap string feature_cfg) :
  compute_score_vec (df1 ++ df2) cfg
  = let* a := compute_score_vec df1 cfg in
    let* b := compute_score_vec df2 cfg in
    Ok (a ++ b).
Proof.
  rewrite !compute_score_vec_rows.
  destruct (read_cfg cfg) as [p|e]; cbn [bind]; [|reflexivity].
  rewrite map_app. reflexivity.
Qed.

(** X2: reordering the sites reorders their scores with them, and a site
    scored alone gets the score it has in any batch. *)
Theorem scores_follow_sites (df df' : list site)
    (cfg : gmap string feature_cfg) (scores : list F)
    (Hperm : df ≡ₚ df')
    (Hscores : compute_score_vec df cfg = Ok scores) :
  (exists scores', compute_score_vec df' cfg = Ok scores'
     /\ zip df' scores' ≡ₚ zip df scores)
  /\ (forall i x s, df !! i = Some x -> scores !! i = Some s ->
        compute_score_vec [x] cfg = Ok [s]).
Proof.
  rewrite compute_score_vec_rows in Hscores.
  destruct (read_cfg cfg) as [p|e] eqn:Hp; cbn [bind] in Hscores;
    [|discriminate].
  injection Hscores as <-.
  assert (Hzip : forall l : list site,
            zip l (map (row_score p) l)
            = map (fun x => (x, row_score p x)) l).
  { induction l as [|a l IH]; [reflexivity|]. cbn. rewrite IH. reflexivity. }
  split.
  - exists (map (row_score p) df'). rewrite compute_score_vec_rows, Hp.
    split; [reflexivity|]. rewrite !Hzip.
    apply Permutation_map. symmetry. exact Hperm.
  - intros i x s Hx Hs. rewrite compute_score_vec_rows, Hp. cbn [bind map].
    change (map (row_score p) df) with (row_score p <$> df) in Hs.
    rewrite list_lookup_fmap, Hx in Hs. injection Hs as <-. reflexivity.
Qed.

Lemma scores_follow_sites_witness :
  exists scores',
    compute_score_vec [only_ndvi nan; highland] (sample_cfg (dec 5 1))
      = Ok scores'
    /\ scores' !! 0%nat = Some zero.
Proof.
  destruct (compute_score_vec [highland; only_ndvi nan]
              (sample_cfg (dec 5 1))) as [scores|] eqn:Hs;
    [|vm_compute in Hs; discriminate].
  destruct (scores_follow_sites [highland; only_ndvi nan]
              [only_ndvi nan; highland] (sample_cfg (dec 5 1)) scores)
    as [(scores' & Hs' & _) _]; [apply Permutation_swap|exact Hs|].
  exists scores'. split; [exact Hs'|].
  vm_compute in Hs'. injection Hs' as <-. reflexivity.
Defined.

(** X3: a configuration without the entry of one of the five features makes
    the engine raise [KeyError], whatever the frame (an empty one too); a
    missing NDVI entry is the one reported first. *)
Theorem missing_feature_entry_raises (df : list site)
    (cfg : gmap string feature_cfg) (feat : string)
    (Hfeat : feat ∈ ["ndvi"; "slope"; "elevation"; "carbon"; "landcover"])
    (Hmissing : cfg !! feat = None) :
  (exists k, compute_score_vec df cfg = Raise (KeyError k))
  /\ (cfg !! "ndvi" = None ->
      compute_score_vec df cfg = Raise (KeyError "ndvi")).
Proof.
  rewrite compute_score_vec_rows. split.
  - destruct (read_cfg cfg) as [p|e] eqn:Hp; cbn [bind].
    + exfalso. unfold read_cfg in Hp.
      repeat match type of Hp with
      | bind (cfg_get cfg ?f ?proj ?key) _ = Ok _ =>
          let v := fresh "v" in let Hv := fresh "Hv" in
          apply bind_Ok_inv in Hp as (v & Hv & Hp);
          apply cfg_get_Ok_entry in Hv
      end.
      repeat (apply elem_of_cons in Hfeat as [->|Hfeat];
              [match goal with
               | H : is_Some (cfg !! ?f) |- _ =>
                   rewrite Hmissing in H; destruct H; discriminate
               end|]).
      inversion Hfeat.
    + unfold read_cfg in Hp.
      repeat match type of Hp with
      | bind ?r _ = Raise _ =>
          let H' := fresh in
          apply bind_Raise_inv in Hp as [H'|(? & _ & Hp)];
            [apply cfg_get_raises_key in H' as [[_ ->]|[_ ->]]; eauto|]
      end.
      discriminate.
  - intros Hndvi. unfold read_cfg, cfg_get at 1, getitem.
    rewrite Hndvi. reflexivity.
Qed.

Lemma missing_feature_entry_raises_witness :
  compute_score_vec [] (delete "ndvi" (sample_cfg (dec 5 1)))
  = Raise (KeyError "ndvi").
Proof.
  apply (missing_feature_entry_raises [] (delete "ndvi" (sample_cfg (dec 5 1)))
           "ndvi"); [apply list_elem_of_here|reflexivity..].
Defined.

Lemma ltb_leb (a b : F) : ltb a b = true -> leb a b = true.
Proof.
  unfold ltb, leb, SFltb, SFleb.
  destruct (SFcompare a b) as [[]|]; congruence.
Qed.

(** numpy's [clip] to [0, 1]: NaN stays NaN, and anything else (the
    infinities too) lands in [0, 1]. *)
Lemma clip_unit_interval (x : F) :
  (is_nan x = true /\ clip x zero one = x)
  \/ (is_nan x = false
      /\ leb zero (clip x zero one) = true
      /\ leb (clip x zero one) one = true).
Proof.
  unfold clip, npy_max.
  destruct (is_nan x) eqn:Hnan.
  - left. split; [reflexivity|]. unfold npy_min. rewrite Hnan. reflexivity.
  - right. split; [reflexivity|].
    destruct (ltb zero x) eqn:Hpos.
    + unfold npy_min. rewrite Hnan.
      destruct (ltb x one) eqn:Hlt.
      * split; [exact (ltb_leb _ _ Hpos)|exact (ltb_leb _ _ Hlt)].
      * split; reflexivity.
    + split; reflexivity.
Qed.

(** X4: the slope, carbon and land-cover sub-scores of a site are NaN or lie
    in [0, 1], whatever the configuration: the first two are clipped and
    the third is 0 or 1.  (The NDVI and elevation ones are not.) *)
Theorem clipped_subscores_in_unit_interval (p : params) (x : site)
    (i : nat) (f : feature)
    (Hi : i = 1%nat \/ i = 3%nat \/ i = 4%nat)
    (Hf : features p x !! i = Some f) :
  is_nan (subscore f) = true
  \/ (leb zero (subscore f) = true /\ leb (subscore f) one = true).
Proof.
  destruct Hi as [->|[->| ->]]; cbn in Hf; injection Hf as <-;
    cbn [subscore].
  - destruct (clip_unit_interval (sub one (div (slope x) (slope_max_deg p))))
      as [[Hn ->]|(_ & H0 & H1)]; [left; exact Hn|right; tauto].
  - destruct (clip_unit_interval (div (carbon x) (carbon_norm_div p)))
      as [[Hn ->]|(_ & H0 & H1)]; [left; exact Hn|right; tauto].
  - right. unfold isin.
    destruct (existsb (eqb (landcover x)) (lc_classes p)); split; reflexivity.
Qed.

Lemma clipped_subscores_in_unit_interval_witness :
  let s := clip (sub one (div (of_Z 2000) (of_Z 30))) zero one in
  is_nan s = true \/ (leb zero s = true /\ leb s one = true).
Proof.
  exact (clipped_subscores_in_unit_interval (sample_params (dec 5 1))
           {| ndvi := nan; slope := of_Z 2000; elevation := nan;
              carbon := nan; landcover := nan |} 1
           _ (or_introl eq_refl) eq_refl).
Defined.

End ScoringMore.

(** * Further properties of the dialogue orchestrator *)

Module DialogueMore.

Import Dialogue DialogueFacts.

(** *** Templates *)

Lemma format_Ok_iff (template : list segment) (kwargs : gmap string string) :
  (exists text, format template kwargs = Ok text)
  <-> forall name, name ∈ fields template -> is_Some (kwargs !! name).
Proof.
  induction template as [|[lit|name] rest IH]; cbn [format fields].
  - split; [intros _ name Hin; inversion Hin|eauto].
  - rewrite <- IH. split.
    + intros [text H]. apply bind_Ok_inv in H as (r & Hr & _). eauto.
    + intros [r Hr]. rewrite Hr. cbn [bind]. eauto.
  - split.
    + intros [text H] name' Hin.
      apply bind_Ok_inv in H as (v & Hv & H).
      apply bind_Ok_inv in H as (r & Hr & _).
      apply elem_of_cons in Hin as [->|Hin].
      * unfold getitem in Hv. destruct (kwargs !! name); [eauto|discriminate].
      * apply IH; eauto.
    + intros Hall.
      destruct (Hall name (list_elem_of_here _ _)) as [v Hv].
      destruct (proj2 IH) as [r Hr].
      { intros name' Hin. apply Hall, list_elem_of_further, Hin. }
      unfold getitem. rewrite Hv. cbn [bind]. rewrite Hr. cbn [bind]. eauto.
Qed.




Lemma site_info_keys (coordinates : string) (r : row) (name : string) :
  is_Some (site_info coordinates r !! name) <-> name ∈ info_keys.
Proof.
  unfold site_info, info_keys. split.
  - intros [v Hv].
    repeat (apply lookup_insert_Some in Hv as [[<- _]|[_ Hv]];
            [apply list_elem_of_In; cbn; tauto|]).
    rewrite lookup_empty in Hv. discriminate.
  - intros Hin.
    repeat (apply elem_of_cons in Hin as [->|Hin];
            [rewrite ?lookup_insert_ne by discriminate;
             rewrite lookup_insert_eq; eauto|]).
    inversion Hin.
Qed.

(** X6: for templates made of literal text and plain [{name}] fields (no
    conversion, format specification, index or attribute): a character
    whose entry has a role, an instruction and such a template naming
    only the nine keys of [info] gets its prompts whatever columns the
    row has, since missing columns are replaced by defaults.  (With a
    format specification this fails: [{ndvi:.2f}] raises [ValueError] on
    the default ["NaN"].) *)
Theorem documented_placeholders_render (cfg : char_cfg)
    (template : list segment) (coordinates : string) (r : row)
    (Hrole : is_Some (role cfg)) (Hinstr : is_Some (instruction cfg))
    (Htemplate : input_template cfg = Some template)
    (Hfields : forall name, name ∈ fields template -> name ∈ info_keys) :
  exists pr, char_prompts cfg (site_info coordinates r) = Ok pr.
Proof.
  destruct Hrole as [ro Hro], Hinstr as [ins Hins].
  destruct (proj2 (format_Ok_iff template (site_info coordinates r)))
    as [text Htext].
  { intros name Hin. apply site_info_keys, Hfields, Hin. }
  unfold char_prompts. rewrite Hro, Hins, Htemplate. cbn [getfield bind].
  rewrite Htext. cbn [bind]. eauto.
Qed.

Lemma documented_placeholders_render_witness :
  exists pr,
    char_prompts (sample_char "You are a poet." sample_template)
      (site_info "0.00000, 0.00000" bare_row) = Ok pr.
Proof.
  apply (documented_placeholders_render _ sample_template);
    [eexists; reflexivity..|reflexivity|].
  intros name Hin. cbn in Hin.
  repeat (apply elem_of_cons in Hin as [->|Hin];
          [apply list_elem_of_In; cbn; tauto|]).
  inversion Hin.
Defined.

Lemma summary_kwargs_keys (chars : gmap string string) (name : string) :
  is_Some (summary_kwargs chars !! name) <-> name ∈ opinion_keys.
Proof.
  unfold summary_kwargs, opinion_keys. split.
  - intros [v Hv].
    repeat (apply lookup_insert_Some in Hv as [[<- _]|[_ Hv]];
            [apply list_elem_of_In; cbn; tauto|]).
    rewrite lookup_empty in Hv. discriminate.
  - intros Hin.
    repeat (apply elem_of_cons in Hin as [->|Hin];
            [rewrite ?lookup_insert_ne by discriminate;
             rewrite lookup_insert_eq; eauto|]).
    inversion Hin.
Qed.

(** X7: for a summary template made of literal text and plain [{name}]
    fields (no conversion, format specification, index or attribute):
    the summary prompt can be built exactly when the summary entry has a
    role and its template names the five opinion keys only; for such a
    template the answers of the characters play no part in that. *)
Theorem summary_prompt_needs_opinion_keys (sum_cfg : char_cfg)
    (chars : gmap string string) :
  (exists pr, summary_prompts sum_cfg chars = Ok pr)
  <-> is_Some (role sum_cfg)
      /\ exists template,
           input_template sum_cfg = Some template
           /\ forall name, name ∈ fields template -> name ∈ opinion_keys.
Proof.
  unfold summary_prompts. split.
  - intros [pr H].
    apply bind_Ok_inv in H as (ro & Hro & H).
    apply bind_Ok_inv in H as (t & Ht & H).
    apply bind_Ok_inv in H as (text & Htext & _).
    unfold getfield in Hro, Ht.
    destruct (role sum_cfg); [|discriminate].
    destruct (input_template sum_cfg) as [t'|]; [|discriminate].
    injection Ht as ->. split; [eauto|]. exists t. split; [reflexivity|].
    intros name Hin. apply (summary_kwargs_keys chars).
    apply (proj1 (format_Ok_iff t (summary_kwargs chars))); eauto.
  - intros [[ro Hro] (t & Ht & Hfields)].
    destruct (proj2 (format_Ok_iff t (summary_kwargs chars)))
      as [text Htext].
    { intros name Hin. apply summary_kwargs_keys, Hfields, Hin. }
    rewrite Hro, Ht. cbn [getfield bind]. rewrite Htext. cbn [bind]. eauto.
Qed.

(** *** What can escape a site *)

Lemma gather_map_Raise_inv {A B : Type} (f : A -> result B) (l : list A)
    (e : exn) :
  gather (map f l) = Raise e -> exists a, a ∈ l /\ f a = Raise e.
Proof.
  induction l as [|a l IH]; cbn [map gather]; [discriminate|].
  intros H. apply bind_Raise_inv in H as [H|(x & _ & H)].
  - exists a. split; [apply list_elem_of_here|exact H].
  - apply bind_Raise_inv in H as [H|(xs & _ & H)]; [|discriminate].
    destruct (IH H) as (a' & Hin & Ha').
    exists a'. split; [apply list_elem_of_further, Hin|exact Ha'].
Qed.

(** X8: when a site raises, the exception has one of four origins: the
    row has no geometry ([AttributeError]); the prompts of a character
    could not be built (the exception is the one raised while reading its
    entry or filling its template); the summary prompt could not be built
    from the texts of the characters; or the summary call failed for
    good.  The service errors of the characters are not among them: a
    site with a geometry, no summary entry and character prompts that can
    be built returns a record whatever the service does. *)
Theorem what_makes_a_site_raise (client : string -> endpoint)
    (site_id : string) (r : row) (prompt_cfg : gmap string char_cfg)
    (tokens : Z) (base : F) :
  (forall e,
     evaluate_site client site_id r prompt_cfg tokens base = Raise e ->
     (centroid r = None /\ exn_type e = "AttributeError")
     \/ (exists p c cfg,
           centroid r = Some p /\ prompt_cfg !! c = Some cfg
           /\ c <> "summary"
           /\ char_prompts cfg (site_info p r) = Raise e)
     \/ (exists p rs sum_cfg,
           centroid r = Some p
           /\ gather (char_tasks client prompt_cfg (site_info p r) tokens
                        base) = Ok rs
           /\ prompt_cfg !! "summary" = Some sum_cfg
           /\ summary_prompts sum_cfg (dict_of rs) = Raise e)
     \/ (exists p rs sum_cfg pr,
           centroid r = Some p
           /\ gather (char_tasks client prompt_cfg (site_info p r) tokens
                        base) = Ok rs
           /\ prompt_cfg !! "summary" = Some sum_cfg
           /\ summary_prompts sum_cfg (dict_of rs) = Ok pr
           /\ call_chat_async (client "summary") (fst pr) (snd pr) tokens
                base = Raise e))
  /\ (forall p,
        centroid r = Some p ->
        prompt_cfg !! "summary" = None ->
        (forall c cfg, prompt_cfg !! c = Some cfg -> c <> "summary" ->
           exists pr, char_prompts cfg (site_info p r) = Ok pr) ->
        exists rec,
          evaluate_site client site_id r prompt_cfg tokens base = Ok rec).
Proof.
  split.
  - intros e Hraise. unfold evaluate_site in Hraise.
    destruct (centroid r) as [p|] eqn:Hp; cbn [bind] in Hraise.
    + right.
      apply bind_Raise_inv in Hraise as [H|(rs & Hrs & H)].
      { left. unfold char_tasks in H.
        apply gather_map_Raise_inv in H as ([c cfg] & Hin & H).
        apply elem_of_cast in Hin as [Hc Hne]. cbn [fst snd] in H.
        rewrite evaluate_character_kept in H.
        apply bind_Raise_inv in H as [H|(? & _ & H)]; [|discriminate].
        exists p, c, cfg. repeat split; assumption. }
      right.
      apply bind_Raise_inv in H as [H|(? & _ & H)]; [|discriminate].
      destruct (prompt_cfg !! "summary") as [sum_cfg|]; [|discriminate].
      apply bind_Raise_inv in H as [H|(pr & Hpr & H)].
      * left. exists p, rs, sum_cfg. repeat split; assumption.
      * right. exists p, rs, sum_cfg, pr. repeat split; assumption.
    + left. injection Hraise as <-. split; reflexivity.
  - intros p Hp Hsum Hrender.
    exact (evaluate_site_no_summary client tokens base site_id r p
             prompt_cfg Hp Hsum Hrender).
Qed.

Lemma what_makes_a_site_raise_witness :
  (exists sum_cfg pr,
     sample_prompt_cfg !! "summary" = Some sum_cfg
     /\ call_chat_async (sample_client (Ok "An ode.") "site_002" "summary")
          (fst pr) (snd pr) 512 (dec 7 1)
        = Raise (Exn "APITimeoutError" "timed out"))
  /\ exists rec,
       evaluate_site (sample_client (Raise (Exn "APIError" "boom")) "site_002")
         "site_002" sample_row (delete "summary" sample_prompt_cfg) 512
         (dec 7 1) = Ok rec.
Proof.
  split.
  - destruct (proj1 (what_makes_a_site_raise
                       (sample_client (Ok "An ode.") "site_002")
                       "site_002" sample_row sample_prompt_cfg 512 (dec 7 1))
                (Exn "APITimeoutError" "timed out"))
      as [[H _]|[(p & c & cfg & _ & Hc & Hne & H)
                |[(p & rs & sum_cfg & Hp & Hrs & Hcfg & H)
                 |(p & rs & sum_cfg & pr & _ & _ & Hsum & _ & H)]]].
    + vm_compute. reflexivity.
    + discriminate.
    + exfalso. unfold sample_prompt_cfg in Hc.
      repeat (apply lookup_insert_Some in Hc as [[<- <-]|[_ Hc]];
              [try contradiction; vm_compute in H; discriminate|]).
      rewrite lookup_empty in Hc. discriminate.
    + exfalso. injection Hp as <-. vm_compute in Hrs.
      injection Hrs as <-. vm_compute in Hcfg. injection Hcfg as <-.
      vm_compute in H. discriminate.
    + exists sum_cfg, pr. split; [exact Hsum|exact H].
  - apply (proj2 (what_makes_a_site_raise
                    (sample_client (Raise (Exn "APIError" "boom")) "site_002")
                    "site_002" sample_row (delete "summary" sample_prompt_cfg)
                    512 (dec 7 1)) "-60.00000, -3.00000").
    + reflexivity.
    + vm_compute. reflexivity.
    + apply sample_prompts_render.
Defined.

(** *** The retry loop, read backwards *)

Lemma retrying_Ok_inv (remaining attempt : nat) call (text : string)
    (n : nat) :
  retrying remaining attempt call = (Ok text, n) ->
  exists k, (k <= remaining)%nat /\ n = S (attempt + k)
    /\ call (attempt + k)%nat = Ok text
    /\ forall j, (j < k)%nat -> exists e, call (attempt + j)%nat = Raise e.
Proof.
  revert attempt. induction remaining as [|m IH]; intros attempt; cbn.
  - destruct (call attempt) as [t|e] eqn:Hc; [|discriminate].
    intros [= <- <-]. exists 0%nat. rewrite Nat.add_0_r.
    split; [lia|]. split; [reflexivity|]. split; [exact Hc|].
    intros j Hj. lia.
  - destruct (call attempt) as [t|e] eqn:Hc.
    + intros [= <- <-]. exists 0%nat. rewrite Nat.add_0_r.
      split; [lia|]. split; [reflexivity|]. split; [exact Hc|].
      intros j Hj. lia.
    + intros H. destruct (IH _ H) as (k & Hk & Hn & Hok & Hfail).
      exists (S k). split; [lia|]. split; [lia|].
      split; [rewrite <- Hok; f_equal; lia|].
      intros [|j] Hj.
      * exists e. rewrite Nat.add_0_r. exact Hc.
      * destruct (Hfail j ltac:(lia)) as [e' He'].
        exists e'. rewrite <- He'. f_equal. lia.
Qed.

Lemma retrying_Raise_inv (remaining attempt : nat) call (e : exn) (n : nat) :
  retrying remaining attempt call = (Raise e, n) ->
  n = S (attempt + remaining)
  /\ call (attempt + remaining)%nat = Raise e
  /\ forall j, (j < remaining)%nat ->
       exists e', call (attempt + j)%nat = Raise e'.
Proof.
  revert attempt. induction remaining as [|m IH]; intros attempt; cbn.
  - destruct (call attempt) as [t|e'] eqn:Hc; [discriminate|].
    intros [= <- <-]. rewrite Nat.add_0_r.
    split; [reflexivity|]. split; [exact Hc|]. intros j Hj. lia.
  - destruct (call attempt) as [t|e'] eqn:Hc; [discriminate|].
    intros H. destruct (IH _ H) as (Hn & Hlast & Hfail).
    split; [lia|]. split; [rewrite <- Hlast; f_equal; lia|].
    intros [|j] Hj.
    + exists e'. rewrite Nat.add_0_r. exact Hc.
    + destruct (Hfail j ltac:(lia)) as [e'' He''].
      exists e''. rewrite <- He''. f_equal. lia.
Qed.

(** X9: what a call returns tells what the service did: a text is the answer
    to the first attempt that did not raise, one of the first five; an
    exception means that all five attempts raised, and it is the one the
    fifth attempt raised. *)
Theorem call_outcome_explains_attempts (client : endpoint)
    (system user : string) (tokens : Z) (temp : F) :
  let req := {| system_prompt := system; user_prompt := user;
                max_tokens := tokens; temperature := temp |} in
  match call_chat_async client system user tokens temp with
  | Ok text =>
      exists k, (k < stop_after_attempt)%nat
        /\ client req k = Ok text
        /\ (forall j, (j < k)%nat -> exists e, client req j = Raise e)
        /\ snd (call_chat_async_attempts client system user tokens temp)
           = S k
  | Raise e =>
      client req (Nat.pred stop_after_attempt) = Raise e
      /\ (forall j, (j < stop_after_attempt)%nat ->
            exists e', client req j = Raise e')
      /\ snd (call_chat_async_attempts client system user tokens temp)
         = stop_after_attempt
  end.
Proof.
  intros req. unfold call_chat_async, call_chat_async_attempts.
  fold req.
  destruct (retrying (Nat.pred stop_after_attempt) 0 (client req))
    as [[text|e] n] eqn:Hrun; cbn [fst snd].
  - apply retrying_Ok_inv in Hrun as (k & Hk & -> & Hok & Hfail).
    exists k. cbn in Hk. split; [unfold stop_after_attempt; lia|].
    split; [exact Hok|]. split; [exact Hfail|reflexivity].
  - apply retrying_Raise_inv in Hrun as (-> & Hlast & Hfail).
    split; [exact Hlast|]. split; [|reflexivity].
    intros j Hj. unfold stop_after_attempt in Hj.
    destruct (decide (j = 4%nat)) as [->|Hne]; [eauto|].
    apply (Hfail j). cbn. lia.
Qed.

(** *** Records *)

(** X10: the characters of an emitted record are the configured entries other
    than the summary: each of them has a text, and nothing else has. *)
Theorem record_characters_are_the_cast (client : string -> endpoint)
    (site_id : string) (r : row) (prompt_cfg : gmap string char_cfg)
    (tokens : Z) (base : F) (rec : record)
    (Hrec : evaluate_site client site_id r prompt_cfg tokens base = Ok rec) :
  (forall c, is_Some (characters rec !! c)
             <-> is_Some (prompt_cfg !! c) /\ c <> "summary")
  /\ dom (characters rec) = dom prompt_cfg ∖ {["summary"]}.
Proof.
  destruct (evaluate_site_Ok_inv _ _ _ _ _ _ _ Hrec)
    as (p & _ & _ & Hch & Hdom & _).
  assert (Hiff : forall c, is_Some (characters rec !! c)
                           <-> is_Some (prompt_cfg !! c) /\ c <> "summary").
  { intros c. split.
    - intros H. destruct (Hdom c H). tauto.
    - intros [[cfg Hc] Hne]. destruct (Hch c cfg Hc Hne) as (? & _ & ->).
      eauto. }
  split; [exact Hiff|].
  apply set_eq. intros c.
  rewrite elem_of_difference, !elem_of_dom, Hiff, elem_of_singleton.
  reflexivity.
Qed.

Lemma record_characters_are_the_cast_witness :
  exists rec,
    evaluate_site (sample_client (Ok "An ode.") "site_000") "site_000"
      sample_row sample_prompt_cfg 512 (dec 7 1) = Ok rec
    /\ characters rec !! "summary" = None
    /\ is_Some (characters rec !! "poet").
Proof.
  destruct (evaluate_site (sample_client (Ok "An ode.") "site_000")
              "site_000" sample_row sample_prompt_cfg 512 (dec 7 1))
    as [rec|] eqn:Hrec; [|vm_compute in Hrec; discriminate].
  destruct (record_characters_are_the_cast _ _ _ _ _ _ _ Hrec) as [Hiff _].
  exists rec. split; [reflexivity|]. split.
  - destruct (characters rec !! "summary") eqn:Hs; [|reflexivity].
    destruct (proj1 (Hiff "summary") ltac:(eauto)) as [_ Hne].
    contradiction.
  - apply Hiff. split; [eexists; reflexivity|discriminate].
Defined.

(** *** Sampling temperature *)

Lemma lower_ascii_idem (c : ascii) : lower_ascii (lower_ascii c) = lower_ascii c.
Proof.
  destruct c as [[] [] [] [] [] [] [] []]; reflexivity.
Qed.

Lemma lower_idem (s : string) : lower (lower s) = lower s.
Proof.
  induction s as [|c s IH]; [reflexivity|].
  cbn [lower]. rewrite lower_ascii_idem, IH. reflexivity.
Qed.

(** X11: the temperature of a character depends on its name up to case; only
    the explorer and the skeptic depart from the base temperature, and the
    skeptic never goes below 0.1, whatever the base (NaN included). *)
Theorem temperature_by_character (char_name : string) (base : F) :
  char_temperature (lower char_name) base = char_temperature char_name base
  /\ (lower char_name <> "explorer" -> lower char_name <> "skeptic" ->
      char_temperature char_name base = base)
  /\ (lower char_name = "skeptic" ->
      leb (dec 1 1) (char_temperature char_name base) = true
      /\ is_nan (char_temperature char_name base) = false).
Proof.
  split; [unfold char_temperature; rewrite lower_idem; reflexivity|].
  split.
  - intros He Hs. unfold char_temperature.
    repeat (destruct (decide _); [try contradiction; try reflexivity|]).
    reflexivity.
  - intros Hs. unfold char_temperature. rewrite Hs.
    cbn [decide]. unfold py_max.
    destruct (ltb (dec 1 1) (Float.sub base (dec 3 1))) eqn:Hlt.
    + split; [exact (ScoringMore.ltb_leb _ _ Hlt)|].
      destruct (Float.sub base (dec 3 1)); try reflexivity.
      vm_compute in Hlt. discriminate.
    + split; vm_compute; reflexivity.
Qed.

Lemma temperature_by_character_witness :
  leb (dec 1 1) (char_temperature "Skeptic" zero) = true
  /\ char_temperature "Narrator" (dec 7 1) = dec 7 1.
Proof.
  destruct (temperature_by_character "Skeptic" zero) as (_ & _ & Hs).
  destruct (temperature_by_character "Narrator" (dec 7 1)) as (_ & Hn & _).
  split; [apply Hs; reflexivity|apply Hn; discriminate].
Defined.

(** *** File names *)

(** X12: distinct sites get distinct ids and distinct file names, beyond 999
    sites too (where the id grows past three digits): no record of a run
    overwrites another. *)
Theorem sites_have_distinct_files (n m : nat) (Hne : n <> m) :
  site_id_of n <> site_id_of m
  /\ site_id_of n +:+ ".json" <> site_id_of m +:+ ".json".
Proof.
  split.
  - intros H. exact (Hne (site_id_of_inj n m H)).
  - intros H. exact (Hne (file_name_inj n m H)).
Qed.

Lemma sites_have_distinct_files_witness :
  site_id_of 7 <> site_id_of 1007.
Proof.
  apply (sites_have_distinct_files 7 1007). lia.
Defined.

(** *** Completion order *)

Section Order.

Variable client : string -> string -> endpoint.
Variable prompt_cfg : gmap string char_cfg.
Variable tokens : Z.
Variable base : F.

Local Abbreviation task := (site_task client prompt_cfg tokens base).

Lemma main_outputs
    (as_completed : list (result record) -> list (result record))
    (gdf : list row) (key : string) :
  (forall l, as_completed l ≡ₚ l) -> key <> "" ->
  exists files,
    main as_completed client gdf prompt_cfg (Some key) tokens base
      = Ok (files, ledger_of (as_completed (imap task gdf)))
    /\ forall k rec,
         files !! k = Some rec
         <-> (k, rec) ∈ map file_of (records_of (imap task gdf)).
Proof.
  intros Hcompleted Hkey.
  set (tasks := imap task gdf).
  assert (Hperm : as_completed tasks ≡ₚ tasks) by apply Hcompleted.
  assert (Hids : Forall (fun c => forall rec, c = Ok rec ->
                           is_Some (site_metadata rec !! "site_id"))
                   (as_completed tasks)).
  { apply Forall_forall. intros c Hc rec ->. rewrite Hperm in Hc.
    apply elem_of_lookup_imap in Hc as (idx & r & Htask & _).
    symmetry in Htask. apply evaluate_site_site_id in Htask. eauto. }
  assert (Hpairs : map file_of (records_of (as_completed tasks))
                   ≡ₚ map file_of (records_of tasks)).
  { unfold records_of. apply Permutation_map. rewrite Hperm. reflexivity. }
  eexists. split.
  - unfold main. destruct key as [|a key]; [contradiction|].
    fold tasks. rewrite (collect_all_fold _ (∅, []) Hids). reflexivity.
  - intros k rec. cbn [fst].
    rewrite fold_insert_lookup;
      [|rewrite Hpairs; apply task_files_NoDup|intros; apply lookup_empty].
    rewrite lookup_empty, Hpairs.
    split; [intros [?|?]; [assumption|discriminate]|tauto].
Qed.

(** X13: the order in which the sites complete does not change the files that
    [main] writes; it only permutes the ledger. *)
Theorem completion_order_is_immaterial
    (first second : list (result record) -> list (result record))
    (gdf : list row) (key : string)
    (Hfirst : forall l, first l ≡ₚ l)
    (Hsecond : forall l, second l ≡ₚ l)
    (Hkey : key <> "") :
  exists files failed1 failed2,
    main first client gdf prompt_cfg (Some key) tokens base
      = Ok (files, failed1)
    /\ main second client gdf prompt_cfg (Some key) tokens base
       = Ok (files, failed2)
    /\ failed1 ≡ₚ failed2.
Proof.
  destruct (main_outputs first gdf key Hfirst Hkey) as (f1 & H1 & Hf1).
  destruct (main_outputs second gdf key Hsecond Hkey) as (f2 & H2 & Hf2).
  assert (Hsame : f2 = f1).
  { apply map_eq. intros k. apply option_eq. intros rec.
    rewrite Hf1, Hf2. reflexivity. }
  exists f1, (ledger_of (first (imap task gdf))),
    (ledger_of (second (imap task gdf))).
  split; [exact H1|]. split; [rewrite <- Hsame; exact H2|].
  unfold ledger_of. rewrite Hfirst, Hsecond. reflexivity.
Qed.

End Order.

Lemma completion_order_is_immaterial_witness :
  exists files failed1 failed2,
    main reversed (sample_client (Ok "An ode."))
      [sample_row; bare_row; sample_row] sample_prompt_cfg (Some "sk-test")
      512 (dec 7 1) = Ok (files, failed1)
    /\ main (fun l => l) (sample_client (Ok "An ode."))
         [sample_row; bare_row; sample_row] sample_prompt_cfg
         (Some "sk-test") 512 (dec 7 1) = Ok (files, failed2)
    /\ failed1 ≡ₚ failed2.
Proof.
  apply (completion_order_is_immaterial (sample_client (Ok "An ode."))
           sample_prompt_cfg 512 (dec 7 1) reversed (fun l => l));
    [exact reversed_completes|reflexivity|discriminate].
Defined.

End DialogueMore.

(** * Further properties of the clustering engine *)

Module ClusteringMore.

Import Clustering ClusteringFacts.

Lemma leb_not_nan (a b : F) :
  leb a b = true -> is_nan a = false /\ is_nan b = false.
Proof.
  unfold leb, SFleb, SFcompare, is_nan.
  destruct a, b; try discriminate; split; reflexivity.
Qed.

Lemma length_concat_sum {A : Type} (ls : list (list A)) :
  length (concat ls) = sum_list (map length ls).
Proof.
  induction ls as [|l ls IH]; [reflexivity|].
  cbn [concat map sum_list]. rewrite length_app, IH. reflexivity.
Qed.

Section Engine.

Context {G P : Type}.
Variable to_crs : Z -> G -> F * F.
Variable quantile : list F -> F -> F.
Variable series_mean : list F -> F.
Variable series_min : list F -> F.
Variable series_max : list F -> F.
Variable DBSCAN : F -> Z -> list (F * F) -> list Z.
Variable hull_buffer : list (F * F) -> F -> P.
Variable suggest_eps : list (row (F * F)) -> F.

(** X14: the top-quantile frame keeps rows of the input, in input order; a
    site whose score is NaN is never in it, and when the quantile itself
    is NaN the frame is empty and the run stops with [RuntimeError]. *)
Theorem nan_scores_are_never_clustered (in_file : list (F * G))
    (cfg : cluster_cfg) :
  let gdf := read_file in_file in
  let q := quantile (map site_score gdf) (top_quantile cfg) in
  sublist (top_rows quantile gdf cfg) gdf
  /\ (forall r, r ∈ top_rows quantile gdf cfg ->
        is_nan (site_score r) = false /\ leb q (site_score r) = true)
  /\ (is_nan q = true ->
      exists msg,
        cluster_groups to_crs quantile DBSCAN suggest_eps in_file cfg
        = Raise (Exn "RuntimeError" msg)).
Proof.
  intros gdf q.
  assert (Hin : forall r, r ∈ top_rows quantile gdf cfg ->
                  is_nan (site_score r) = false
                  /\ leb q (site_score r) = true).
  { intros r Hr. unfold top_rows in Hr.
    apply list_elem_of_filter in Hr as [Hle _].
    split; [exact (proj2 (leb_not_nan _ _ Hle))|exact Hle]. }
  split; [apply sublist_filter|]. split; [exact Hin|].
  intros Hq. unfold cluster_groups. fold gdf.
  destruct (top_rows quantile gdf cfg) as [|r top] eqn:Htop; [eauto|].
  destruct (Hin r) as [_ Hle]; [apply list_elem_of_here|].
  apply leb_not_nan in Hle as [Hq' _]. fold q in Hq'. congruence.
Qed.

(** X15: a run that returns records returns at least one; no record is the
    noise label -1, every record counts at least one site, and the counts
    add up to the number of top-quantile sites that are not noise. *)
Theorem records_count_the_clustered_sites (in_file : list (F * G))
    (cfg : cluster_cfg) (recs : list (cluster_record P))
    (Hrun : main_records to_crs quantile series_mean series_min series_max
              DBSCAN hull_buffer suggest_eps in_file cfg = Ok recs) :
  recs <> []
  /\ Forall (fun c => cluster c <> -1 /\ (1 <= n_pts c)%nat) recs
  /\ exists lab,
       labelled to_crs DBSCAN suggest_eps
         (top_rows quantile (read_file in_file) cfg) cfg = Ok lab
       /\ sum_list (map n_pts recs) = length (not_noise lab).
Proof.
  unfold main_records in Hrun.
  apply bind_Ok_inv in Hrun as (groups & Hgroups & [= <-]).
  destruct (cluster_groups_inv _ _ _ _ _ _ _ Hgroups)
    as (lab & Hlab & Hne & ->).
  set (kept := not_noise lab) in *.
  assert (Hkey : forall g, g ∈ groupby kept ->
                   exists r, r ∈ kept /\ snd r = fst g /\ r ∈ snd g).
  { intros g Hg. unfold groupby in Hg.
    apply list_elem_of_In in Hg. apply in_map_iff in Hg as (k & <- & Hk).
    apply list_elem_of_In in Hk.
    apply (proj1 (elem_of_sorted_keys _ _)) in Hk.
    apply list_elem_of_In in Hk. apply in_map_iff in Hk as (r & Hr & Hin).
    exists r. cbn [fst snd]. split; [apply list_elem_of_In, Hin|].
    split; [exact Hr|].
    apply list_elem_of_filter. split; [exact Hr|apply list_elem_of_In, Hin]. }
  split; [|split].
  - intros Hnil. apply (f_equal length) in Hnil.
    unfold groupby in Hnil. rewrite !length_map in Hnil.
    destruct kept as [|r kept'] eqn:Hk; [contradiction|].
    assert (Hin : snd r ∈ sorted_keys (map snd (r :: kept')))
      by (apply elem_of_sorted_keys, list_elem_of_here).
    destruct (sorted_keys (map snd (r :: kept')));
      [inversion Hin|discriminate Hnil].
  - apply Forall_forall. intros c Hc.
    apply list_elem_of_In in Hc. apply in_map_iff in Hc as (g & <- & Hg).
    cbn [cluster n_pts make_record].
    destruct (Hkey g (proj2 (list_elem_of_In _ _) Hg)) as (r & Hr & Hlabel & Hsub).
    split.
    + rewrite <- Hlabel. unfold kept, not_noise in Hr.
      apply list_elem_of_filter in Hr as [Hr _]. exact Hr.
    + destruct (snd g); [inversion Hsub|cbn; lia].
  - exists lab. split; [exact Hlab|].
    transitivity (length (concat (map snd (groupby kept))));
      [|exact (Permutation_length (groupby_concat kept))].
    rewrite length_concat_sum, !map_map. reflexivity.
Qed.

End Engine.

Lemma nan_scores_are_never_clustered_witness :
  Forall (fun r => is_nan (site_score r) = false)
    (top_rows sample_quantile
       (read_file ((nan, (zero, zero)) :: sample_file)) sample_cluster_cfg).
Proof.
  apply Forall_forall. intros r Hr.
  destruct (nan_scores_are_never_clustered sample_to_crs sample_quantile
              sample_DBSCAN sample_suggest_eps
              ((nan, (zero, zero)) :: sample_file) sample_cluster_cfg)
    as (_ & Hin & _).
  exact (proj1 (Hin r Hr)).
Defined.

Lemma records_count_the_clustered_sites_witness :
  exists recs,
    main_records sample_to_crs sample_quantile sample_stat sample_stat
      sample_stat sample_DBSCAN sample_hull sample_suggest_eps sample_file
      sample_cluster_cfg = Ok recs
    /\ sum_list (map n_pts recs) = 3%nat
    /\ Forall (fun c => cluster c <> -1 /\ (1 <= n_pts c)%nat) recs.
Proof.
  destruct (main_records sample_to_crs sample_quantile sample_stat
              sample_stat sample_stat sample_DBSCAN sample_hull
              sample_suggest_eps sample_file sample_cluster_cfg)
    as [recs|] eqn:Hrun; [|vm_compute in Hrun; discriminate].
  destruct (records_count_the_clustered_sites _ _ _ _ _ _ _ _ _ _ _ Hrun)
    as (_ & Hall & _).
  exists recs. split; [reflexivity|]. split; [|exact Hall].
  vm_compute in Hrun. injection Hrun as <-. reflexivity.
Defined.

End ClusteringMore.

(** * Properties of the scripts that read the records *)

Module RecordsFacts.

Import Records.

Lemma fix_value_not_str (val : content) : is_str (fix_value val) = false.
Proof. destruct val; reflexivity. Qed.

Lemma fix_value_idem (val : content) : fix_value (fix_value val) = fix_value val.
Proof. destruct val; reflexivity. Qed.

Lemma no_str_after_fix (chars : gmap string content)
    (test : string * content -> bool) :
  (forall kv, is_str (snd kv) = false -> test kv = false) ->
  existsb test (map_to_list (fix_value <$> chars)) = false.
Proof.
  intros Htest.
  destruct (existsb test (map_to_list (fix_value <$> chars))) eqn:E;
    [|reflexivity].
  apply existsb_exists in E as ([k v] & Hin & Hv).
  apply list_elem_of_In, elem_of_map_to_list in Hin.
  rewrite lookup_fmap in Hin.
  destruct (chars !! k) as [v'|]; [|discriminate]. injection Hin as <-.
  rewrite Htest in Hv; [discriminate|]. apply fix_value_not_str.
Qed.

(** X16: once [fix_character_json_format.py] has rewritten a file, the filter
    of [filter_valid_comment_jsons.py] finds no comment in it: the filter
    only looks at characters whose value is a text, and the fix leaves
    none. *)
Theorem fixed_files_fail_the_filter (blank : string -> bool)
    (data : site_json) :
  has_nonempty_comment blank (fst (fix_file data)) = false.
Proof.
  unfold fix_file, has_nonempty_comment.
  destruct (json_characters data) as [chars|] eqn:Hc; cbn [fst].
  - cbn [json_characters default from_option id].
    apply no_str_after_fix. intros [k v] Hv. cbn [snd] in *.
    destruct v; [discriminate|reflexivity..].
  - rewrite Hc. reflexivity.
Qed.

(** X17: the fix is idempotent: a second pass changes nothing and writes
    nothing back.  And it does not change the comment that
    [json_comments_to_scores.py] reads for a character. *)
Theorem fix_is_idempotent_and_keeps_comments (data : site_json) :
  fix_file (fst (fix_file data)) = (fst (fix_file data), false)
  /\ (forall chars k val,
        json_characters data = Some chars -> chars !! k = Some val ->
        exists val',
          json_characters (fst (fix_file data)) = Some (fix_value <$> chars)
          /\ (fix_value <$> chars) !! k = Some val'
          /\ comment_of val' = comment_of val).
Proof.
  split.
  - unfold fix_file at 2 3.
    destruct (json_characters data) as [chars|] eqn:Hc; cbn [fst].
    + unfold fix_file. cbn [json_characters]. f_equal.
      * f_equal. f_equal. rewrite <- map_fmap_compose.
        apply map_fmap_ext. intros k v _. apply fix_value_idem.
      * apply no_str_after_fix. intros kv Hkv. exact Hkv.
    + unfold fix_file. rewrite Hc. reflexivity.
  - intros chars k val Hc Hk. exists (fix_value val).
    unfold fix_file. rewrite Hc. cbn [fst json_characters].
    split; [reflexivity|]. split; [rewrite lookup_fmap, Hk; reflexivity|].
    destruct val as [s|o|]; [|reflexivity..].
    cbn. rewrite lookup_singleton_eq. reflexivity.
Qed.

(** X18: a record as the dialogue script writes it passes the filter exactly
    when one of its character texts is not blank. *)
Theorem filter_on_dialogue_records (blank : string -> bool)
    (rec : Dialogue.record) :
  has_nonempty_comment blank (of_record rec) = true
  <-> exists c text,
        Dialogue.characters rec !! c = Some text /\ blank text = false.
Proof.
  unfold has_nonempty_comment, of_record.
  cbn [json_characters default from_option id].
  rewrite existsb_exists. split.
  - intros ([k v] & Hin & Hv).
    apply list_elem_of_In, elem_of_map_to_list in Hin.
    rewrite lookup_fmap in Hin.
    destruct (Dialogue.characters rec !! k) as [t|] eqn:Hk; [|discriminate].
    injection Hin as <-. cbn in Hv. exists k, t. split; [exact Hk|].
    destruct (blank t); [discriminate|reflexivity].
  - intros (c & t & Hc & Hb). exists (c, CStr t). split.
    + apply list_elem_of_In, elem_of_map_to_list.
      rewrite lookup_fmap, Hc. reflexivity.
    + cbn. rewrite Hb. reflexivity.
Qed.

(** *** [truncate] *)

Lemma slice_to_length {A : Type} (text : list A) (k : Z) :
  0 <= k -> k <= Z.of_nat (length text) ->
  Z.of_nat (length (slice_to text k)) = k.
Proof.
  intros H0 Hk. unfold slice_to.
  destruct (Z.leb_spec 0 k); [|lia]. rewrite length_take. lia.
Qed.

(** X19: with a limit of 3 or more, [truncate] returns at most that many
    characters: a text within the limit unchanged, any other cut to two
    characters below the limit, ellipsis included.  Truncating twice is
    truncating once. *)
Theorem truncate_respects_the_limit {A : Type} (ellipsis : A)
    (text : list A) (len : Z) (Hlen : 3 <= len) :
  Z.of_nat (length (truncate ellipsis text len)) <= len
  /\ (Z.of_nat (length text) <= len -> truncate ellipsis text len = text)
  /\ (len < Z.of_nat (length text) ->
      truncate ellipsis text len
      = take (Z.to_nat (len - 3)) text ++ [ellipsis]
      /\ Z.of_nat (length (truncate ellipsis text len)) = len - 2)
  /\ truncate ellipsis (truncate ellipsis text len) len
     = truncate ellipsis text len.
Proof.
  assert (Hshort : Z.of_nat (length text) <= len ->
                   truncate ellipsis text len = text).
  { intros H. unfold truncate. destruct (Z.leb_spec (Z.of_nat (length text)) len);
      [reflexivity|lia]. }
  assert (Hlong : len < Z.of_nat (length text) ->
                  truncate ellipsis text len
                  = take (Z.to_nat (len - 3)) text ++ [ellipsis]
                  /\ Z.of_nat (length (truncate ellipsis text len)) = len - 2).
  { intros H. unfold truncate.
    destruct (Z.leb_spec (Z.of_nat (length text)) len); [lia|].
    unfold slice_to. destruct (Z.leb_spec 0 (len - 3)); [|lia].
    split; [reflexivity|].
    rewrite length_app, length_take. cbn [length]. lia. }
  assert (Hbound : Z.of_nat (length (truncate ellipsis text len)) <= len).
  { destruct (Z.le_gt_cases (Z.of_nat (length text)) len) as [H|H].
    - rewrite (Hshort H). exact H.
    - destruct (Hlong H) as [_ ->]. lia. }
  split; [exact Hbound|]. split; [exact Hshort|]. split; [exact Hlong|].
  unfold truncate at 1.
  destruct (Z.leb_spec (Z.of_nat (length (truncate ellipsis text len))) len);
    [reflexivity|lia].
Qed.

Lemma truncate_respects_the_limit_witness :
  truncate "."%char (list_ascii_of_string "a long text") 6
  = list_ascii_of_string "a l.".
Proof.
  destruct (truncate_respects_the_limit "."%char
              (list_ascii_of_string "a long text") 6 ltac:(lia))
    as (_ & _ & Hcut & _).
  destruct Hcut as [-> _]; [cbn; lia|reflexivity].
Defined.

(** *** [add_site_id_to_geojson.py] *)

(** X20: the ids that [add_site_id_to_geojson.py] gives to the rows of a file
    are pairwise distinct, and the id of a row is the one that
    [generate_character_dialogue.py] puts in the record of the row at
    the same position. *)
Theorem site_id_column_matches_records {A : Type} (gdf : list A) :
  NoDup (map snd (add_site_id gdf))
  /\ (forall i r, gdf !! i = Some r ->
        add_site_id gdf !! i = Some (r, Dialogue.site_id_of i))
  /\ (forall client prompt_cfg tokens base i row rec,
        Dialogue.site_task client prompt_cfg tokens base i row = Ok rec ->
        Dialogue.site_metadata rec !! "site_id"
        = Some (Dialogue.site_id_of i)).
Proof.
  split; [|split].
  - unfold add_site_id.
    change (map snd ?l) with (snd <$> l). rewrite fmap_imap.
    rewrite (imap_ext _ (fun i _ => Dialogue.site_id_of i)) by reflexivity.
    rewrite imap_seq_0.
    apply NoDup_fmap_2_strong; [|apply NoDup_seq].
    intros n m _ _ H. exact (DialogueFacts.site_id_of_inj n m H).
  - intros i r Hr. unfold add_site_id.
    rewrite list_lookup_imap, Hr. reflexivity.
  - intros client prompt_cfg tokens base i row rec H.
    exact (DialogueFacts.evaluate_site_site_id _ _ _ _ _ _ _ H).
Qed.

End RecordsFacts.

(** ** The character and narrator calls of [generate_hypotheses.py] *)

Module HypothesesFacts.

Import Float Dialogue Hypotheses.

Lemma dict_get_absent {K V : Type} `{EqDecision K} (d : list (K * V)) (k : K) :
  k ∉ map fst d -> dict_get d k = None.
Proof.
  induction d as [|[k' v'] d IH]; intros Hk; [reflexivity|].
  cbn in *. destruct (decide (k' = k)) as [->|Hne].
  - exfalso. apply Hk. left.
  - apply IH. intros Hin. apply Hk. right. exact Hin.
Qed.

Lemma dict_set_absent {K V : Type} `{EqDecision K} (d : list (K * V)) (k : K)
    (v : V) :
  k ∉ map fst d -> dict_set d k v = d ++ [(k, v)].
Proof.
  induction d as [|[k' v'] d IH]; intros Hk; [reflexivity|].
  cbn in *. destruct (decide (k' = k)) as [->|Hne].
  - exfalso. apply Hk. left.
  - f_equal. apply IH. intros Hin. apply Hk. right. exact Hin.
Qed.

Lemma dict_get_last {K V : Type} `{EqDecision K} (d : list (K * V)) (k : K)
    (v : V) :
  k ∉ map fst d -> dict_get (d ++ [(k, v)]) k = Some v.
Proof.
  induction d as [|[k' v'] d IH]; intros Hk; cbn in *.
  - rewrite decide_True by reflexivity. reflexivity.
  - destruct (decide (k' = k)) as [->|Hne].
    + exfalso. apply Hk. left.
    + apply IH. intros Hin. apply Hk. right. exact Hin.
Qed.

Lemma dict_set_last {K V : Type} `{EqDecision K} (d : list (K * V)) (k : K)
    (v w : V) :
  k ∉ map fst d -> dict_set (d ++ [(k, v)]) k w = d ++ [(k, w)].
Proof.
  induction d as [|[k' v'] d IH]; intros Hk; cbn in *.
  - rewrite decide_True by reflexivity. reflexivity.
  - destruct (decide (k' = k)) as [->|Hne].
    + exfalso. apply Hk. left.
    + f_equal. apply IH. intros Hin. apply Hk. right. exact Hin.
Qed.

Lemma failures_nil_answers (outcomes : list (result string)) :
  failures outcomes = [] -> outcomes = map Ok (answers outcomes).
Proof.
  induction outcomes as [|[text|e] outcomes IH]; intros Hf.
  - reflexivity.
  - change (answers (Ok text :: outcomes)) with (text :: answers outcomes).
    cbn [map]. f_equal. apply IH. exact Hf.
  - discriminate Hf.
Qed.

Lemma elem_of_failures (outcomes : list (result string)) (e : exn) :
  e ∈ failures outcomes <-> Raise e ∈ outcomes.
Proof.
  unfold failures. rewrite list_elem_of_omap. split.
  - intros [[text|e'] [Hin Heq]]; [discriminate|]. injection Heq as ->.
    exact Hin.
  - intros Hin. exists (Raise e). split; [exact Hin|reflexivity].
Qed.

Lemma elem_of_concat_inv {A : Type} (x : A) (ls : list (list A)) :
  x ∈ concat ls -> exists l, x ∈ l /\ l ∈ ls.
Proof.
  induction ls as [|l0 ls IH]; cbn [concat]; [inversion 1|].
  rewrite elem_of_app. intros [H|H].
  - exists l0. split; [exact H|left].
  - destruct (IH H) as (l & Hx & Hl). exists l. split; [exact Hx|right; exact Hl].
Qed.

Section Run.

Context {P : Type}.
Variable describe : Clustering.cluster_record P -> string.
Variable earliest : list exn -> exn.
Variable client : Z -> string -> endpoint.
Variable narrator : Z -> endpoint.

Lemma gather_running_Ok_inv (outcomes : list (result string))
    (texts : list string) :
  gather_running earliest outcomes = Ok texts -> outcomes = map Ok texts.
Proof.
  unfold gather_running. destruct (failures outcomes) eqn:Hf; [|discriminate].
  intros [= <-]. apply failures_nil_answers. exact Hf.
Qed.

Lemma gather_running_Raise (outcomes : list (result string)) (e : exn) :
  (forall errs, errs <> [] -> earliest errs ∈ errs) ->
  Raise e ∈ outcomes ->
  exists e', Raise e' ∈ outcomes /\
             gather_running earliest outcomes = Raise e'.
Proof.
  intros Hearliest Hin. apply elem_of_failures in Hin.
  unfold gather_running. destruct (failures outcomes) as [|e0 errs] eqn:Hf.
  - inversion Hin.
  - exists (earliest (e0 :: errs)). split; [|reflexivity].
    apply elem_of_failures. rewrite Hf. apply Hearliest. discriminate.
Qed.

Lemma schedule_chars_Ok (cid : Z) (user : string)
    (char_prompts : list (string * prompt_entry)) (tasks : list scheduled) :
  schedule_chars cid user char_prompts = Ok tasks ->
  Forall2 (fun cp t => meta_cid t = cid /\ meta_char t = fst cp /\
                       prompt (snd cp) = Some (sched_system t) /\
                       sched_user t = user) char_prompts tasks.
Proof.
  revert tasks. induction char_prompts as [|[char prop] rest IH]; intros tasks.
  - intros [= <-]. constructor.
  - cbn [schedule_chars]. intros H.
    apply bind_Ok_inv in H as (system & Hsys & H).
    apply bind_Ok_inv in H as (more & Hmore & H). injection H as <-.
    constructor; [|apply IH; exact Hmore].
    cbn. destruct (prompt prop); [|discriminate]. injection Hsys as ->.
    repeat split.
Qed.

Lemma schedule_chars_raises (cid : Z) (user : string)
    (char_prompts : list (string * prompt_entry)) :
  (exists cp, cp ∈ char_prompts /\ prompt (snd cp) = None) ->
  schedule_chars cid user char_prompts = Raise (KeyError "prompt").
Proof.
  induction char_prompts as [|[char prop] rest IH]; intros (cp & Hin & Hnone).
  - inversion Hin.
  - cbn [schedule_chars]. destruct (prompt prop) as [system|] eqn:Hp.
    + cbn [getfield bind]. rewrite IH; [reflexivity|].
      exists cp. split; [|exact Hnone].
      apply elem_of_cons in Hin as [->|Hin]; [|exact Hin].
      cbn in Hnone. congruence.
    + reflexivity.
Qed.

Lemma schedule_Ok (clusters : list (Clustering.cluster_record P))
    (char_prompts : list (string * prompt_entry)) (tasks : list scheduled) :
  schedule describe clusters char_prompts = Ok tasks ->
  exists groups,
    tasks = concat groups /\
    Forall2 (fun row g =>
               schedule_chars (Clustering.cluster row) (describe row)
                 char_prompts = Ok g) clusters groups.
Proof.
  revert tasks. induction clusters as [|row rest IH]; intros tasks.
  - intros [= <-]. exists []. split; [reflexivity|constructor].
  - cbn [schedule]. intros H.
    apply bind_Ok_inv in H as (here & Hhere & H).
    apply bind_Ok_inv in H as (more & Hmore & H). injection H as <-.
    destruct (IH _ Hmore) as (groups & -> & Hgroups).
    exists (here :: groups). split; [reflexivity|].
    constructor; assumption.
Qed.

Lemma record_answers_group (cid : Z) (g : list scheduled) :
  forall (texts : list string) (acc : list (Z * list (string * string)))
         (partial : list (string * string)) (rest : list scheduled)
         (rtexts : list string),
    cid ∉ map fst acc ->
    Forall (fun t => meta_cid t = cid) g ->
    NoDup (map fst partial ++ map meta_char g) ->
    length texts = length g ->
    record_answers (acc ++ [(cid, partial)]) (g ++ rest) (texts ++ rtexts)
    = record_answers
        (acc ++ [(cid, partial ++ zip (map meta_char g) texts)]) rest rtexts.
Proof.
  induction g as [|t g IH]; intros texts acc partial rest rtexts Hcid Hall Hnd Hlen.
  - destruct texts; [|discriminate]. cbn. rewrite app_nil_r. reflexivity.
  - destruct texts as [|text texts]; [discriminate|].
    apply Forall_cons in Hall as [Ht Hall].
    cbn [app record_answers map zip zip_with].
    assert (Hstep : record_answer (acc ++ [(cid, partial)]) t text
                    = acc ++ [(cid, partial ++ [(meta_char t, text)])]).
    { unfold record_answer. rewrite Ht.
      rewrite (dict_get_last _ _ _ Hcid). cbn [from_option id].
      rewrite (dict_set_absent partial (meta_char t) text).
      - apply dict_set_last. exact Hcid.
      - intros Hin. apply NoDup_app in Hnd as (_ & Hdisj & _).
        apply (Hdisj _ Hin). left. }
    rewrite Hstep. rewrite IH.
    + rewrite <- app_assoc. reflexivity.
    + exact Hcid.
    + exact Hall.
    + rewrite map_app. cbn [map fst app]. rewrite <- app_assoc.
      cbn [app]. eapply NoDup_Permutation_proper; [|exact Hnd].
      cbn [map]. apply Permutation_app_head. reflexivity.
    + cbn in Hlen. lia.
Qed.

Lemma record_answers_new_group (cid : Z) (g : list scheduled)
    (texts : list string) (acc : list (Z * list (string * string)))
    (rest : list scheduled) (rtexts : list string) :
  g <> [] ->
  cid ∉ map fst acc ->
  Forall (fun t => meta_cid t = cid) g ->
  NoDup (map meta_char g) ->
  length texts = length g ->
  record_answers acc (g ++ rest) (texts ++ rtexts)
  = record_answers (acc ++ [(cid, zip (map meta_char g) texts)]) rest rtexts.
Proof.
  intros Hg Hcid Hall Hnd Hlen.
  destruct g as [|t g]; [contradiction|].
  destruct texts as [|text texts]; [discriminate|].
  apply Forall_cons in Hall as [Ht Hall].
  cbn [app record_answers map zip zip_with].
  assert (Hstep : record_answer acc t text
                  = acc ++ [(cid, [(meta_char t, text)])]).
  { unfold record_answer. rewrite Ht.
    rewrite (dict_get_absent _ _ Hcid). cbn [from_option dict_set].
    apply dict_set_absent. exact Hcid. }
  rewrite Hstep.
  rewrite (record_answers_group cid g texts acc [(meta_char t, text)]).
  - reflexivity.
  - exact Hcid.
  - exact Hall.
  - exact Hnd.
  - cbn in Hlen. lia.
Qed.

Lemma split_responses {A : Type} (f : A -> result string)
    (groups : list (list A)) :
  forall responses : list string,
    map f (concat groups) = map Ok responses ->
    exists tgroups,
      responses = concat tgroups /\
      Forall2 (fun g tg => Forall2 (fun t text => f t = Ok text) g tg)
        groups tgroups.
Proof.
  induction groups as [|g groups IH]; intros responses H.
  - destruct responses; [|discriminate].
    exists []. split; [reflexivity|constructor].
  - cbn [concat] in H. rewrite map_app in H.
    revert responses H. induction g as [|t g IHg]; intros responses H.
    + destruct (IH _ H) as (tgroups & -> & Hall).
      exists ([] :: tgroups). split; [reflexivity|].
      constructor; [constructor|exact Hall].
    + destruct responses as [|text responses]; [discriminate|].
      cbn in H. injection H as Ht H.
      destruct (IHg _ H) as (tgroups & -> & Hall).
      inversion Hall as [|g' tg groups' tgroups' Hg Hrest]; subst.
      exists ((text :: tg) :: tgroups'). split; [reflexivity|].
      constructor; [|exact Hrest].
      constructor; assumption.
Qed.

Lemma record_answers_clusters
    (char_prompts : list (string * prompt_entry))
    (clusters : list (Clustering.cluster_record P))
    (groups : list (list scheduled)) :
  char_prompts <> [] ->
  NoDup (map fst char_prompts) ->
  Forall2 (fun row g =>
             schedule_chars (Clustering.cluster row) (describe row)
               char_prompts = Ok g) clusters groups ->
  forall (tgroups : list (list string))
         (acc : list (Z * list (string * string))),
    Forall2 (fun (g : list scheduled) (tg : list string) =>
               length tg = length g) groups tgroups ->
    NoDup (map fst acc ++ map Clustering.cluster clusters) ->
    record_answers acc (concat groups) (concat tgroups)
    = acc ++ zip_with (fun row tg =>
                         (Clustering.cluster row,
                          zip (map fst char_prompts) tg)) clusters tgroups.
Proof.
  intros Hne Hchars Hsched.
  induction Hsched as [|row g clusters groups Hg Hrest IH];
    intros tgroups acc Hlen Hnd.
  - inversion Hlen; subst. cbn. rewrite app_nil_r. reflexivity.
  - inversion Hlen as [|g' tg groups' tgroups' Htg Hlens]; subst.
    apply schedule_chars_Ok in Hg.
    assert (Hmeta : map meta_char g = map fst char_prompts).
    { clear -Hg. induction Hg as [|cp t cps ts (_ & Hc & _) _ IHg];
        [reflexivity|]. cbn. rewrite Hc, IHg. reflexivity. }
    assert (Hcids : Forall (fun t => meta_cid t = Clustering.cluster row) g).
    { clear -Hg. induction Hg as [|cp t cps ts (Hc & _) _ IHg];
        constructor; assumption. }
    cbn [concat zip_with map] in *.
    rewrite (record_answers_new_group (Clustering.cluster row)).
    + rewrite Hmeta. rewrite IH.
      * rewrite <- app_assoc. reflexivity.
      * exact Hlens.
      * rewrite map_app. cbn [map fst]. rewrite <- app_assoc. exact Hnd.
    + intros ->. inversion Hg; subst. contradiction.
    + intros Hin. apply NoDup_app in Hnd as (_ & Hdisj & _).
      apply (Hdisj _ Hin). left.
    + exact Hcids.
    + rewrite Hmeta. exact Hchars.
    + exact Htg.
Qed.

Lemma narrate_Ok (narrator_tmpl : list segment) (lang : string)
    (results : list (Z * list (string * string))) :
  forall (done narrated : list (Z * string)),
    NoDup (map fst done ++ map fst results) ->
    narrate narrator narrator_tmpl lang results done = Ok narrated ->
    exists more,
      narrated = done ++ more /\
      Forall2 (fun entry n =>
                 fst n = fst entry /\
                 exists system,
                   format narrator_tmpl {["lang" := lang]} = Ok system /\
                   call_gpt_async (narrator (fst entry)) system
                     (join separator (map snd (snd entry))) (dec 5 1)
                   = Ok (snd n)) results more.
Proof.
  induction results as [|[cid char_dict] rest IH]; intros done narrated Hnd H.
  - injection H as <-. exists []. split; [rewrite app_nil_r; reflexivity|].
    constructor.
  - cbn [narrate] in H.
    apply bind_Ok_inv in H as (system & Hsys & H).
    apply bind_Ok_inv in H as (text & Htext & H).
    assert (Hcid : cid ∉ map fst done).
    { intros Hin. apply NoDup_app in Hnd as (_ & Hdisj & _).
      apply (Hdisj _ Hin). left. }
    rewrite (dict_set_absent _ _ _ Hcid) in H.
    apply IH in H as (more & -> & Hmore).
    + exists ((cid, text) :: more). split; [rewrite <- app_assoc; reflexivity|].
      constructor; [|exact Hmore].
      split; [reflexivity|]. exists system. split; assumption.
    + rewrite map_app. cbn [map fst]. rewrite <- app_assoc. exact Hnd.
Qed.

Lemma narrate_Raise_inv (narrator_tmpl : list segment) (lang : string)
    (results : list (Z * list (string * string))) (e : exn) :
  forall done : list (Z * string),
    narrate narrator narrator_tmpl lang results done = Raise e ->
    format narrator_tmpl {["lang" := lang]} = Raise e
    \/ exists entry system,
         entry ∈ results /\
         format narrator_tmpl {["lang" := lang]} = Ok system /\
         call_gpt_async (narrator (fst entry)) system
           (join separator (map snd (snd entry))) (dec 5 1) = Raise e.
Proof.
  induction results as [|[cid char_dict] rest IH]; intros done H.
  - discriminate H.
  - cbn [narrate] in H.
    apply bind_Raise_inv in H as [Hfmt|(system & Hsys & H)]; [left; exact Hfmt|].
    apply bind_Raise_inv in H as [Hcall|(text & Htext & H)].
    + right. exists (cid, char_dict), system. split; [left|]. split; assumption.
    + apply IH in H as [Hfmt|(entry & system' & Hin & Hfmt & Hcall)];
        [left; exact Hfmt|].
      right. exists entry, system'. split; [right; exact Hin|].
      split; assumption.
Qed.

Lemma schedule_nil (clusters : list (Clustering.cluster_record P)) :
  schedule describe clusters [] = Ok [].
Proof.
  induction clusters as [|row rest IH]; [reflexivity|].
  cbn [schedule schedule_chars bind]. rewrite IH. reflexivity.
Qed.

Lemma main_calls_with_key (clusters : list (Clustering.cluster_record P))
    (char_prompts : list (string * prompt_entry))
    (narrator_tmpl : list segment) (lang api_key : string) :
  api_key <> "" ->
  main_calls describe earliest client narrator clusters char_prompts
    narrator_tmpl lang (Some api_key)
  = let* tasks := schedule describe clusters char_prompts in
    let* responses := gather_running earliest (map (run_task client) tasks) in
    let cluster_results := record_answers [] tasks responses in
    let* narrator_results :=
      narrate narrator narrator_tmpl lang cluster_results [] in
    Ok (cluster_results, narrator_results).
Proof.
  intros Hkey. destruct api_key; [contradiction|]. reflexivity.
Qed.

Lemma main_calls_Ok_key (clusters : list (Clustering.cluster_record P))
    (char_prompts : list (string * prompt_entry))
    (narrator_tmpl : list segment) (lang : string) (api_key : option string)
    (out : list (Z * list (string * string)) * list (Z * string)) :
  main_calls describe earliest client narrator clusters char_prompts
    narrator_tmpl lang api_key = Ok out ->
  exists key, api_key = Some key /\ key <> "".
Proof.
  destruct api_key as [[|a key]|]; try discriminate.
  intros _. eexists. split; [reflexivity|discriminate].
Qed.

(** X21: a run that ends well has one entry per cluster, in the order of the
    clusters, holding one answer per character, in the order of the
    template; each answer is what the service gave for that cluster and
    character, and each summary is the narrator's answer to exactly the
    answers of its cluster, joined by the separator. *)
Theorem finished_run_holds_every_answer
    (clusters : list (Clustering.cluster_record P))
    (char_prompts : list (string * prompt_entry))
    (narrator_tmpl : list segment) (lang : string) (api_key : option string)
    (cluster_results : list (Z * list (string * string)))
    (narrator_results : list (Z * string))
    (Hchars : char_prompts <> [])
    (Hnames : NoDup (map fst char_prompts))
    (Hcids : NoDup (map Clustering.cluster clusters))
    (Hrun : main_calls describe earliest client narrator clusters
              char_prompts narrator_tmpl lang api_key
            = Ok (cluster_results, narrator_results)) :
  exists answers_of : list (list string),
    cluster_results
    = zip_with (fun row texts =>
                  (Clustering.cluster row, zip (map fst char_prompts) texts))
        clusters answers_of
    /\ Forall2 (fun row texts =>
                  Forall2 (fun cp text =>
                             exists system,
                               prompt (snd cp) = Some system /\
                               call_gpt_async
                                 (client (Clustering.cluster row) (fst cp))
                                 system (describe row) (dec 7 1) = Ok text)
                    char_prompts texts) clusters answers_of
    /\ Forall2 (fun entry n =>
                  fst n = fst entry /\
                  exists system,
                    format narrator_tmpl {["lang" := lang]} = Ok system /\
                    call_gpt_async (narrator (fst entry)) system
                      (join separator (map snd (snd entry))) (dec 5 1)
                    = Ok (snd n)) cluster_results narrator_results.
Proof.
  destruct (main_calls_Ok_key _ _ _ _ _ _ Hrun) as (key & -> & Hkey).
  rewrite (main_calls_with_key _ _ _ _ _ Hkey) in Hrun.
  apply bind_Ok_inv in Hrun as (tasks & Htasks & Hrun).
  apply bind_Ok_inv in Hrun as (responses & Hresp & Hrun).
  cbn zeta in Hrun.
  apply bind_Ok_inv in Hrun as (narrated & Hnarr & Hrun).
  injection Hrun as <- <-.
  apply schedule_Ok in Htasks as (groups & -> & Hgroups).
  apply gather_running_Ok_inv in Hresp.
  apply split_responses in Hresp as (answers_of & -> & Hans).
  assert (Hshape : record_answers [] (concat groups) (concat answers_of)
                   = zip_with (fun row texts =>
                                 (Clustering.cluster row,
                                  zip (map fst char_prompts) texts))
                       clusters answers_of).
  { rewrite (record_answers_clusters char_prompts clusters groups
               Hchars Hnames Hgroups answers_of []).
    - reflexivity.
    - eapply Forall2_impl; [exact Hans|].
      intros g tg H. symmetry. exact (Forall2_length _ _ _ H).
    - exact Hcids. }
  exists answers_of. split; [exact Hshape|]. split.
  - clear -Hgroups Hans. revert answers_of Hans.
    induction Hgroups as [|row g clusters groups Hg _ IH];
      intros answers_of Hans; inversion Hans as [|? tg ? tgs Htg Hrest]; subst;
      constructor; [|apply IH; exact Hrest].
    apply schedule_chars_Ok in Hg. clear -Hg Htg.
    revert tg Htg.
    induction Hg as [|cp t cps ts (Hcid & Hchar & Hsys & Huser) _ IHg];
      intros tg Htg; inversion Htg as [|? text ? texts Hcall Hcalls]; subst;
      constructor; [|apply IHg; exact Hcalls].
    exists (sched_system t). split; [exact Hsys|].
    unfold run_task in Hcall. rewrite Hcid, Hchar, Huser in Hcall.
    exact Hcall.
  - rewrite Hshape in Hnarr |- *.
    apply narrate_Ok in Hnarr as (more & -> & Hmore); [exact Hmore|].
    cbn [map app].
    assert (Hkeys : forall (cs : list (Clustering.cluster_record P))
                           (tgs : list (list string)),
               length cs = length tgs ->
               map fst (zip_with (fun row texts =>
                           (Clustering.cluster row,
                            zip (map fst char_prompts) texts)) cs tgs)
               = map Clustering.cluster cs).
    { induction cs as [|c cs IHcs]; intros [|tg tgs] Hl; try discriminate;
        [reflexivity|]. cbn. f_equal. apply IHcs. cbn in Hl. lia. }
    rewrite Hkeys; [exact Hcids|].
    rewrite (Forall2_length _ _ _ Hgroups).
    exact (Forall2_length _ _ _ Hans).
Qed.

(** X22: one character call that fails for good is enough for the step to
    raise, whatever the other calls and the narrator do; the exception is
    that of a failed character call. *)
Theorem one_failed_call_stops_the_report
    (clusters : list (Clustering.cluster_record P))
    (char_prompts : list (string * prompt_entry))
    (narrator_tmpl : list segment) (lang api_key : string)
    (tasks : list scheduled) (t : scheduled) (e : exn)
    (Hkey : api_key <> "")
    (Hearliest : forall errs, errs <> [] -> earliest errs ∈ errs)
    (Htasks : schedule describe clusters char_prompts = Ok tasks)
    (Ht : t ∈ tasks)
    (Hfail : run_task client t = Raise e) :
  exists t' e',
    t' ∈ tasks /\ run_task client t' = Raise e' /\
    main_calls describe earliest client narrator clusters char_prompts
      narrator_tmpl lang (Some api_key) = Raise e'.
Proof.
  rewrite (main_calls_with_key _ _ _ _ _ Hkey), Htasks. cbn [bind].
  destruct (gather_running_Raise (map (run_task client) tasks) e Hearliest)
    as (e' & Hin & Hraise).
  { rewrite <- Hfail. apply list_elem_of_fmap. exists t. split; [reflexivity|exact Ht]. }
  apply list_elem_of_fmap in Hin as (t' & Heq & Hin).
  exists t', e'. split; [exact Hin|]. split; [symmetry; exact Heq|].
  rewrite Hraise. reflexivity.
Qed.

(** X23: when the step raises, the cause is one of five: no API key, a
    character entry without a prompt, a character call that failed for
    good, a narrator template that asks for more than the language, or a
    narrator call that failed for good. *)
Theorem why_the_calls_raise
    (clusters : list (Clustering.cluster_record P))
    (char_prompts : list (string * prompt_entry))
    (narrator_tmpl : list segment) (lang : string) (api_key : option string)
    (e : exn)
    (Hearliest : forall errs, errs <> [] -> earliest errs ∈ errs)
    (Hrun : main_calls describe earliest client narrator clusters
              char_prompts narrator_tmpl lang api_key = Raise e) :
  (api_key = None \/ api_key = Some "") /\ exn_type e = "OSError"
  \/ (exists cp, cp ∈ char_prompts /\ prompt (snd cp) = None)
     /\ clusters <> [] /\ e = KeyError "prompt"
  \/ (exists row cp system,
        row ∈ clusters /\ cp ∈ char_prompts /\
        prompt (snd cp) = Some system /\
        call_gpt_async (client (Clustering.cluster row) (fst cp)) system
          (describe row) (dec 7 1) = Raise e)
  \/ format narrator_tmpl {["lang" := lang]} = Raise e
  \/ (exists cid system joined,
        format narrator_tmpl {["lang" := lang]} = Ok system /\
        call_gpt_async (narrator cid) system joined (dec 5 1) = Raise e).
Proof.
  destruct api_key as [[|a key]|].
  - left. injection Hrun as <-. split; [right; reflexivity|reflexivity].
  - right.
    rewrite (main_calls_with_key _ _ _ _ (String a key)) in Hrun
      by discriminate.
    apply bind_Raise_inv in Hrun as [Hsched|(tasks & Htasks & Hrun)].
    + left. clear -Hsched. induction clusters as [|row rest IH];
        [discriminate|].
      cbn [schedule] in Hsched.
      apply bind_Raise_inv in Hsched as [Hhere|(here & Hhere & Hmore)].
      * assert (Hcp : exists cp, cp ∈ char_prompts /\ prompt (snd cp) = None
                                 /\ e = KeyError "prompt").
        { clear -Hhere. induction char_prompts as [|[char prop] cps IHc];
            [discriminate|].
          cbn [schedule_chars] in Hhere.
          apply bind_Raise_inv in Hhere as [Hget|(system & Hget & Hhere)].
          - destruct (prompt prop) eqn:Hp; [discriminate|].
            injection Hget as <-.
            exists (char, prop). split; [left|]. split; [exact Hp|reflexivity].
          - apply bind_Raise_inv in Hhere as [Hrest|(more & _ & Hhere)];
              [|discriminate].
            destruct (IHc Hrest) as (cp & Hin & Hnone & He).
            exists cp. split; [right; exact Hin|]. split; assumption. }
        destruct Hcp as (cp & Hin & Hnone & He).
        split; [exists cp; split; assumption|]. split; [discriminate|exact He].
      * apply bind_Raise_inv in Hmore as [Hmore|(more & _ & Hmore)];
          [|discriminate].
        destruct (IH Hmore) as (Hcp & _ & He).
        split; [exact Hcp|]. split; [discriminate|exact He].
    + right.
      apply bind_Raise_inv in Hrun as [Hgather|(responses & Hresp & Hrun)].
      * left. unfold gather_running in Hgather.
        destruct (failures (map (run_task client) tasks)) as [|e0 errs] eqn:Hf;
          [discriminate|].
        injection Hgather as <-.
        assert (Hin : earliest (e0 :: errs)
                      ∈ failures (map (run_task client) tasks)).
        { rewrite Hf. apply Hearliest. discriminate. }
        apply elem_of_failures, list_elem_of_fmap in Hin as (t & Hcall & Hin).
        apply schedule_Ok in Htasks as (groups & -> & Hgroups).
        apply elem_of_concat_inv in Hin as (g & Htg & Hg).
        clear -Hgroups Hg Htg Hcall.
        induction Hgroups as [|row g' cs gs Hrow _ IH]; [inversion Hg|].
        apply elem_of_cons in Hg as [<-|Hg].
        -- apply schedule_chars_Ok in Hrow.
           assert (Hcp : exists cp, cp ∈ char_prompts /\
                           meta_cid t = Clustering.cluster row /\
                           meta_char t = fst cp /\
                           prompt (snd cp) = Some (sched_system t) /\
                           sched_user t = describe row).
           { clear -Hrow Htg.
             induction Hrow as [|cp t' cps ts Hprops _ IHr]; [inversion Htg|].
             apply elem_of_cons in Htg as [->|Htg].
             - exists cp. split; [left|exact Hprops].
             - destruct (IHr Htg) as (cp' & Hin & Hprops').
               exists cp'. split; [right; exact Hin|exact Hprops']. }
           destruct Hcp as (cp & Hin & Hcid & Hchar & Hsys & Huser).
           exists row, cp, (sched_system t).
           split; [left|]. split; [exact Hin|]. split; [exact Hsys|].
           unfold run_task in Hcall.
           rewrite Hcid, Hchar, Huser in Hcall. symmetry. exact Hcall.
        -- destruct (IH Hg) as (row' & cp & system & Hin & Hrest).
           exists row', cp, system. split; [right; exact Hin|exact Hrest].
      * right. cbn zeta in Hrun.
        apply bind_Raise_inv in Hrun as [Hnarr|(narrated & _ & Hrun)];
          [|discriminate].
        apply narrate_Raise_inv in Hnarr
          as [Hfmt|(entry & system & _ & Hfmt & Hcall)];
          [left; exact Hfmt|].
        right. exists (fst entry), system, (join separator (map snd (snd entry))).
        split; assumption.
  - left. injection Hrun as <-. split; [left; reflexivity|reflexivity].
Qed.

(** X24: a character entry without a prompt makes the step raise a [KeyError]
    as soon as there is one cluster, before any answer is awaited. *)
Theorem entry_without_prompt_raises
    (clusters : list (Clustering.cluster_record P))
    (char_prompts : list (string * prompt_entry))
    (narrator_tmpl : list segment) (lang api_key : string)
    (cp : string * prompt_entry)
    (Hkey : api_key <> "")
    (Hclusters : clusters <> [])
    (Hcp : cp ∈ char_prompts)
    (Hnone : prompt (snd cp) = None) :
  main_calls describe earliest client narrator clusters char_prompts
    narrator_tmpl lang (Some api_key) = Raise (KeyError "prompt").
Proof.
  rewrite (main_calls_with_key _ _ _ _ _ Hkey).
  destruct clusters as [|row rest]; [contradiction|].
  cbn [schedule]. rewrite schedule_chars_raises; [reflexivity|].
  exists cp. split; assumption.
Qed.

(** X25: with an empty table of characters the step makes no call and its
    results are empty, whatever the clusters: no cluster reaches the
    report, and the narrator is never asked. *)
Theorem no_characters_no_sections
    (clusters : list (Clustering.cluster_record P))
    (narrator_tmpl : list segment) (lang api_key : string)
    (Hkey : api_key <> "") :
  main_calls describe earliest client narrator clusters [] narrator_tmpl
    lang (Some api_key) = Ok ([], []).
Proof.
  rewrite (main_calls_with_key _ _ _ _ _ Hkey), schedule_nil. reflexivity.
Qed.

End Run.

Lemma sample_earliest_picks (errs : list exn) :
  errs <> [] -> sample_earliest errs ∈ errs.
Proof.
  destruct errs as [|e errs]; [contradiction|]. intros _. left.
Qed.

Lemma finished_run_holds_every_answer_witness :
  exists cluster_results narrator_results,
    main_calls sample_describe sample_earliest steady_client sample_narrator
      sample_clusters sample_characters sample_narrator_tmpl "en"
      (Some "sk-test") = Ok (cluster_results, narrator_results)
    /\ Forall2 (fun entry n =>
                  fst n = fst entry /\
                  exists system,
                    format sample_narrator_tmpl {["lang" := "en"]} = Ok system /\
                    call_gpt_async (sample_narrator (fst entry)) system
                      (join separator (map snd (snd entry))) (dec 5 1)
                    = Ok (snd n)) cluster_results narrator_results.
Proof.
  destruct (main_calls sample_describe sample_earliest steady_client
              sample_narrator sample_clusters sample_characters
              sample_narrator_tmpl "en" (Some "sk-test"))
    as [[cluster_results narrator_results]|] eqn:Hrun;
    [|vm_compute in Hrun; discriminate].
  exists cluster_results, narrator_results. split; [reflexivity|].
  destruct (finished_run_holds_every_answer sample_describe sample_earliest
              steady_client sample_narrator sample_clusters sample_characters
              sample_narrator_tmpl "en" (Some "sk-test") cluster_results
              narrator_results) as (answers_of & _ & _ & H).
  - discriminate.
  - refine (bool_decide_unpack _ _). vm_compute. exact I.
  - refine (bool_decide_unpack _ _). vm_compute. exact I.
  - exact Hrun.
  - exact H.
Defined.

Lemma one_failed_call_stops_the_report_witness :
  exists e,
    main_calls sample_describe sample_earliest flaky_client sample_narrator
      sample_clusters sample_characters sample_narrator_tmpl "en"
      (Some "sk-test") = Raise e.
Proof.
  destruct (schedule sample_describe sample_clusters sample_characters)
    as [tasks|] eqn:Htasks; [|vm_compute in Htasks; discriminate].
  destruct (one_failed_call_stops_the_report sample_describe sample_earliest
              flaky_client sample_narrator sample_clusters sample_characters
              sample_narrator_tmpl "en" "sk-test" tasks
              {| meta_cid := 1; meta_char := "Skeptic";
                 sched_system := "You doubt."; sched_user := "cluster 1" |}
              (Exn "RateLimitError" "slow down"))
    as (t' & e' & _ & _ & H).
  - discriminate.
  - exact sample_earliest_picks.
  - exact Htasks.
  - vm_compute in Htasks. injection Htasks as <-.
    apply list_elem_of_In. cbn. tauto.
  - vm_compute. reflexivity.
  - exists e'. exact H.
Defined.

Lemma why_the_calls_raise_witness :
  main_calls sample_describe sample_earliest steady_client sample_narrator
    sample_clusters sample_characters [Field "language"] "en"
    (Some "sk-test") = Raise (KeyError "language")
  /\ format [Field "language"] {["lang" := "en"]}
     = Raise (KeyError "language").
Proof.
  assert (Hrun : main_calls sample_describe sample_earliest steady_client
                   sample_narrator sample_clusters sample_characters
                   [Field "language"] "en" (Some "sk-test")
                 = Raise (KeyError "language")) by (vm_compute; reflexivity).
  split; [exact Hrun|].
  destruct (why_the_calls_raise sample_describe sample_earliest steady_client
              sample_narrator sample_clusters sample_characters
              [Field "language"] "en" (Some "sk-test") (KeyError "language")
              sample_earliest_picks Hrun)
    as [[_ H]|[(_ & _ & H)|[(row & cp & system & _ & _ & _ & H)|[H|H]]]].
  - vm_compute in H. discriminate.
  - vm_compute in H. discriminate.
  - vm_compute. reflexivity.
  - exact H.
  - vm_compute. reflexivity.
Defined.

Lemma entry_without_prompt_raises_witness :
  main_calls sample_describe sample_earliest steady_client sample_narrator
    sample_clusters [("Explorer", {| prompt := Some "You explore." |});
                     ("Skeptic", {| prompt := None |})]
    sample_narrator_tmpl "en" (Some "sk-test") = Raise (KeyError "prompt").
Proof.
  apply (entry_without_prompt_raises sample_describe sample_earliest
           steady_client sample_narrator sample_clusters _
           sample_narrator_tmpl "en" "sk-test"
           ("Skeptic", {| prompt := None |})).
  - discriminate.
  - discriminate.
  - right. left.
  - reflexivity.
Defined.

Lemma no_characters_no_sections_witness :
  main_calls sample_describe sample_earliest flaky_client sample_narrator
    sample_clusters [] sample_narrator_tmpl "en" (Some "sk-test")
  = Ok ([], []).
Proof.
  apply (no_characters_no_sections sample_describe sample_earliest
           flaky_client sample_narrator sample_clusters sample_narrator_tmpl
           "en" "sk-test").
  discriminate.
Defined.

End HypothesesFacts.
